(** * SkillSwap-Server: the rating ledger and its guards

    A shallow embedding of the rating code of the repository, which holds
    two back ends side by side:

    - the Sequelize controllers ([createRating], [getUserRatings] and the
      helper [updateUserAverageRating] of the ratings controller, over the
      models of [models/Rating.js] and [models/User.js]);
    - the raw-SQL Express routes ([POST /api/ratings],
      [GET /api/ratings/:userId], [DELETE /api/ratings/:id]) over the
      tables of the SQL schema, with the middleware [authenticateToken],
      [requireAdmin] and [requireOwnerOrAdmin].

    Every [await] of a handler is one atomic step on the database; a
    handler is a tree of such steps ([Task]), run either alone or with
    other requests' writes landing between its steps. *)

From Stdlib Require Import ZArith QArith Qabs List Bool String Lia.
Import ListNotations.

Local Open Scope Z_scope.

(** ** JavaScript numbers, as far as the handlers use them

    A number read from a numeric column is kept as the rational its text
    denotes, [JNum q]; the value the program holds is the double nearest
    to it, [binary64 q].  [NaN] and [Infinity] are kept because
    [parseFloat(null)] and a division by zero produce them. *)

(** [floor (log2 q)] for a positive rational. *)
Definition ilog2 (q : Q) : Z :=
  let a := Qnum q in
  let b := Zpos (Qden q) in
  let k := Z.log2 a - Z.log2 b in
  if (if 0 <=? k then b * 2 ^ k <=? a else b <=? a * 2 ^ (- k))
  then k else k - 1.

(** Nearest integer, the even one on a tie. *)
Definition round_half_even (q : Q) : Z :=
  let a := Qnum q in
  let b := Zpos (Qden q) in
  match 2 * (a mod b) ?= b with
  | Lt => a / b
  | Gt => a / b + 1
  | Eq => if Z.even (a / b) then a / b else a / b + 1
  end.

Definition pow2 (e : Z) : Q :=
  if 0 <=? e then inject_Z (2 ^ e) else 1 # Z.to_pos (2 ^ (- e)).

(** The IEEE double nearest to a rational: 53 significant bits, round to
    nearest, ties to even, exponents from -1074 (the numbers of the
    handlers are far from the overflow threshold). *)
Definition binary64 (q : Q) : Q :=
  let nearest x :=
    let e := Z.max (ilog2 x - 52) (-1074) in
    (inject_Z (round_half_even (x / pow2 e)) * pow2 e)%Q in
  match Qnum q with
  | 0 => 0%Q
  | Zpos _ => nearest q
  | Zneg _ => (- nearest (- q))%Q
  end.

Inductive jsnum : Type :=
| JNaN
| JInf
| JNum (q : Q).

(** [parseFloat] of a column that is [null] or a numeric string. *)
Definition parseFloat (v : option Q) : jsnum :=
  match v with
  | None => JNaN
  | Some q => JNum q
  end.

(** [v || 0] on a column that is [null] or a numeric string (a non-empty
    string is truthy). *)
Definition or_zero (v : option Q) : option Q :=
  match v with
  | None => Some 0%Q
  | Some q => Some q
  end.

(** The result of [Number.prototype.toFixed(d)]: the digits scaled by
    [10^d], or one of the two non-numeric strings. *)
Inductive fixed : Type :=
| FNaN
| FInfinity
| FDec (scaled : Z).

(** Nearest integer to [q * 10^d], the larger one on a tie: the digits
    [toFixed(d)] prints for a number whose exact value is [q]. *)
Definition round_scaled (d : Z) (q : Q) : Z :=
  (2 * Qnum q * 10 ^ d + Zpos (Qden q)) / (2 * Zpos (Qden q)).

(** [q * 10^d] lies exactly halfway between two integers. *)
Definition halfway (d : Z) (q : Q) : bool :=
  let a := 2 * Qnum q * 10 ^ d in
  let b := Zpos (Qden q) in
  (a mod b =? 0) && Z.odd (a / b).

(** The digits [toFixed(d)] prints for the double read from the text
    [q].  The texts formatted here are means of stars: quotients of a sum
    by a count that fits an [INTEGER].  Such a [q], unless it is halfway
    itself, is much farther from every halfway point than from its
    double, so the digits are those of [q]; when [q] is halfway, the side
    on which its double lies decides (1.15 prints as 1.1 and 1.025 as
    1.02, while 1.125, a double, prints as 1.13).  Lemmas
    [toFixed_of_the_double] and [toFixed_of_the_text] below compare this
    with the rounding of the double itself. *)
Definition round_double (d : Z) (q : Q) : Z :=
  if halfway d q && negb (Qle_bool q (binary64 q))
  then round_scaled d q - 1
  else round_scaled d q.

Definition toFixed (d : Z) (x : jsnum) : fixed :=
  match x with
  | JNaN => FNaN
  | JInf => FInfinity
  | JNum q =>
      if Qnum q <? 0 then FDec (- round_double d (Qopp q))
      else FDec (round_double d q)
  end.

(** [Math.ceil(total / limit)] on a non-negative integer [total]. *)
Definition ceil_div (total limit : Z) : jsnum :=
  if limit =? 0 then (if total =? 0 then JNaN else JInf)
  else JNum (inject_Z (- ((- total) / limit))).

(** ** SQL aggregates over a column of integers *)

Definition SUM (col : list Z) : Z := fold_right Z.add 0 col.

Definition COUNT {A} (rows : list A) : Z := Z.of_nat (List.length rows).

(** [AVG] is [NULL] over no rows.  Over some rows it is the quotient of
    the sum by the count, which PostgreSQL hands over as a decimal text
    of at least 16 decimals; the quotient itself is kept here (see
    [toFixed_of_the_text]). *)
Definition AVG (col : list Z) : option Q :=
  match col with
  | [] => None
  | _ :: _ => Some (SUM col # Pos.of_nat (List.length col))
  end.

(** ** Store errors *)

Inductive DbError : Type :=
| UniqueViolation
| ForeignKeyViolation
| CheckViolation
| ModelValidationError
| NumericOverflow
| NegativeLimitOrOffset.

(** The values of an [INTEGER] column and of a [bigint], and the
    integers that doubles count exactly. *)
Definition int4 (z : Z) : bool := (- 2 ^ 31 <=? z) && (z <? 2 ^ 31).
Definition int8 (z : Z) : bool := (- 2 ^ 63 <=? z) && (z <? 2 ^ 63).
Definition safe_integer (z : Z) : bool := Z.abs z <=? 2 ^ 53.

(** ** Handlers as trees of awaited store steps *)

Section Tasks.
Context {Db : Type}.

(** One awaited call: it may change the store and either yields a value
    or throws. *)
Definition step (A : Type) : Type := Db -> Db * (A + DbError).

Inductive Task (R : Type) : Type :=
| Return (r : R)
| Await {A : Type} (q : step A) (k : A -> Task R).

Arguments Return {R} r.
Arguments Await {R A} q k.

Fixpoint bind {A B} (t : Task A) (f : A -> Task B) : Task B :=
  match t with
  | Return a => f a
  | Await q k => Await q (fun x => bind (k x) f)
  end.

(** Runs a task; before each awaited step the next pending write of the
    other requests ([others]) lands on the store. *)
Fixpoint run_with {R} (others : list (Db -> Db)) (t : Task R) (db : Db)
  : Db * (R + DbError) :=
  match t with
  | Return r => (db, inl r)
  | Await q k =>
      let db1 := match others with
                 | [] => db
                 | w :: _ => w db
                 end in
      let (db2, res) := q db1 in
      match res with
      | inl a => run_with (tl others) (k a) db2
      | inr e => (db2, inr e)
      end
  end.

(** A request handled with no other request in flight. *)
Definition run {R} (t : Task R) (db : Db) : Db * (R + DbError) :=
  run_with [] t db.

(** [try { ... } catch (error) { ... }] around a whole handler. *)
Definition try_catch {R} (res : Db * (R + DbError)) (handler : DbError -> R)
  : Db * R :=
  match res with
  | (db, inl r) => (db, r)
  | (db, inr e) => (db, handler e)
  end.

(** Every awaited step of the task keeps the property [I] of the store. *)
Fixpoint steps_preserve {R} (I : Db -> Prop) (t : Task R) : Prop :=
  match t with
  | Return _ => True
  | Await q k =>
      (forall db, I db -> I (fst (q db)))
      /\ (forall a, steps_preserve I (k a))
  end.

End Tasks.

Arguments Return {Db R} r.
Arguments Await {Db R A} q k.

Notation "x <- q ;; k" := (Await q (fun x => k))
  (at level 61, q at next level, right associativity).
Notation "x <~ t ;; k" := (bind t (fun x => k))
  (at level 61, t at next level, right associativity).

(** JavaScript truthiness of a number that is not [NaN]. *)
Definition truthy (z : Z) : bool := negb (z =? 0).

(** ** The Sequelize back end *)

Module Sequelize.

(** A [DECIMAL(3,2)] column: hundredths, or PostgreSQL's numeric [NaN]. *)
Inductive decimal : Type :=
| DNaN
| DVal (hundredths : Z).

(** [models/User.js]: the key and the two summary columns, both
    defaulting to 0. *)
Record User : Type := mkUser {
  user_id : Z;
  averageRating : decimal;
  totalRatings : Z
}.

(** [models/Rating.js]. *)
Record Rating : Type := mkRating {
  rating_id : Z;
  raterId : Z;
  ratedUserId : Z;
  skillId : option Z;
  rating : Z;
  comment : option string
}.

(** The tables, the ratings in insertion order ([createdAt] grows with
    it), the ids of the skills table, and the last value issued by the
    sequence behind [ratings.id]. *)
Record Db : Type := mkDb {
  users : list User;
  skills : list Z;
  ratings : list Rating;
  ratings_id_seq : Z
}.

(** [req.body] of [createRating], its fields already numbers. *)
Record Body : Type := mkBody {
  req_ratedUserId : Z;
  req_skillId : option Z;
  req_rating : Z;
  req_comment : option string
}.

Inductive Reply : Type :=
| ErrorJson (status : Z) (error : string)
| CreatedJson (message : string) (r : option Rating)
| RatingsJson (rs : list Rating) (total : Z)
| NextError (e : DbError).

(** [createRatingSchema.parse]: [None] stands for the thrown [ZodError]. *)
Definition createRatingSchema_parse (b : Body) : option Body :=
  if (0 <? req_ratedUserId b)
     && match req_skillId b with
        | None => true
        | Some s => 0 <? s
        end
     && (1 <=? req_rating b) && (req_rating b <=? 5)
  then Some b else None.

(** The [where] object of the duplicate check: the [skillId] key is
    spread in only when the request's [skillId] is truthy. *)
Definition where_existing (rater : Z) (data : Body) (r : Rating) : bool :=
  (raterId r =? rater)
  && (ratedUserId r =? req_ratedUserId data)
  && match req_skillId data with
     | None => true
     | Some s =>
         if truthy s
         then match skillId r with
              | Some s' => s' =? s
              | None => false
              end
         else true
     end.

Definition Rating_findOne (cond : Rating -> bool) : @step Db (option Rating) :=
  fun db => (db, inl (find cond (ratings db))).

Definition Rating_findByPk (pk : Z) : @step Db (option Rating) :=
  fun db => (db, inl (find (fun r => rating_id r =? pk) (ratings db))).

Definition user_exists (db : Db) (u : Z) : bool :=
  existsb (fun x => user_id x =? u) (users db).

Definition skill_exists (db : Db) (s : Z) : bool :=
  existsb (fun x => x =? s) (skills db).

(** A [ratedUserId] or [skillId] outside the range of its [INTEGER]
    column; no row of the table referred to carries such an id. *)
Definition beyond_integer (db : Db) (data : Body) : bool :=
  (negb (int4 (req_ratedUserId data))
   && negb (user_exists db (req_ratedUserId data)))
  || match req_skillId data with
     | None => false
     | Some s => negb (int4 s) && negb (skill_exists db s)
     end.

(** [Rating.create({...validatedData, raterId})]: the model's [min]/[max]
    validators run first; a value outside the range of its column makes
    the statement fail before an id is drawn; otherwise the insert draws
    the next id (also when the row is then refused) and is checked
    against the three [references]. *)
Definition Rating_create (data : Body) (rater : Z) : @step Db Rating :=
  fun db =>
    if negb ((1 <=? req_rating data) && (req_rating data <=? 5))
    then (db, inr ModelValidationError)
    else if beyond_integer db data
    then (db, inr NumericOverflow)
    else
      let new_id := ratings_id_seq db + 1 in
      let row := mkRating new_id rater (req_ratedUserId data)
                   (req_skillId data) (req_rating data) (req_comment data) in
      if user_exists db rater
         && user_exists db (req_ratedUserId data)
         && match req_skillId data with
            | None => true
            | Some s => skill_exists db s
            end
      then (mkDb (users db) (skills db) (ratings db ++ [row]) new_id, inl row)
      else (mkDb (users db) (skills db) (ratings db) new_id,
            inr ForeignKeyViolation).

Definition ratings_of (db : Db) (u : Z) : list Rating :=
  filter (fun r => ratedUserId r =? u) (ratings db).

Definition stars_of (db : Db) (u : Z) : list Z :=
  map rating (ratings_of db u).

(** The aggregate [findAll] of [updateUserAverageRating]: with no
    [group], the query answers one row whatever the table holds. *)
Definition Rating_findAll_aggregate (u : Z) : @step Db (list (option Q * Z)) :=
  fun db => (db, inl [(AVG (stars_of db u), COUNT (stars_of db u))]).

(** The text of [toFixed(2)] cast into [DECIMAL(3,2)]. *)
Definition to_decimal (f : fixed) : decimal + DbError :=
  match f with
  | FNaN => inl DNaN
  | FInfinity => inr NumericOverflow
  | FDec n => if (-1000 <? n) && (n <? 1000) then inl (DVal n)
              else inr NumericOverflow
  end.

(** The summary columns of the rows matching [where: { id: u }]. *)
Definition set_summary (u : Z) (s : decimal * Z) (x : User) : User :=
  if user_id x =? u then mkUser (user_id x) (fst s) (snd s) else x.

(** [User.update({averageRating, totalRatings}, {where: {id}})]. *)
Definition User_update (avg : fixed) (total : Z) (u : Z) : @step Db unit :=
  fun db =>
    match to_decimal avg with
    | inr e => (db, inr e)
    | inl d =>
        (mkDb (map (set_summary u (d, total)) (users db))
              (skills db) (ratings db) (ratings_id_seq db), inl tt)
    end.

Definition updateUserAverageRating (userId : Z) : @Task Db unit :=
  result <- Rating_findAll_aggregate userId ;;
  match result with
  | [] => Return tt
  | (averageRating, totalRatings) :: _ =>
      _ <- User_update (toFixed 2 (parseFloat averageRating)) totalRatings
             userId ;;
      Return tt
  end.

(** The [try] block of [createRating]; [user] is [req.user.id]. *)
Definition createRating_try (user : Z) (body : Body) : @Task Db Reply :=
  match createRatingSchema_parse body with
  | None => Return (ErrorJson 400 "Validation failed")
  | Some validatedData =>
      if req_ratedUserId validatedData =? user
      then Return (ErrorJson 400 "You cannot rate yourself")
      else
        existingRating <- Rating_findOne (where_existing user validatedData) ;;
        match existingRating with
        | Some _ =>
            Return (ErrorJson 400
                      "You have already rated this user for this skill")
        | None =>
            rating <- Rating_create validatedData user ;;
            _ <~ updateUserAverageRating (req_ratedUserId validatedData) ;;
            ratingWithDetails <- Rating_findByPk (rating_id rating) ;;
            Return (CreatedJson "Rating created successfully"
                      ratingWithDetails)
        end
  end.

(** [createRating], other requests' writes landing between its awaits;
    a thrown store error goes to [next(error)]. *)
Definition createRating_with (others : list (Db -> Db)) (user : Z)
    (body : Body) (db : Db) : Db * Reply :=
  try_catch (run_with others (createRating_try user body) db) NextError.

Definition createRating (user : Z) (body : Body) (db : Db) : Db * Reply :=
  createRating_with [] user body db.

(** [getUserRatings]: every rating of the user, newest first. *)
Definition getUserRatings (userId : Z) (db : Db) : Db * Reply :=
  try_catch
    (run (rs <- (fun d => (d, inl (rev (ratings_of d userId)))) ;;
          Return (RatingsJson rs (COUNT rs))) db)
    NextError.

(** The rejections of the specification, as this back end words them. *)
Definition SelfRating : Reply := ErrorJson 400 "You cannot rate yourself".
Definition DuplicateRating : Reply :=
  ErrorJson 400 "You have already rated this user for this skill".

(** *** The ledger, its invariants and the summary it determines *)

(** Every id was drawn from the sequence. *)
Definition ids_below_seq (db : Db) : bool :=
  forallb (fun r => rating_id r <=? ratings_id_seq db) (ratings db).

(** The model validators held when each row was created. *)
Definition stars_in_range (db : Db) : bool :=
  forallb (fun r => (1 <=? rating r) && (rating r <=? 5)) (ratings db).

(** The three [references] of the ratings table. *)
Definition references_hold (db : Db) : bool :=
  forallb (fun r => user_exists db (raterId r)
                    && user_exists db (ratedUserId r)
                    && match skillId r with
                       | None => true
                       | Some s => skill_exists db s
                       end) (ratings db).

Definition wf (db : Db) : bool :=
  ids_below_seq db && stars_in_range db && references_hold db.

Definition decimal_eqb (a b : decimal) : bool :=
  match a, b with
  | DNaN, DNaN => true
  | DVal x, DVal y => x =? y
  | _, _ => false
  end.

(** What the summary columns of user [u] hold when they follow the
    ledger: the column defaults while nobody rated [u], afterwards the
    count and the two decimals [toFixed(2)] prints for the mean. *)
Definition summary_of (db : Db) (u : Z) : decimal * Z :=
  match stars_of db u with
  | [] => (DVal 0, 0)
  | x :: l =>
      (DVal (round_double 2 (SUM (x :: l) # Pos.of_nat (List.length (x :: l)))),
       COUNT (x :: l))
  end.

Definition summaries_ok (db : Db) : bool :=
  forallb (fun x => decimal_eqb (averageRating x)
                                (fst (summary_of db (user_id x)))
                    && (totalRatings x =? snd (summary_of db (user_id x))))
          (users db).


Definition decimal_value (d : decimal) : option Q :=
  match d with
  | DNaN => None
  | DVal n => Some (n # 100)
  end.

(** The stored summary of row [x] is that of the ledger: the count, and
    the mean of the stars kept to two decimals (0 over no rating). *)
Definition summary_is_rounded (db : Db) (x : User) : Prop :=
  totalRatings x = COUNT (ratings_of db (user_id x))
  /\ match decimal_value (averageRating x), AVG (stars_of db (user_id x)) with
     | Some v, Some m => (Qabs (v - m) <= 1 # 200)%Q
     | Some v, None => (v == 0)%Q
     | None, _ => False
     end.

(** The row an admitted [createRating] inserts, and the state it
    leaves: the row appended, the summary of the rated user rewritten. *)
Definition new_row (user : Z) (body : Body) (db : Db) : Rating :=
  mkRating (ratings_id_seq db + 1) user (req_ratedUserId body)
    (req_skillId body) (req_rating body) (req_comment body).

Definition inserted_state (user : Z) (body : Body) (db : Db) : Db :=
  mkDb (users db) (skills db) (ratings db ++ [new_row user body db])
       (ratings_id_seq db + 1).

Definition accepted_state (user : Z) (body : Body) (db : Db) : Db :=
  mkDb (map (set_summary (req_ratedUserId body)
               (summary_of (inserted_state user body db)
                  (req_ratedUserId body))) (users db))
       (skills db) (ratings db ++ [new_row user body db])
       (ratings_id_seq db + 1).

(** The state after an insert refused by a foreign key: only the
    sequence moved. *)
Definition refused_state (db : Db) : Db :=
  mkDb (users db) (skills db) (ratings db) (ratings_id_seq db + 1).

(** A sequence of [createRating] requests, one after the other. *)
Fixpoint createRatings (reqs : list (Z * Body)) (db : Db) : Db :=
  match reqs with
  | [] => db
  | (user, body) :: rest => createRatings rest (fst (createRating user body db))
  end.

(** *** Sample states *)

Definition fresh (i : Z) : User := mkUser i (DVal 0) 0.

(** Four registered users, one skill, no rating yet. *)
Definition db_start : Db := mkDb [fresh 1; fresh 2; fresh 3; fresh 4] [7] [] 0.

Definition stars (rated s : Z) : Body := mkBody rated None s None.

(** User 1 has rated user 2. *)
Definition db_rated : Db := fst (createRating 1 (stars 2 5) db_start).

(** User 1 has rated user 2 for skill 7. *)
Definition db_skill7 : Db :=
  fst (createRating 1 (mkBody 2 (Some 7) 5 None) db_start).

(** A second request of user 1 rating user 2, committed by the time the
    second awaited step of the first one (its insert) runs. *)
Definition racing_create : list (Db -> Db) :=
  [fun d => d; fun d => fst (createRating 1 (stars 2 5) d)].

(** A request of user 3 rating user 2, handled from its first step to
    its last between the third awaited step of another request (the
    aggregate query of its recompute) and the fourth (its [User.update]). *)
Definition overlapping_create : list (Db -> Db) :=
  [fun d => d; fun d => d; fun d => d;
   fun d => fst (createRating 3 (stars 2 4) d)].

(** Users 1 and 3 have rated user 2 at the same time. *)
Definition db_overlapped : Db :=
  fst (createRating_with overlapping_create 1 (stars 2 5) db_start).

(** Users 1, 3 and 4 have rated user 2 with 5, 4 and 4 stars. *)
Definition db_544 : Db :=
  createRatings [(1, stars 2 5); (3, stars 2 4); (4, stars 2 4)] db_start.

End Sequelize.

(** ** Texts

    A text is the sequence of bytes of its UTF-8 encoding: a character
    is one byte that is not a continuation byte, followed by its
    continuation bytes. *)

(** A byte of the form [10xxxxxx]. *)
Definition is_continuation (a : Ascii.ascii) : bool :=
  let n := Ascii.nat_of_ascii a in
  Nat.leb 128 n && Nat.leb n 191.

(** The number of characters: what a [VARCHAR(n)] column and the
    validator [isLength] count ([isLength] counts a surrogate pair
    once). *)
Fixpoint chars (s : string) : nat :=
  match s with
  | EmptyString => 0
  | String a s' => ((if is_continuation a then 0 else 1) + chars s')%nat
  end.

(** [str.length], in UTF-16 units: a character of four bytes takes a
    surrogate pair. *)
Fixpoint js_length (s : string) : nat :=
  match s with
  | EmptyString => 0
  | String a s' =>
      ((if is_continuation a then 0
        else if Nat.leb 240 (Ascii.nat_of_ascii a) then 2 else 1)
       + js_length s')%nat
  end.

(** The bytes after the first [n] characters, and the bytes of these. *)
Fixpoint drop_chars (n : nat) (s : string) : string :=
  match s with
  | EmptyString => EmptyString
  | String a s' =>
      if is_continuation a then drop_chars n s'
      else match n with
           | O => s
           | S n' => drop_chars n' s'
           end
  end.

Fixpoint take_chars (n : nat) (s : string) : string :=
  match s with
  | EmptyString => EmptyString
  | String a s' =>
      if is_continuation a then String a (take_chars n s')
      else match n with
           | O => EmptyString
           | S n' => String a (take_chars n' s')
           end
  end.

(** The encodings of the characters that the regular expression [\s]
    matches: TAB to CR, the space, U+00A0, U+1680, U+2000 to U+200A,
    U+2028, U+2029, U+202F, U+205F, U+3000 and U+FEFF. *)
Definition is_space (bytes : list Z) : bool :=
  match bytes with
  | [n] => (n =? 32) || ((9 <=? n) && (n <=? 13))
  | [194; 160] => true
  | [225; 154; 128] => true
  | [226; 128; n] =>
      ((128 <=? n) && (n <=? 138)) || (n =? 168) || (n =? 169) || (n =? 175)
  | [226; 129; 159] => true
  | [227; 128; 128] => true
  | [239; 187; 191] => true
  | _ => false
  end.

Definition byte (a : Ascii.ascii) : Z := Z.of_N (Ascii.N_of_ascii a).

(** Strips the white-space characters at the head of the bytes; [order]
    is [rev] when the bytes are those of the text read backwards. *)
Fixpoint strip (order : list Z -> list Z) (s : list Ascii.ascii)
  : list Ascii.ascii :=
  match s with
  | [] => []
  | a :: s1 =>
      if is_space (order [byte a]) then strip order s1
      else
        match s1 with
        | [] => s
        | b :: s2 =>
            if is_space (order [byte a; byte b]) then strip order s2
            else
              match s2 with
              | [] => s
              | c :: s3 =>
                  if is_space (order [byte a; byte b; byte c])
                  then strip order s3
                  else s
              end
        end
  end.

(** The [trim()] sanitizer of the validation library: the white space at
    both ends is removed. *)
Definition trim (s : string) : string :=
  string_of_list_ascii
    (rev (strip (@rev Z)
            (rev (strip (fun bytes => bytes) (list_ascii_of_string s))))).

(** ** The raw-SQL back end *)

Module Routes.

(** Table [users]: the columns the handlers read and write. *)
Record user_row : Type := UserRow {
  user_id : Z;
  name : string;
  role : string;
  active : bool;
  bio : option string;
  location : option string;
  website : option string;
  avatar_url : option string
}.

(** A row whose profile columns are still [NULL]. *)
Definition mkUserRow (i : Z) (n r : string) (a : bool) : user_row :=
  UserRow i n r a None None None None.

(** The row with [active] set to [a]. *)
Definition with_active (a : bool) (x : user_row) : user_row :=
  UserRow (user_id x) (name x) (role x) a
    (bio x) (location x) (website x) (avatar_url x).

(** Table [ratings]; [created_at] grows with the position in the list. *)
Record rating_row : Type := mkRatingRow {
  rating_id : Z;
  reviewer_id : Z;
  rated_user_id : Z;
  rating : Z;
  comment : option string
}.

Record Db : Type := mkDb {
  users : list user_row;
  ratings : list rating_row;
  ratings_id_seq : Z
}.

(** [req.user], as [authenticateToken] selects it. *)
Record ReqUser : Type := mkReqUser {
  req_user_id : Z;
  req_user_name : string;
  req_user_role : string
}.

(** [req.body] of [POST /api/ratings]. *)
Record Body : Type := mkBody {
  body_rated_user_id : Z;
  body_rating : Z;
  body_comment : option string
}.

Record Distribution : Type := mkDistribution {
  five_star : Z;
  four_star : Z;
  three_star : Z;
  two_star : Z;
  one_star : Z
}.

Record Pagination : Type := mkPagination {
  page : Z;
  limit : Z;
  total : Z;
  totalPages : jsnum
}.

Record RatingsPayload : Type := mkRatingsPayload {
  user_name : string;
  page_ratings : list (rating_row * string);
  total_ratings : Z;
  average_rating : fixed;
  rating_distribution : Distribution;
  pagination : Pagination
}.

Inductive Reply : Type :=
| ErrorJson (status : Z) (message : string)
| RatingAdded (message : string) (r : rating_row)
    (reviewer_name : string) (reviewer : Z)
| RatingsJson (p : RatingsPayload)
| MessageJson (message : string)
| UserJson (message : string) (u : user_row).

(** *** Middleware *)

(** [authenticateToken] after the token decoded to [userId], an id the
    server has signed: the user must be an active row. *)
Definition authenticateToken (userId : Z) (db : Db) : ReqUser + Reply :=
  match filter (fun u => (user_id u =? userId) && active u) (users db) with
  | [] => inr (ErrorJson 401 "Invalid token - user not found")
  | u :: _ => inl (mkReqUser (user_id u) (name u) (role u))
  end.

(** A handler behind [authenticateToken]: it runs with the principal the
    middleware has selected for the user the token names. *)
Definition behind_token {R : Type} (userId : Z) (denied : Reply -> R)
    (handler : ReqUser -> Db -> Db * R) (db : Db) : Db * R :=
  match authenticateToken userId db with
  | inr reply => (db, denied reply)
  | inl p => handler p db
  end.

(** [None] is [next()]. *)
Definition requireAdmin (p : ReqUser) : option Reply :=
  if negb (String.eqb (req_user_role p) "admin")
  then Some (ErrorJson 403 "Admin access required")
  else None.

Definition requireOwnerOrAdmin (p : ReqUser) (resourceId : Z) : option Reply :=
  if (String.eqb (req_user_role p) "admin") || (req_user_id p =? resourceId)
  then None
  else Some (ErrorJson 403 "Access denied - insufficient permissions").

(** The inline check of the rating and skill routes:
    [req.user.role !== 'admin' && owner !== req.user.id]. *)
Definition not_owner_nor_admin (p : ReqUser) (owner : Z) : bool :=
  negb (String.eqb (req_user_role p) "admin")
  && negb (owner =? req_user_id p).

(** *** Queries *)

Definition select_active_user (u : Z) : @step Db (list user_row) :=
  fun db =>
    (db, inl (filter (fun x => (user_id x =? u) && active x) (users db))).

Definition select_rating_by_pair (reviewer rated : Z)
  : @step Db (list rating_row) :=
  fun db =>
    (db, inl (filter (fun r => (reviewer_id r =? reviewer)
                               && (rated_user_id r =? rated)) (ratings db))).

(** [SELECT ... FROM ratings WHERE id = $1]: the column is an
    [INTEGER], and a parameter outside its range, which no row carries,
    makes the statement fail. *)
Definition select_rating_by_id (i : Z) : @step Db (list rating_row) :=
  fun db =>
    match filter (fun r => rating_id r =? i) (ratings db) with
    | [] => if int4 i then (db, inl []) else (db, inr NumericOverflow)
    | rows => (db, inl rows)
    end.

Definition user_exists (db : Db) (u : Z) : bool :=
  existsb (fun x => user_id x =? u) (users db).

(** A number outside the range of the [INTEGER] key of the users table,
    which no row carries: a statement that compares the key with it
    fails. *)
Definition not_a_user_id (db : Db) (i : Z) : bool :=
  negb (int4 i) && negb (user_exists db i).

(** [INSERT INTO ratings ... RETURNING ...] under the table's
    constraints: the [CHECK] on the stars, [UNIQUE(reviewer_id,
    rated_user_id)], the two foreign keys.  The sequence advances even
    when the row is refused. *)
Definition insert_rating (reviewer rated stars : Z) (c : option string)
  : @step Db rating_row :=
  fun db =>
    let new_id := ratings_id_seq db + 1 in
    let row := mkRatingRow new_id reviewer rated stars c in
    let refused e := (mkDb (users db) (ratings db) new_id, inr e) in
    if negb ((1 <=? stars) && (stars <=? 5)) then refused CheckViolation
    else if existsb (fun r => (reviewer_id r =? reviewer)
                              && (rated_user_id r =? rated)) (ratings db)
    then refused UniqueViolation
    else if negb (user_exists db reviewer && user_exists db rated)
    then refused ForeignKeyViolation
    else (mkDb (users db) (ratings db ++ [row]) new_id, inl row).

(** [DELETE FROM ratings WHERE id = $1], run with the id the select
    before it has found. *)
Definition delete_rating_by_id (i : Z) : @step Db unit :=
  fun db =>
    (mkDb (users db)
          (filter (fun r => negb (rating_id r =? i)) (ratings db))
          (ratings_id_seq db), inl tt).

Definition received (db : Db) (u : Z) : list rating_row :=
  filter (fun r => rated_user_id r =? u) (ratings db).

(** The page of [GET /api/ratings/:userId] before [LIMIT] and [OFFSET]:
    the ratings of the user with their reviewers' names, newest first. *)
Definition newest_first (db : Db) (u : Z) : list (rating_row * string) :=
  flat_map (fun r =>
              map (fun x => (r, name x))
                  (filter (fun x => user_id x =? reviewer_id r) (users db)))
           (rev (received db u)).

(** A limit or an offset outside [bigint]; an offset beyond that type is
    past the last row of any table. *)
Definition beyond_bigint (db : Db) (u l o : Z) : bool :=
  negb (int8 l) || (negb (int8 o) && (COUNT (newest_first db u) <=? o)).

(** The page query, [LIMIT l OFFSET o] with both of type [bigint]:
    PostgreSQL refuses a limit or an offset outside that type, and a
    negative one. *)
Definition select_ratings_page (u l o : Z)
  : @step Db (list (rating_row * string)) :=
  fun db =>
    if beyond_bigint db u l o then (db, inr NumericOverflow)
    else if (l <? 0) || (o <? 0) then (db, inr NegativeLimitOrOffset)
    else (db, inl (firstn (Z.to_nat l)
                     (skipn (Z.to_nat o) (newest_first db u)))).

(** The limits and offsets the page query refuses. *)
Definition page_refused (db : Db) (u l o : Z) : bool :=
  beyond_bigint db u l o || (l <? 0) || (o <? 0).

Definition count_stars (s : Z) (rows : list rating_row) : Z :=
  COUNT (filter (fun r => rating r =? s) rows).

(** The statistics query: its one row of aggregates. *)
Definition select_stats (u : Z)
  : @step Db (Z * option Q * Distribution) :=
  fun db =>
    let rows := received db u in
    (db, inl (COUNT rows, AVG (map rating rows),
              mkDistribution (count_stars 5 rows) (count_stars 4 rows)
                (count_stars 3 rows) (count_stars 2 rows)
                (count_stars 1 rows))).

(** *** POST /api/ratings *)

(** [ratingValidation] and [validationResult(req).isEmpty()]. *)
Definition validation_isEmpty (b : Body) : bool :=
  (1 <=? body_rated_user_id b)
  && (1 <=? body_rating b) && (body_rating b <=? 5)
  && match body_comment b with
     | None => true
     | Some c => Nat.leb (chars (trim c)) 500
     end.

Definition post_rating_try (p : ReqUser) (b : Body) : @Task Db Reply :=
  if negb (validation_isEmpty b)
  then Return (ErrorJson 400 "Validation failed")
  else if req_user_id p =? body_rated_user_id b
  then Return (ErrorJson 400 "You cannot rate yourself")
  else
    userCheck <- select_active_user (body_rated_user_id b) ;;
    match userCheck with
    | [] => Return (ErrorJson 404 "User to be rated not found")
    | _ :: _ =>
        existingRating <- select_rating_by_pair (req_user_id p)
                            (body_rated_user_id b) ;;
        match existingRating with
        | _ :: _ => Return (ErrorJson 409 "You have already rated this user")
        | [] =>
            newRating <- insert_rating (req_user_id p)
                           (body_rated_user_id b) (body_rating b)
                           (option_map trim (body_comment b)) ;;
            Return (RatingAdded "Rating added successfully" newRating
                      (req_user_name p) (req_user_id p))
        end
    end.

Definition post_rating_with (others : list (Db -> Db)) (p : ReqUser)
    (b : Body) (db : Db) : Db * Reply :=
  try_catch (run_with others (post_rating_try p b) db)
            (fun _ => ErrorJson 500 "Failed to add rating").

Definition post_rating (p : ReqUser) (b : Body) (db : Db) : Db * Reply :=
  post_rating_with [] p b db.

(** The store as the awaited step number [k + 1] of a handler finds it
    when its steps before that one are reads: the writes of the other
    requests that land before its first [k + 1] steps have been made. *)
Definition seen_at (others : list (Db -> Db)) (k : nat) (db : Db) : Db :=
  fold_left (fun d w => w d) (firstn (S k) others) db.

(** The store after an insert that a constraint refused: only the
    sequence has moved. *)
Definition refused_state (db : Db) : Db :=
  mkDb (users db) (ratings db) (ratings_id_seq db + 1).

(** *** GET /api/ratings/:userId *)

(** [page] and [limit] are the integers the query string names, if any;
    the arithmetic on them is exact, as that of doubles is up to
    [2^53]. *)
Definition get_ratings_try (userId : Z) (query_page query_limit : option Z)
  : @Task Db Reply :=
  let page := match query_page with Some v => v | None => 1 end in
  let limit := match query_limit with Some v => v | None => 10 end in
  let offset := (page - 1) * limit in
  userCheck <- select_active_user userId ;;
  match userCheck with
  | [] => Return (ErrorJson 404 "User not found")
  | u :: _ =>
      ratingsResult <- select_ratings_page userId limit offset ;;
      stats <- select_stats userId ;;
      let '(total_ratings, average_rating, distribution) := stats in
      Return (RatingsJson
        (mkRatingsPayload (name u) ratingsResult total_ratings
           (toFixed 1 (parseFloat (or_zero average_rating)))
           distribution
           (mkPagination page limit total_ratings
              (ceil_div total_ratings limit))))
  end.

Definition get_ratings (userId : Z) (query_page query_limit : option Z)
    (db : Db) : Db * Reply :=
  try_catch (run (get_ratings_try userId query_page query_limit) db)
            (fun _ => ErrorJson 500 "Failed to fetch ratings").

(** *** DELETE /api/ratings/:id *)

Definition delete_rating_try (p : ReqUser) (id : Z) : @Task Db Reply :=
  existingRating <- select_rating_by_id id ;;
  match existingRating with
  | [] => Return (ErrorJson 404 "Rating not found")
  | r :: _ =>
      if not_owner_nor_admin p (reviewer_id r)
      then Return (ErrorJson 403
                     "Access denied - you can only delete your own ratings")
      else
        _ <- delete_rating_by_id id ;;
        Return (MessageJson "Rating deleted successfully")
  end.

Definition delete_rating_with (others : list (Db -> Db)) (p : ReqUser)
    (id : Z) (db : Db) : Db * Reply :=
  try_catch (run_with others (delete_rating_try p id) db)
            (fun _ => ErrorJson 500 "Failed to delete rating").

Definition delete_rating (p : ReqUser) (id : Z) (db : Db) : Db * Reply :=
  delete_rating_with [] p id db.

(** *** Deactivating a user *)

(** [UPDATE users SET active = false WHERE id = $1 AND active = true
    RETURNING ...] of [DELETE /api/users/:id]; a parameter outside the
    range of the [INTEGER] key, which no row carries, makes the statement
    fail. *)
Definition deactivate_user (i : Z) : @step Db (list user_row) :=
  fun db =>
    let hit x := (user_id x =? i) && active x in
    if not_a_user_id db i then (db, inr NumericOverflow)
    else
      (mkDb (map (fun x => if hit x then with_active false x else x)
                 (users db))
            (ratings db) (ratings_id_seq db),
       inl (map (with_active false) (filter hit (users db)))).

(** [DELETE /api/users/:id] once [authenticateToken] has selected the
    principal [p]: [requireOwnerOrAdmin()], then the handler. *)
Definition delete_user (p : ReqUser) (id : Z) (db : Db) : Db * Reply :=
  match requireOwnerOrAdmin p id with
  | Some denied => (db, denied)
  | None =>
      try_catch
        (run (result <- deactivate_user id ;;
              match result with
              | [] => Return (ErrorJson 404 "User not found")
              | u :: _ => Return (UserJson "User deleted successfully" u)
              end) db)
        (fun _ => ErrorJson 500 "Failed to delete user")
  end.

(** The whole route [DELETE /api/users/:id], for the user the token
    names. *)
Definition delete_user_route (userId id : Z) (db : Db) : Db * Reply :=
  behind_token userId (fun reply => reply) (fun p => delete_user p id) db.

(** The rejections of the specification, as this back end words them. *)
Definition SelfRating : Reply := ErrorJson 400 "You cannot rate yourself".
Definition TargetNotFound : Reply :=
  ErrorJson 404 "User to be rated not found".
Definition DuplicateRating : Reply :=
  ErrorJson 409 "You have already rated this user".
Definition RatingNotFound : Reply := ErrorJson 404 "Rating not found".

(** A denial is any 403 among the replies of the routes. *)
Definition InsufficientPermission (r : Reply) : bool :=
  match r with
  | ErrorJson 403 _ => true
  | _ => false
  end.

(** *** The ledger and its invariant *)

Definition same_pair (a b : rating_row) : bool :=
  (reviewer_id a =? reviewer_id b) && (rated_user_id a =? rated_user_id b).

(** At most one row per (reviewer, rated user). *)
Fixpoint unique_pairs (l : list rating_row) : bool :=
  match l with
  | [] => true
  | r :: l' => negb (existsb (same_pair r) l') && unique_pairs l'
  end.

(** The two state-changing rating requests. *)
Inductive Op : Type :=
| Post (p : ReqUser) (b : Body)
| Delete (p : ReqUser) (id : Z).

Definition apply_op (o : Op) (db : Db) : Db * Reply :=
  match o with
  | Post p b => post_rating p b db
  | Delete p id => delete_rating p id db
  end.

Fixpoint apply_ops (ops : list Op) (db : Db) : Db :=
  match ops with
  | [] => db
  | o :: rest => apply_ops rest (fst (apply_op o db))
  end.

(** *** Sample states *)

Definition ann : ReqUser := mkReqUser 1 "ann" "user".
Definition bob : ReqUser := mkReqUser 2 "bob" "user".
Definition cy : ReqUser := mkReqUser 3 "cy" "admin".
Definition di : ReqUser := mkReqUser 4 "di" "user".

Definition db_start : Db :=
  mkDb [mkUserRow 1 "ann" "user" true; mkUserRow 2 "bob" "user" true;
        mkUserRow 3 "cy" "admin" true; mkUserRow 4 "di" "user" true] [] 0.

Definition stars (rated s : Z) : Body := mkBody rated s None.

(** ann has rated bob. *)
Definition db_rated : Db := fst (post_rating ann (stars 2 5) db_start).

(** ann has rated bob, and bob has then closed his account. *)
Definition db_rated_closed : Db := fst (delete_user bob 2 db_rated).

(** A second request of ann rating bob, committed by the time the
    third awaited step of the first one (its insert) runs. *)
Definition racing_post : list (Db -> Db) :=
  [fun d => d; fun d => d; fun d => fst (post_rating ann (stars 2 5) d)].

(** ann, cy and di have rated bob with 5, 4 and 3 stars. *)
Definition db_543 : Db :=
  apply_ops [Post ann (stars 2 5); Post cy (stars 2 4); Post di (stars 2 3)]
            db_start.

End Routes.

(** ** The raw-SQL back end: the invariants of its tables, and paging *)

Module Ledger.
Import Routes.

(** No row rates its own author. *)
Definition no_self_rating (db : Db) : bool :=
  forallb (fun r => negb (reviewer_id r =? rated_user_id r)) (ratings db).

(** The [CHECK] on the stars. *)
Definition stars_in_range (db : Db) : bool :=
  forallb (fun r => (1 <=? rating r) && (rating r <=? 5)) (ratings db).

(** Every id was drawn from the sequence. *)
Definition ids_below_seq (db : Db) : bool :=
  forallb (fun r => rating_id r <=? ratings_id_seq db) (ratings db).

(** The two foreign keys of the ratings table. *)
Definition references_hold (db : Db) : bool :=
  forallb (fun r => user_exists db (reviewer_id r)
                    && user_exists db (rated_user_id r)) (ratings db).

(** A column of keys holds no value twice. *)
Fixpoint distinct (l : list Z) : bool :=
  match l with
  | [] => true
  | x :: l' => negb (existsb (Z.eqb x) l') && distinct l'
  end.

Definition wf (db : Db) : bool :=
  no_self_rating db && stars_in_range db && ids_below_seq db
  && references_hold db && unique_pairs (ratings db)
  && distinct (map user_id (users db))
  && distinct (map rating_id (ratings db)).

(** The ratings a reply of [GET /api/ratings/:userId] carries. *)
Definition page_rows (r : Reply) : list (rating_row * string) :=
  match r with
  | RatingsJson p => page_ratings p
  | _ => []
  end.

(** The pages 1 to [n] of a user's ratings, read one after the other with
    the same [limit]. *)
Definition read_pages (userId limit : Z) (n : nat) (db : Db)
  : list (rating_row * string) :=
  List.concat (map (fun k => page_rows (snd (get_ratings userId
                                          (Some (Z.of_nat k)) (Some limit) db)))
              (seq 1 n)).

(** The sum of the five counts of a distribution. *)
Definition distribution_sum (d : Distribution) : Z :=
  five_star d + four_star d + three_star d + two_star d + one_star d.

End Ledger.

(** ** The raw-SQL back end: the administration routes *)

Module Admin.
Import Routes.

(** [UPDATE users SET active = NOT active WHERE id = $1 RETURNING ...];
    a parameter outside the range of the [INTEGER] key, which no row
    carries, makes the statement fail. *)
Definition toggle_user (i : Z) : @step Db (list user_row) :=
  fun db =>
    let flipped x := with_active (negb (active x)) x in
    match filter (fun x => user_id x =? i) (users db) with
    | [] => if int4 i then (db, inl []) else (db, inr NumericOverflow)
    | rows =>
        (mkDb (map (fun x => if user_id x =? i then flipped x else x) (users db))
              (ratings db) (ratings_id_seq db),
         inl (map flipped rows))
    end.

(** [PUT /api/admin/users/:id/toggle-status] once [authenticateToken]
    has selected the principal [p]: the router's [requireAdmin], then the
    handler. *)
Definition toggle_status (p : ReqUser) (id : Z) (db : Db) : Db * Reply :=
  match requireAdmin p with
  | Some denied => (db, denied)
  | None =>
      try_catch
        (run (result <- toggle_user id ;;
              match result with
              | [] => Return (ErrorJson 404 "User not found")
              | user :: _ =>
                  Return (UserJson
                            ("User "
                             ++ (if active user then "activated"
                                 else "deactivated")
                             ++ " successfully")%string user)
              end) db)
        (fun _ => ErrorJson 500 "Failed to toggle user status")
  end.

(** The whole route, for the user the token names. *)
Definition toggle_status_route (userId id : Z) (db : Db) : Db * Reply :=
  behind_token userId (fun reply => reply) (fun p => toggle_status p id) db.

(** The requests that write to the users and ratings tables. *)
Inductive Request : Type :=
| Rate (p : ReqUser) (b : Body)
| Unrate (p : ReqUser) (id : Z)
| CloseAccount (p : ReqUser) (id : Z)
| ToggleStatus (p : ReqUser) (id : Z).

Definition handle (r : Request) (db : Db) : Db * Reply :=
  match r with
  | Rate p b => post_rating p b db
  | Unrate p id => delete_rating p id db
  | CloseAccount p id => delete_user p id db
  | ToggleStatus p id => toggle_status p id db
  end.

Fixpoint handle_all (rs : list Request) (db : Db) : Db :=
  match rs with
  | [] => db
  | r :: rest => handle_all rest (fst (handle r db))
  end.

End Admin.

(** ** The raw-SQL back end: skills and profiles *)

Module Catalog.
Import Routes.

(** Table [skills]; [created_at] grows with the position in the list. *)
Record skill_row : Type := mkSkillRow {
  skill_id : Z;
  title : string;
  description : string;
  category : string;
  tags : list string;
  image_url : option string;
  created_by : Z;
  skill_active : bool
}.

(** The users and ratings tables, the skills table and the sequence
    behind [skills.id]. *)
Record Store : Type := mkStore {
  core : Db;
  skills : list skill_row;
  skills_id_seq : Z
}.

(** [req.body] of the skill routes; [tags], when present, is an array of
    strings. *)
Record SkillBody : Type := mkSkillBody {
  body_title : string;
  body_description : string;
  body_category : string;
  body_tags : option (list string);
  body_image_url : option string
}.

(** [req.body] of [PUT /api/users/:id], each key present or not. *)
Record ProfileBody : Type := mkProfileBody {
  body_name : option string;
  body_bio : option string;
  body_location : option string;
  body_website : option string;
  body_avatar_url : option string
}.

(** [COALESCE($k, column)] on a parameter that is [NULL] when the body
    has no such key. *)
Definition coalesce (v old : option string) : option string :=
  match v with
  | Some _ => v
  | None => old
  end.

(** What makes a statement fail: a constraint of the store, or a text
    longer than its [VARCHAR] column. *)
Inductive Failure : Type :=
| Constraint (e : DbError)
| ValueTooLong.

Inductive SkillReply : Type :=
| SkillError (status : Z) (message : string)
| SkillCreated (message : string) (s : skill_row)
    (creator_name : string) (creator_id : Z)
| SkillUpdated (message : string) (s : option skill_row)
| SkillDeleted (message : string) (s : option skill_row)
| SkillJson (s : skill_row) (creator_name : string) (creator_id : Z)
    (creator_rating : fixed) (creator_rating_count : Z)
| ProfileJson (u : user_row) (average_rating : fixed) (total_ratings : Z)
    (user_skills : list skill_row)
    (recent_ratings : list (rating_row * string)).

(** A text stored into [VARCHAR(n)]: refused when it has more than [n]
    characters, unless what exceeds is only spaces, which are cut. *)
Definition varchar (n : nat) (s : string) : option string :=
  if Nat.leb (chars s) n then Some s
  else if forallb (fun a => Nat.eqb (Ascii.nat_of_ascii a) 32)
                  (list_ascii_of_string (drop_chars n s))
  then Some (take_chars n s)
  else None.

Definition varchar_opt (n : nat) (s : option string) : option (option string) :=
  match s with
  | None => Some None
  | Some v => option_map Some (varchar n v)
  end.

(** [isLength({ min: lo, max: hi })]. *)
Definition between (lo hi : nat) (s : string) : bool :=
  Nat.leb lo (chars s) && Nat.leb (chars s) hi.

Definition select_active_skill (id : Z) (st : Store) : list skill_row :=
  filter (fun s => (skill_id s =? id) && skill_active s) (skills st).

(** [COALESCE(AVG(r.rating), 0)]. *)
Definition coalesce_zero (v : option Q) : Q :=
  match v with
  | None => 0%Q
  | Some q => q
  end.

(** The rating aggregates of user [u], as the reads of skills and
    profiles select them and the handlers format them. *)
Definition rating_aggregates (db : Db) (u : Z) : fixed * Z :=
  (toFixed 1 (parseFloat (Some (coalesce_zero (AVG (map rating (received db u)))))),
   COUNT (received db u)).

Section Validators.

(** [isURL] of the validation library. *)
Variable isURL : string -> bool.

(** [skillValidation] and [validationResult(req).isEmpty()]. *)
Definition skill_validation_isEmpty (b : SkillBody) : bool :=
  between 3 100 (trim (body_title b))
  && between 10 1000 (trim (body_description b))
  && between 2 50 (trim (body_category b))
  && match body_image_url b with
     | None => true
     | Some u => isURL u
     end.

(** [INSERT INTO skills ... RETURNING ...], the row active, owned by
    [creator]. *)
Definition insert_skill (t d c : string) (tg : list string)
    (img : option string) (creator : Z) (st : Store)
  : Store * (skill_row + Failure) :=
  match varchar 100 t, varchar 50 c, varchar_opt 500 img with
  | Some t', Some c', Some img' =>
      let new_id := skills_id_seq st + 1 in
      let row := mkSkillRow new_id t' d c' tg img' creator true in
      if user_exists (core st) creator
      then (mkStore (core st) (skills st ++ [row]) new_id, inl row)
      else (mkStore (core st) (skills st) new_id,
            inr (Constraint ForeignKeyViolation))
  | _, _, _ => (st, inr ValueTooLong)
  end.

(** [POST /api/skills]. *)
Definition post_skill (p : ReqUser) (b : SkillBody) (st : Store)
  : Store * SkillReply :=
  if negb (skill_validation_isEmpty b)
  then (st, SkillError 400 "Validation failed")
  else
    let tags := match body_tags b with Some t => t | None => [] end in
    match insert_skill (trim (body_title b)) (trim (body_description b))
            (trim (body_category b)) tags (body_image_url b)
            (req_user_id p) st with
    | (st1, inl newSkill) =>
        (st1, SkillCreated "Skill created successfully" newSkill
                (req_user_name p) (req_user_id p))
    | (st1, inr _) => (st1, SkillError 500 "Failed to create skill")
    end.

(** [UPDATE skills SET title = $1, ... WHERE id = $6 AND active = true
    RETURNING ...]. *)
Definition update_skill (t d c : string) (tg : list string)
    (img : option string) (id : Z) (st : Store)
  : Store * (list skill_row + Failure) :=
  match varchar 100 t, varchar 50 c, varchar_opt 500 img with
  | Some t', Some c', Some img' =>
      let hit s := (skill_id s =? id) && skill_active s in
      let written s :=
        mkSkillRow (skill_id s) t' d c' tg img' (created_by s)
          (skill_active s) in
      (mkStore (core st)
         (map (fun s => if hit s then written s else s) (skills st))
         (skills_id_seq st),
       inl (map written (filter hit (skills st))))
  | _, _, _ => (st, inr ValueTooLong)
  end.

(** [PUT /api/skills/:id]. *)
Definition put_skill (p : ReqUser) (id : Z) (b : SkillBody) (st : Store)
  : Store * SkillReply :=
  if negb (skill_validation_isEmpty b)
  then (st, SkillError 400 "Validation failed")
  else
    let tags := match body_tags b with Some t => t | None => [] end in
    match select_active_skill id st with
    | [] => (st, SkillError 404 "Skill not found")
    | existingSkill :: _ =>
        if not_owner_nor_admin p (created_by existingSkill)
        then (st, SkillError 403
                    "Access denied - you can only edit your own skills")
        else
          match update_skill (trim (body_title b)) (trim (body_description b))
                  (trim (body_category b)) tags (body_image_url b) id st with
          | (st1, inl rows) =>
              (st1, SkillUpdated "Skill updated successfully" (hd_error rows))
          | (st1, inr _) => (st1, SkillError 500 "Failed to update skill")
          end
    end.

(** [updateProfileValidation] and [validationResult(req).isEmpty()]. *)
Definition profile_validation_isEmpty (b : ProfileBody) : bool :=
  match body_name b with
  | None => true
  | Some n => Nat.leb 2 (chars (trim n))
  end
  && match body_bio b with
     | None => true
     | Some t => Nat.leb (chars (trim t)) 500
     end
  && match body_location b with
     | None => true
     | Some l => Nat.leb (chars (trim l)) 100
     end
  && match body_website b with
     | None => true
     | Some w => isURL w
     end.

(** [UPDATE users SET name = COALESCE($1, name), ... WHERE id = $6 AND
    active = true RETURNING ...]; a text too long for its column and an
    id outside the range of the [INTEGER] key, which no row carries, make
    the statement fail. *)
Definition update_user (n b l w a : option string) (id : Z) (db : Db)
  : Db * (list user_row + Failure) :=
  match varchar_opt 100 n, varchar_opt 100 l, varchar_opt 255 w,
        varchar_opt 500 a with
  | Some n', Some l', Some w', Some a' =>
      let hit x := (user_id x =? id) && active x in
      let written x :=
        UserRow (user_id x)
          (match n' with Some v => v | None => name x end)
          (role x) (active x) (coalesce b (bio x)) (coalesce l' (location x))
          (coalesce w' (website x)) (coalesce a' (avatar_url x)) in
      if not_a_user_id db id then (db, inr (Constraint NumericOverflow))
      else
        (mkDb (map (fun x => if hit x then written x else x) (users db))
              (ratings db) (ratings_id_seq db),
         inl (map written (filter hit (users db))))
  | _, _, _, _ => (db, inr ValueTooLong)
  end.

(** [PUT /api/users/:id] once [authenticateToken] has selected the
    principal [p]: [requireOwnerOrAdmin()], the validation, the handler. *)
Definition put_user (p : ReqUser) (id : Z) (b : ProfileBody) (db : Db)
  : Db * Reply :=
  match requireOwnerOrAdmin p id with
  | Some denied => (db, denied)
  | None =>
      if negb (profile_validation_isEmpty b)
      then (db, ErrorJson 400 "Validation failed")
      else
        match update_user (option_map trim (body_name b))
                (option_map trim (body_bio b))
                (option_map trim (body_location b))
                (body_website b) (body_avatar_url b) id db with
        | (db1, inl []) => (db1, ErrorJson 404 "User not found")
        | (db1, inl (user :: _)) =>
            (db1, UserJson "Profile updated successfully" user)
        | (db1, inr _) => (db1, ErrorJson 500 "Failed to update profile")
        end
  end.

End Validators.

(** A denial is the 403 of a skill route. *)
Definition SkillDenied (r : SkillReply) : bool :=
  match r with
  | SkillError 403 _ => true
  | _ => false
  end.

(** [UPDATE skills SET active = false WHERE id = $1 RETURNING id, title]. *)
Definition deactivate_skill (id : Z) (st : Store) : Store * list skill_row :=
  let off s :=
    mkSkillRow (skill_id s) (title s) (description s) (category s) (tags s)
      (image_url s) (created_by s) false in
  (mkStore (core st)
     (map (fun s => if skill_id s =? id then off s else s) (skills st))
     (skills_id_seq st),
   map off (filter (fun s => skill_id s =? id) (skills st))).

(** [DELETE /api/skills/:id]. *)
Definition delete_skill (p : ReqUser) (id : Z) (st : Store)
  : Store * SkillReply :=
  match select_active_skill id st with
  | [] => (st, SkillError 404 "Skill not found")
  | existingSkill :: _ =>
      if not_owner_nor_admin p (created_by existingSkill)
      then (st, SkillError 403
                  "Access denied - you can only delete your own skills")
      else
        let (st1, rows) := deactivate_skill id st in
        (st1, SkillDeleted "Skill deleted successfully" (hd_error rows))
  end.

(** [GET /api/skills/:id]: the active skill with its active creator and
    the creator's rating aggregates; ids being keys, each joined pair is
    a group of its own. *)
Definition get_skill (id : Z) (st : Store) : SkillReply :=
  let rows :=
    flat_map (fun s =>
                map (fun u => (s, u))
                    (filter (fun u => (user_id u =? created_by s) && active u)
                            (users (core st))))
             (select_active_skill id st) in
  match rows with
  | [] => SkillError 404 "Skill not found"
  | (s, u) :: _ =>
      SkillJson s (name u) (user_id u)
        (fst (rating_aggregates (core st) (user_id u)))
        (snd (rating_aggregates (core st) (user_id u)))
  end.

(** [GET /api/users/:id]: the active user with the rating aggregates, the
    10 newest active skills and the 5 newest ratings received. *)
Definition get_profile (id : Z) (st : Store) : SkillReply :=
  match filter (fun u => (user_id u =? id) && active u) (users (core st)) with
  | [] => SkillError 404 "User not found"
  | user :: _ =>
      ProfileJson user
        (fst (rating_aggregates (core st) (user_id user)))
        (snd (rating_aggregates (core st) (user_id user)))
        (firstn 10 (rev (filter (fun s => (created_by s =? id) && skill_active s)
                                (skills st))))
        (firstn 5 (newest_first (core st) id))
  end.


(** The skill ids are keys drawn from the sequence. *)
Definition skills_wf (st : Store) : bool :=
  forallb (fun s => skill_id s <=? skills_id_seq st) (skills st)
  && Ledger.distinct (map skill_id (skills st)).

(** *** Sample states *)

(** A stand-in for [isURL] that accepts every text. *)
Definition accept_url (u : string) : bool := true.

Definition gardening : SkillBody :=
  mkSkillBody "  Gardening " "Growing vegetables on a balcony" "outdoors"
    (Some ["plants"%string; "food"%string]) (Some "https://example.org/garden.png"%string).

Definition gardening_renamed : SkillBody :=
  mkSkillBody "Balcony gardening" "Growing vegetables on a small balcony"
    "outdoors" None None.

(** A profile update that only rewrites the biography. *)
Definition new_bio : ProfileBody :=
  mkProfileBody None (Some "  Grows tomatoes. "%string) None None None.

(** The ratings of [Routes.db_543] and no skill yet. *)
Definition store_start : Store := mkStore db_543 [] 0.

(** ann has published her gardening skill. *)
Definition store_gardening : Store :=
  fst (post_skill accept_url ann gardening store_start).

End Catalog.

(** ** The Sequelize back end: the skills controller *)

Module SkillsController.

(** [models/Skill.js]. *)
Record Skill : Type := mkSkill {
  skill_id : Z;
  userId : Z;
  title : string;
  description : string;
  category : string;
  skillLevel : string;
  skillType : string;
  timeCommitment : option string;
  location : option string;
  isActive : bool
}.

(** The users table, the skills table in insertion order and the
    sequence behind [skills.id]. *)
Record Store : Type := mkStore {
  users : list Sequelize.User;
  skills : list Skill;
  skills_id_seq : Z
}.

(** [req.body] of the skill handlers: each key present or not, its value
    a string. *)
Record Body : Type := mkBody {
  body_title : option string;
  body_description : option string;
  body_category : option string;
  body_skillLevel : option string;
  body_skillType : option string;
  body_timeCommitment : option string;
  body_location : option string
}.

Inductive Reply : Type :=
| ErrorJson (status : Z) (error : string)
| SkillSaved (status : Z) (message : string)
    (skill : option (Skill * option Sequelize.User))
| SkillFound (skill : Skill) (user : option Sequelize.User)
| NextError (f : Catalog.Failure).

Definition one_of (values : list string) (s : string) : bool :=
  existsb (String.eqb s) values.

Definition skill_levels : list string :=
  ["beginner"; "intermediate"; "advanced"; "expert"]%string.

Definition skill_types : list string := ["offering"; "seeking"]%string.

(** A key that, when present, must pass [check]. *)
Definition optional (check : string -> bool) (v : option string) : bool :=
  match v with
  | None => true
  | Some s => check s
  end.

(** A key that must be present and pass [check]. *)
Definition required (check : string -> bool) (v : option string) : bool :=
  match v with
  | None => false
  | Some s => check s
  end.

(** [z.string().min(n)] and [z.string().min(lo).max(hi)], on
    [str.length]. *)
Definition min_length (n : nat) (s : string) : bool :=
  Nat.leb n (js_length s).

Definition length_between (lo hi : nat) (s : string) : bool :=
  Nat.leb lo (js_length s) && Nat.leb (js_length s) hi.

(** [createSkillSchema.parse]: [None] stands for the thrown [ZodError]. *)
Definition createSkillSchema_parse (b : Body) : option Body :=
  if required (length_between 1 100) (body_title b)
     && required (min_length 1) (body_description b)
     && required (length_between 1 50) (body_category b)
     && required (one_of skill_levels) (body_skillLevel b)
     && required (one_of skill_types) (body_skillType b)
  then Some b else None.

(** [updateSkillSchema = createSkillSchema.partial()]. *)
Definition updateSkillSchema_parse (b : Body) : option Body :=
  if optional (length_between 1 100) (body_title b)
     && optional (min_length 1) (body_description b)
     && optional (length_between 1 50) (body_category b)
     && optional (one_of skill_levels) (body_skillLevel b)
     && optional (one_of skill_types) (body_skillType b)
  then Some b else None.

Definition Skill_findByPk (id : Z) (st : Store) : option Skill :=
  find (fun s => skill_id s =? id) (skills st).

(** [Skill.findByPk(id, { include: [{ model: User, as: 'user' }] })]. *)
Definition Skill_findByPk_with_user (id : Z) (st : Store)
  : option (Skill * option Sequelize.User) :=
  option_map
    (fun s => (s, find (fun u => Sequelize.user_id u =? userId s) (users st)))
    (Skill_findByPk id st).

Definition or_else (v : option string) (d : string) : string :=
  match v with
  | Some s => s
  | None => d
  end.

(** [Skill.create({...validatedData, userId})]: the texts must fit their
    [STRING(n)] columns and the owner must exist. *)
Definition Skill_create (data : Body) (owner : Z) (st : Store)
  : Store * (Skill + Catalog.Failure) :=
  match Catalog.varchar 100 (or_else (body_title data) ""),
        Catalog.varchar 50 (or_else (body_category data) ""),
        Catalog.varchar_opt 100 (body_timeCommitment data),
        Catalog.varchar_opt 100 (body_location data) with
  | Some t, Some c, Some tc, Some loc =>
      let new_id := skills_id_seq st + 1 in
      let row := mkSkill new_id owner t (or_else (body_description data) "") c
                   (or_else (body_skillLevel data) "")
                   (or_else (body_skillType data) "") tc loc true in
      if existsb (fun u => Sequelize.user_id u =? owner) (users st)
      then (mkStore (users st) (skills st ++ [row]) new_id, inl row)
      else (mkStore (users st) (skills st) new_id,
            inr (Catalog.Constraint ForeignKeyViolation))
  | _, _, _, _ => (st, inr Catalog.ValueTooLong)
  end.

(** The keys of [data] written over the row; an absent key keeps the
    value of the row. *)
Definition patched (data : Body) (s : Skill) : Skill :=
  mkSkill (skill_id s) (userId s)
    (or_else (body_title data) (title s))
    (or_else (body_description data) (description s))
    (or_else (body_category data) (category s))
    (or_else (body_skillLevel data) (skillLevel s))
    (or_else (body_skillType data) (skillType s))
    (match body_timeCommitment data with
     | Some v => Some v
     | None => timeCommitment s
     end)
    (match body_location data with
     | Some v => Some v
     | None => location s
     end)
    (isActive s).

(** [skill.update(validatedData)] on the instance read before. *)
Definition Skill_update (data : Body) (skill : Skill) (st : Store)
  : Store * (unit + Catalog.Failure) :=
  match Catalog.varchar_opt 100 (body_title data),
        Catalog.varchar_opt 50 (body_category data),
        Catalog.varchar_opt 100 (body_timeCommitment data),
        Catalog.varchar_opt 100 (body_location data) with
  | Some t, Some c, Some tc, Some loc =>
      let fitted := mkBody t (body_description data) c (body_skillLevel data)
                      (body_skillType data) tc loc in
      (mkStore (users st)
         (map (fun s => if skill_id s =? skill_id skill
                        then patched fitted s else s) (skills st))
         (skills_id_seq st), inl tt)
  | _, _, _, _ => (st, inr Catalog.ValueTooLong)
  end.

(** [createSkill]; [user] is [req.user.id]. *)
Definition createSkill (user : Z) (body : Body) (st : Store) : Store * Reply :=
  match createSkillSchema_parse body with
  | None => (st, ErrorJson 400 "Validation failed")
  | Some validatedData =>
      match Skill_create validatedData user st with
      | (st1, inr f) => (st1, NextError f)
      | (st1, inl skill) =>
          (st1, SkillSaved 201 "Skill created successfully"
                  (Skill_findByPk_with_user (skill_id skill) st1))
      end
  end.

(** [updateSkill]. *)
Definition updateSkill (user : Z) (id : Z) (body : Body) (st : Store)
  : Store * Reply :=
  match updateSkillSchema_parse body with
  | None => (st, ErrorJson 400 "Validation failed")
  | Some validatedData =>
      match Skill_findByPk id st with
      | None => (st, ErrorJson 404 "Skill not found")
      | Some skill =>
          if negb (userId skill =? user)
          then (st, ErrorJson 403 "You can only update your own skills")
          else
            match Skill_update validatedData skill st with
            | (st1, inr f) => (st1, NextError f)
            | (st1, inl _) =>
                (st1, SkillSaved 200 "Skill updated successfully"
                        (Skill_findByPk_with_user id st1))
            end
      end
  end.

(** [getSkillById]. *)
Definition getSkillById (id : Z) (st : Store) : Reply :=
  match Skill_findByPk_with_user id st with
  | None => ErrorJson 404 "Skill not found"
  | Some (skill, user) => SkillFound skill user
  end.

(** *** Sample states *)

Definition teaching : Body :=
  mkBody (Some "Teaching Rocq"%string) (Some "Evening classes"%string)
    (Some "logic"%string) (Some "expert"%string) (Some "offering"%string)
    (Some "2h a week"%string) None.

Definition new_place : Body :=
  mkBody None None None None None None (Some "Lyon"%string).

(** The same skill with a location of 104 characters. *)
Definition teaching_far_away : Body :=
  mkBody (Some "Teaching Rocq"%string) (Some "Evening classes"%string)
    (Some "logic"%string) (Some "expert"%string) (Some "offering"%string)
    None (Some (String.concat "" (repeat "Lyon"%string 26))).

(** Users 1 and 2, and the skill user 1 has published. *)
Definition store_teaching : Store :=
  fst (createSkill 1 teaching
         (mkStore [Sequelize.fresh 1; Sequelize.fresh 2] [] 0)).

End SkillsController.

(** * Properties *)

(** ** Rounding and aggregates *)

(** *** The double behind the digits *)

Lemma round_half_even_bracket (n : Z) (m : positive) :
  2 * round_half_even (n # m) * Zpos m - Zpos m <= 2 * n
  /\ 2 * n <= 2 * round_half_even (n # m) * Zpos m + Zpos m.
Proof.
  unfold round_half_even. cbn [Qnum Qden].
  pose proof (Z.div_mod n (Zpos m) ltac:(lia)) as E.
  pose proof (Z.mod_pos_bound n (Zpos m) ltac:(lia)) as B.
  set (k := n / Zpos m) in *. set (r := n mod Zpos m) in *.
  clearbody k r.
  destruct (2 * r ?= Zpos m) eqn:C.
  - apply Z.compare_eq_iff in C. destruct (Z.even k); nia.
  - rewrite Z.compare_lt_iff in C. nia.
  - rewrite Z.compare_gt_iff in C. nia.
Qed.

Lemma ilog2_le_3 (q : Q) :
  0 < Qnum q -> Qnum q <= 8 * Zpos (Qden q) -> ilog2 q <= 3.
Proof.
  intros Ha Hb. unfold ilog2.
  assert (K : Z.log2 (Qnum q) - Z.log2 (Zpos (Qden q)) <= 3).
  { pose proof (Z.log2_le_mono _ _ Hb) as L.
    replace (8 * Zpos (Qden q)) with (Zpos (Qden q) * 2 ^ 3) in L by lia.
    rewrite Z.log2_mul_pow2 in L; lia. }
  match goal with |- (if ?c then _ else _) <= _ => destruct c end; lia.
Qed.

Lemma halfway_iff (A B T N : Z) :
  0 < B ->
  2 * B * N <= 2 * A * T + B < 2 * B * N + 2 * B ->
  ((2 * A * T) mod B =? 0) && Z.odd (2 * A * T / B) = true
  <-> 2 * A * T + B = 2 * B * N.
Proof.
  intros HB HN.
  pose proof (Z.div_mod (2 * A * T) B ltac:(lia)) as DM.
  pose proof (Z.mod_pos_bound (2 * A * T) B ltac:(lia)) as MB.
  split.
  - intros H. apply andb_prop in H as [H1 H2]. apply Z.eqb_eq in H1.
    rewrite Z.odd_spec in H2. destruct H2 as [m Hm].
    rewrite H1, Hm in DM. clear H1 Hm MB.
    assert (N = m + 1) by nia. subst N. lia.
  - intros H. apply andb_true_intro.
    assert (X : 2 * A * T = (2 * N - 1) * B) by lia.
    rewrite X. rewrite Z.mod_mul, Z.div_mul by lia.
    split; [reflexivity|]. rewrite Z.odd_spec. exists (N - 1). lia.
Qed.

(** Rounding [R / P], a neighbour of [A / B] on a much finer grid, to a
    multiple of [1 / T]. *)
Lemma round_of_neighbour (A B T P R : Z) :
  0 < B -> 0 < T -> B * T < P ->
  2 * R * B - B <= 2 * (A * P) <= 2 * R * B + B ->
  (2 * R * T + P) / (2 * P)
  = if ((2 * A * T) mod B =? 0) && Z.odd (2 * A * T / B)
       && negb (A * P <=? R * B)
    then (2 * A * T + B) / (2 * B) - 1
    else (2 * A * T + B) / (2 * B).
Proof.
  intros HB HT HP HR.
  set (N := (2 * A * T + B) / (2 * B)).
  assert (HN : 2 * B * N <= 2 * A * T + B < 2 * B * N + 2 * B).
  { pose proof (Z.div_mod (2 * A * T + B) (2 * B) ltac:(lia)).
    pose proof (Z.mod_pos_bound (2 * A * T + B) (2 * B) ltac:(lia)).
    subst N. lia. }
  clearbody N. pose proof (halfway_iff A B T N HB HN) as Hh.
  symmetry.
  destruct (((2 * A * T) mod B =? 0) && Z.odd (2 * A * T / B)).
  - pose proof (proj1 Hh eq_refl) as Tie. clear Hh.
    destruct (A * P <=? R * B) eqn:Cmp; cbn [negb andb].
    + apply Z.leb_le in Cmp.
      apply Z.div_unique with (r := 2 * R * T + P - 2 * P * N); nia.
    + apply Z.leb_gt in Cmp.
      apply Z.div_unique with (r := 2 * R * T + P - 2 * P * (N - 1)); nia.
  - cbn [andb].
    assert (Tie : 2 * A * T + B <> 2 * B * N).
    { intros X. apply Hh in X. discriminate. }
    clear Hh.
    apply Z.div_unique with (r := 2 * R * T + P - 2 * P * N); nia.
Qed.

(** For the mean of at most [2^40] stars, [round_double] gives the digits
    [toFixed] prints for the double nearest to the mean: the rounding of
    the exact value of [binary64 q]. *)
Lemma toFixed_of_the_double (d : Z) (q : Q) :
  0 <= d <= 2 ->
  0 <= Qnum q -> Qnum q <= 8 * Zpos (Qden q) -> Zpos (Qden q) < 2 ^ 40 ->
  round_double d q = round_scaled d (binary64 q).
Proof.
  intros Hd Ha Hq Hb. destruct q as [a b]. cbn [Qnum Qden] in *.
  assert (HT : 1 <= 10 ^ d <= 100).
  { assert (D : d = 0 \/ d = 1 \/ d = 2) by lia.
    destruct D as [D|[D|D]]; subst d; cbn; lia. }
  unfold round_double, binary64. cbn [Qnum].
  destruct a as [|a|a]; [| |lia].
  - unfold halfway, round_scaled. cbn [Qnum Qden].
    rewrite Z.mul_0_r, Z.mul_0_l, Z.mod_0_l, Z.div_0_l by lia.
    cbn [Z.eqb Z.odd andb]. cbn.
    apply Z.div_small; lia.
  - set (e := Z.max (ilog2 (Zpos a # b) - 52) (-1074)).
    assert (He : e <= -49).
    { pose proof (ilog2_le_3 (Zpos a # b) ltac:(cbn; lia) Hq). subst e. lia. }
    clearbody e.
    unfold pow2. destruct (0 <=? e) eqn:E0; [apply Z.leb_le in E0; lia|].
    assert (HP : 2 ^ 49 <= 2 ^ (- e)).
    { apply Z.pow_le_mono_r; lia. }
    set (P := Z.to_pos (2 ^ (- e))).
    assert (EP : Zpos P = 2 ^ (- e)) by (subst P; rewrite Z2Pos.id; lia).
    clearbody P.
    unfold Qle_bool, halfway, round_scaled, Qdiv, Qinv, Qmult, inject_Z.
    cbn [Qnum Qden].
    pose proof (round_half_even_bracket (Zpos a * Zpos P) (b * 1)) as HR.
    set (R := round_half_even (Zpos a * Zpos P # b * 1)) in *.
    clearbody R. rewrite Pos.mul_1_r in HR.
    rewrite !Z.mul_1_r, Pos.mul_1_l.
    symmetry.
    rewrite (round_of_neighbour (Zpos a) (Zpos b) (10 ^ d) (Zpos P) R);
      [reflexivity|lia|lia|nia|exact HR].
Qed.

(** Rounding [R / P], which is within [1 / K] of [A / B], to a multiple
    of [1 / T], when [A / B] is not halfway. *)
Lemma round_of_near (A B T P R K : Z) :
  0 < B -> 0 < T -> 0 < P -> 2 * B * T < K ->
  Z.abs (R * B - A * P) * K <= B * P ->
  ((2 * A * T) mod B =? 0) && Z.odd (2 * A * T / B) = false ->
  (2 * R * T + P) / (2 * P) = (2 * A * T + B) / (2 * B).
Proof.
  intros HB HT HP HK HE Hh.
  set (N := (2 * A * T + B) / (2 * B)).
  assert (HN : 2 * B * N <= 2 * A * T + B < 2 * B * N + 2 * B).
  { pose proof (Z.div_mod (2 * A * T + B) (2 * B) ltac:(lia)).
    pose proof (Z.mod_pos_bound (2 * A * T + B) (2 * B) ltac:(lia)).
    subst N. lia. }
  clearbody N.
  assert (Tie : 2 * A * T + B <> 2 * B * N).
  { intros X. apply (halfway_iff A B T N HB HN) in X. congruence. }
  set (E := R * B - A * P) in *.
  assert (HR : R * B = A * P + E) by (subst E; lia).
  clearbody E.
  assert (H2 : 2 * T * Z.abs E < P).
  { apply Z.nle_gt. intros C.
    assert (P * K <= 2 * T * Z.abs E * K) by nia.
    assert (2 * T * (Z.abs E * K) <= 2 * T * (B * P)) by nia.
    nia. }
  set (u := 2 * A * T + B - 2 * B * N).
  assert (Hu : 1 <= u <= 2 * B - 1) by (subst u; lia).
  set (r := 2 * R * T + P - 2 * P * N).
  assert (Hr : B * r = P * u + 2 * T * E) by (subst r u; nia).
  clearbody u.
  assert (Hr0 : 0 <= r < 2 * P).
  { clearbody r. split.
    - assert (0 < B * r) by nia. nia.
    - assert (B * r < B * (2 * P)) by nia. nia. }
  symmetry. apply Z.div_unique with (r := r); [lia|subst r; lia].
Qed.

Lemma binary64_small (q : Q) :
  0 < Qnum q -> Qnum q <= 8 * Zpos (Qden q) ->
  exists (R : Z) (P : positive),
    binary64 q = (inject_Z R * (1 # P))%Q
    /\ 2 ^ 49 <= Zpos P
    /\ 2 * R * Zpos (Qden q) - Zpos (Qden q) <= 2 * (Qnum q * Zpos P)
       <= 2 * R * Zpos (Qden q) + Zpos (Qden q).
Proof.
  intros Ha Hq. destruct q as [a b]. cbn [Qnum Qden] in *.
  destruct a as [|a|a]; [lia| |lia].
  unfold binary64. cbn [Qnum].
  set (e := Z.max (ilog2 (Zpos a # b) - 52) (-1074)).
  assert (He : e <= -49).
  { pose proof (ilog2_le_3 (Zpos a # b) ltac:(cbn; lia) Hq). subst e. lia. }
  clearbody e.
  unfold pow2. destruct (0 <=? e) eqn:E0; [apply Z.leb_le in E0; lia|].
  assert (HP : 2 ^ 49 <= 2 ^ (- e)) by (apply Z.pow_le_mono_r; lia).
  set (P := Z.to_pos (2 ^ (- e))).
  assert (EP : Zpos P = 2 ^ (- e)) by (subst P; rewrite Z2Pos.id; lia).
  clearbody P. exists (round_half_even ((Zpos a # b) / (1 # P))), P.
  split; [reflexivity|]. split; [lia|].
  unfold Qdiv, Qinv, Qmult. cbn [Qnum Qden].
  pose proof (round_half_even_bracket (Zpos a * Zpos P) (b * 1)) as HR.
  rewrite Pos.mul_1_r in HR. rewrite Pos.mul_1_r. exact HR.
Qed.

(** [AVG] hands the mean over as a decimal text of at least 16 decimals.
    For the mean [q] of at most [2^40] stars and a text [t] within
    [10^-16] of it, equal to it when the mean is halfway (a mean with
    three decimals is printed exactly), [round_double] gives the digits
    [toFixed] prints for the double nearest to [t]. *)
Lemma toFixed_of_the_text (d : Z) (q t : Q) :
  0 <= d <= 2 ->
  0 <= Qnum q -> Qnum q <= 8 * Zpos (Qden q) -> Zpos (Qden q) < 2 ^ 40 ->
  0 <= Qnum t -> Qnum t <= 8 * Zpos (Qden t) ->
  Z.abs (Qnum t * Zpos (Qden q) - Qnum q * Zpos (Qden t)) * 10 ^ 16
  <= Zpos (Qden q) * Zpos (Qden t) ->
  (halfway d q = true -> t = q) ->
  round_scaled d (binary64 t) = round_double d q.
Proof.
  intros Hd Ha Hq Hb Hc Ht Hn Hh.
  destruct (halfway d q) eqn:Hw.
  - rewrite (Hh eq_refl). symmetry. now apply toFixed_of_the_double.
  - unfold round_double. rewrite Hw. cbn [andb]. clear Hh.
    assert (HT : 1 <= 10 ^ d <= 100).
    { assert (D : d = 0 \/ d = 1 \/ d = 2) by lia.
      destruct D as [D|[D|D]]; subst d; cbn; lia. }
    destruct (Z.eq_dec (Qnum t) 0) as [Z0|Z0].
    + (* the text is 0: the mean is below 10^-16 *)
      destruct t as [c D]. cbn [Qnum Qden] in *. subst c.
      unfold binary64. cbn [Qnum].
      destruct q as [a b]. unfold round_scaled. cbn [Qnum Qden] in *.
      rewrite Z.mul_0_r, Z.mul_0_l, Z.add_0_l.
      rewrite Z.mul_0_l, Z.sub_0_l, Z.abs_opp, Z.abs_eq in Hn by nia.
      assert (X : a * 10 ^ 16 <= Zpos b) by nia.
      change (1 / (2 * 1)) with 0. symmetry. apply Z.div_small.
      assert (10 ^ 16 = 10000000000000000) by reflexivity. nia.
    + destruct (binary64_small t ltac:(lia) Ht) as (R & P & -> & HP & HR).
      destruct q as [a b]. destruct t as [c D].
      unfold halfway in Hw. unfold round_scaled, Qmult, inject_Z.
      cbn [Qnum Qden] in *.
      rewrite Z.mul_1_r, Pos.mul_1_l.
      apply (round_of_near a (Zpos b) (10 ^ d) (Zpos P) R (2 ^ 49));
        [lia|lia|lia|nia| |exact Hw].
      set (B := Zpos b) in *. set (DD := Zpos D) in *. set (PP := Zpos P) in *.
      assert (HB : 0 < B) by (subst B; lia).
      assert (HD : 0 < DD) by (subst DD; lia).
      assert (HPP : 0 < PP) by (subst PP; lia).
      clearbody B DD PP.
      assert (E1 : 2 * Z.abs (R * DD - c * PP) <= DD) by lia.
      assert (K16 : 2 * 2 ^ 49 <= 10 ^ 16) by (vm_compute; discriminate).
      set (K := 2 ^ 49) in *.
      assert (HK0 : 0 < K) by (subst K; reflexivity).
      clearbody K.
      set (e1 := R * DD - c * PP) in *. set (e2 := c * B - a * DD) in *.
      assert (Id : DD * (R * B - a * PP) = B * e1 + PP * e2)
        by (subst e1 e2; ring).
      clearbody e1 e2.
      assert (Tri : DD * Z.abs (R * B - a * PP)
                    <= B * Z.abs e1 + PP * Z.abs e2).
      { rewrite <- (Z.abs_eq DD) at 1 by lia. rewrite <- Z.abs_mul, Id.
        eapply Z.le_trans; [apply Z.abs_triangle|].
        rewrite !Z.abs_mul, (Z.abs_eq B), (Z.abs_eq PP) by lia. lia. }
      set (x := Z.abs (R * B - a * PP)) in *. clearbody x.
      set (y1 := Z.abs e1) in *. set (y2 := Z.abs e2) in *.
      assert (0 <= y1) by (subst y1; apply Z.abs_nonneg).
      assert (0 <= y2) by (subst y2; apply Z.abs_nonneg).
      clearbody y1 y2.
      assert (S1 : 2 * (B * y1 * K) <= B * DD * PP).
      { assert (2 * y1 * K <= DD * K) by nia.
        assert (DD * K <= DD * PP) by nia.
        assert (B * (2 * y1 * K) <= B * (DD * PP)) by nia.
        lia. }
      assert (S2 : 2 * (PP * y2 * K) <= PP * (B * DD)).
      { assert (PP * (y2 * (2 * K)) <= PP * (y2 * 10 ^ 16)) by nia.
        assert (PP * (y2 * 10 ^ 16) <= PP * (B * DD)) by nia.
        lia. }
      assert (S3 : DD * (x * K) <= DD * (B * PP)) by nia.
      nia.
Qed.

(** *** The digits of a mean *)

Lemma round_scaled_bracket_at (d : Z) (q : Q) :
  let b := Zpos (Qden q) in
  2 * b * round_scaled d q <= 2 * Qnum q * 10 ^ d + b
  < 2 * b * round_scaled d q + 2 * b.
Proof.
  intros b. unfold round_scaled. fold b.
  assert (Hb : 0 < 2 * b) by (unfold b; lia).
  pose proof (Z.mul_div_le (2 * Qnum q * 10 ^ d + b) (2 * b) Hb).
  pose proof (Z.mul_succ_div_gt (2 * Qnum q * 10 ^ d + b) (2 * b) Hb).
  lia.
Qed.

(** The digits of [toFixed(d)] are within half a unit of [q * 10^d],
    whichever way a halfway case goes. *)
Lemma round_double_bracket (d : Z) (q : Q) :
  let b := Zpos (Qden q) in
  2 * b * round_double d q - b <= 2 * Qnum q * 10 ^ d
  <= 2 * b * round_double d q + b.
Proof.
  intros b. pose proof (round_scaled_bracket_at d q) as B. cbv zeta in B.
  fold b in B. assert (Hb : 0 < b) by (unfold b; lia).
  unfold round_double.
  destruct (halfway d q && negb (Qle_bool q (binary64 q))) eqn:E; [|lia].
  apply andb_prop in E as [E _]. unfold halfway in E. fold b in E.
  apply andb_prop in E as [Em Eo]. apply Z.eqb_eq in Em.
  set (a := 2 * Qnum q * 10 ^ d) in *.
  set (r := round_scaled d q) in *.
  assert (Ha : a = b * (a / b)) by (apply Z_div_exact_full_2; lia).
  apply Z.odd_spec in Eo as [j Hj].
  set (k := a / b) in *.
  assert (Hr : r = j + 1) by nia.
  subst r. rewrite Hr. nia.
Qed.

(** Two decimals of [toFixed(2)] are within half a hundredth of the number. *)
Lemma round_double_close (q : Q) :
  (Qabs ((round_double 2 q # 100) - q) <= 1 # 200)%Q.
Proof.
  apply Qabs_Qle_condition.
  pose proof (round_double_bracket 2 q) as H. cbv zeta in H.
  change (10 ^ 2) with 100 in H.
  destruct q as [a b]. cbn [Qnum Qden] in H.
  set (n := round_double 2 (a # b)) in *.
  unfold Qle, Qminus, Qplus, Qopp. cbn [Qnum Qden].
  split; lia.
Qed.

Lemma SUM_app (l1 l2 : list Z) : SUM (l1 ++ l2) = SUM l1 + SUM l2.
Proof.
  unfold SUM. induction l1 as [|x l1 IH]; cbn; [reflexivity|].
  fold SUM in *. rewrite IH. lia.
Qed.

Lemma SUM_bounds (l : list Z) :
  forallb (fun x => (1 <=? x) && (x <=? 5)) l = true ->
  COUNT l <= SUM l <= 5 * COUNT l.
Proof.
  unfold COUNT. induction l as [|x l IH]; intros H.
  - cbn. lia.
  - cbn [forallb] in H. apply andb_prop in H as [Hx Hl].
    apply andb_prop in Hx as [H1 H5].
    apply Z.leb_le in H1, H5. specialize (IH Hl).
    change (SUM (x :: l)) with (x + SUM l).
    change (List.length (x :: l)) with (S (List.length l)).
    lia.
Qed.

(** The mean of stars between 1 and 5, in hundredths. *)
Lemma round_mean_bounds (x : Z) (l : list Z) :
  forallb (fun y => (1 <=? y) && (y <=? 5)) (x :: l) = true ->
  100 <= round_double 2 (SUM (x :: l) # Pos.of_nat (List.length (x :: l))) <= 500.
Proof.
  intros H. apply SUM_bounds in H.
  pose proof (round_double_bracket 2
                (SUM (x :: l) # Pos.of_nat (List.length (x :: l)))) as B.
  cbv zeta in B. change (10 ^ 2) with 100 in B. cbn [Qnum Qden] in B.
  unfold COUNT in H.
  assert (E : Zpos (Pos.of_nat (List.length (x :: l)))
              = Z.of_nat (List.length (x :: l))).
  { rewrite <- positive_nat_Z, Nat2Pos.id; [reflexivity|discriminate]. }
  rewrite E in B.
  set (n := round_double 2 _) in *.
  set (c := Z.of_nat (List.length (x :: l))) in *.
  assert (0 < c) by (unfold c; cbn [List.length]; lia).
  nia.
Qed.

(** ** Running tasks *)

Lemma run_bind {Db A B} (t : @Task Db A) (f : A -> @Task Db B) (db : Db) :
  run (bind t f) db =
  match run t db with
  | (db', inl a) => run (f a) db'
  | (db', inr e) => (db', inr e)
  end.
Proof.
  unfold run. revert db.
  induction t as [a|X q k IH]; intros db; cbn.
  - reflexivity.
  - destruct (q db) as [db2 [x|e]]; [apply IH|reflexivity].
Qed.

Lemma find_app_none {A} (f : A -> bool) (l1 l2 : list A) :
  find f l1 = None -> find f (l1 ++ l2) = find f l2.
Proof.
  induction l1 as [|x l1 IH]; cbn; [reflexivity|].
  destruct (f x); [discriminate|exact IH].
Qed.

Lemma find_none_forallb {A} (f : A -> bool) (l : list A) :
  forallb (fun x => negb (f x)) l = true -> find f l = None.
Proof.
  induction l as [|x l IH]; cbn; [reflexivity|].
  intros H. apply andb_prop in H as [Hx Hl].
  destruct (f x); [discriminate|auto].
Qed.

Lemma forallb_impl {A} (f g : A -> bool) (l : list A) :
  (forall x, f x = true -> g x = true) ->
  forallb f l = true -> forallb g l = true.
Proof.
  intros Hfg H. rewrite forallb_forall in *. auto.
Qed.

Lemma forallb_filter {A} (f p : A -> bool) (l : list A) :
  forallb f l = true -> forallb f (filter p l) = true.
Proof.
  rewrite !forallb_forall. intros H x Hx.
  apply filter_In in Hx as [Hx _]. auto.
Qed.

Lemma forallb_map {A B} (f : B -> bool) (g : A -> B) (l : list A) :
  forallb f (map g l) = forallb (fun x => f (g x)) l.
Proof.
  induction l as [|x l IH]; cbn; [reflexivity|]. now rewrite IH.
Qed.

(** ** The Sequelize back end: the guards and the summary *)

Section SequelizeFacts.
Import Sequelize.

Lemma parse_some (b v : Body) :
  createRatingSchema_parse b = Some v ->
  v = b /\ 0 < req_ratedUserId b
  /\ 1 <= req_rating b <= 5
  /\ match req_skillId b with None => True | Some s => 0 < s end.
Proof.
  unfold createRatingSchema_parse.
  destruct (_ && _) eqn:E; [|discriminate].
  intros [= <-].
  apply andb_prop in E as [E H5]. apply andb_prop in E as [E H1].
  apply andb_prop in E as [Hu Hs].
  apply Z.ltb_lt in Hu. apply Z.leb_le in H1, H5.
  repeat split; try lia.
  destruct (req_skillId b); [apply Z.ltb_lt in Hs; lia|exact I].
Qed.

Lemma parse_valid (b : Body) :
  createRatingSchema_parse b <> None -> createRatingSchema_parse b = Some b.
Proof.
  destruct (createRatingSchema_parse b) as [v|] eqn:E; [|congruence].
  apply parse_some in E as [-> _]. reflexivity.
Qed.

Lemma stars_of_insert (db : Db) (row : Rating) (us : list User) (n u : Z) :
  stars_of (mkDb us (skills db) (ratings db ++ [row]) n) u =
  stars_of db u ++ (if ratedUserId row =? u then [rating row] else []).
Proof.
  unfold stars_of, ratings_of. cbn [ratings].
  rewrite filter_app, map_app. cbn [filter].
  destruct (ratedUserId row =? u); reflexivity.
Qed.

Lemma stars_of_in_range (db : Db) (u : Z) :
  stars_in_range db = true ->
  forallb (fun x => (1 <=? x) && (x <=? 5)) (stars_of db u) = true.
Proof.
  unfold stars_in_range, stars_of, ratings_of. intros H.
  rewrite forallb_map. now apply forallb_filter.
Qed.

(** Once the user has a rating, the helper stores the count and the
    rounded mean. *)
Lemma updateUserAverageRating_rated (u : Z) (db : Db) :
  stars_of db u <> [] ->
  forallb (fun x => (1 <=? x) && (x <=? 5)) (stars_of db u) = true ->
  run (updateUserAverageRating u) db =
  (mkDb (map (set_summary u (summary_of db u)) (users db))
        (skills db) (ratings db) (ratings_id_seq db), inl tt).
Proof.
  intros Hne Hr. unfold run, updateUserAverageRating, summary_of.
  cbn [run_with Rating_findAll_aggregate].
  destruct (stars_of db u) as [|x l] eqn:E; [congruence|].
  pose proof (round_mean_bounds x l Hr) as B.
  pose proof (SUM_bounds _ Hr) as S.
  unfold AVG, parseFloat, toFixed. cbn [Qnum].
  assert (Hs : (SUM (x :: l) <? 0) = false).
  { apply Z.ltb_ge. unfold COUNT in S. lia. }
  rewrite Hs. cbn [tl]. unfold User_update, to_decimal.
  assert (Hb : (-1000 <? round_double 2
                  (SUM (x :: l) # Pos.of_nat (List.length (x :: l))))
               && (round_double 2
                     (SUM (x :: l) # Pos.of_nat (List.length (x :: l)))
                   <? 1000) = true).
  { apply andb_true_intro. split; apply Z.ltb_lt; lia. }
  rewrite Hb. cbn [run_with]. reflexivity.
Qed.

(** With no rating addressed to the user, the aggregate row is
    [(NULL, 0)] and the helper stores [NaN]. *)
Lemma updateUserAverageRating_unrated (u : Z) (db : Db) :
  stars_of db u = [] ->
  run (updateUserAverageRating u) db =
  (mkDb (map (set_summary u (DNaN, 0)) (users db))
        (skills db) (ratings db) (ratings_id_seq db), inl tt).
Proof.
  intros E. unfold run, updateUserAverageRating.
  cbn [run_with Rating_findAll_aggregate]. rewrite E. reflexivity.
Qed.

End SequelizeFacts.

Section SequelizeCreate.
Import Sequelize.

Lemma beyond_integer_existing (data : Body) (db : Db) :
  user_exists db (req_ratedUserId data) = true ->
  match req_skillId data with
  | None => True
  | Some s => skill_exists db s = true
  end ->
  beyond_integer db data = false.
Proof.
  intros Ht Hs. unfold beyond_integer. rewrite Ht, andb_false_r. cbn [orb].
  destruct (req_skillId data); [rewrite Hs; apply andb_false_r|reflexivity].
Qed.

Lemma Rating_create_ok (data : Body) (user : Z) (db : Db) :
  1 <= req_rating data <= 5 ->
  user_exists db user = true ->
  user_exists db (req_ratedUserId data) = true ->
  match req_skillId data with
  | None => True
  | Some s => skill_exists db s = true
  end ->
  Rating_create data user db =
  (inserted_state user data db, inl (new_row user data db)).
Proof.
  intros [H1 H5] Hu Ht Hs. unfold Rating_create, inserted_state, new_row.
  apply Z.leb_le in H1, H5.
  rewrite H1, H5, (beyond_integer_existing data db Ht Hs), Hu, Ht.
  cbn [andb negb].
  destruct (req_skillId data); [rewrite Hs|]; reflexivity.
Qed.

(** [createRating] handled alone, one guard after the other. *)
Lemma createRating_cases (user : Z) (body : Body) (db : Db) :
  createRating user body db =
  match createRatingSchema_parse body with
  | None => (db, ErrorJson 400 "Validation failed")
  | Some v =>
      if req_ratedUserId v =? user then (db, SelfRating)
      else
        match find (where_existing user v) (ratings db) with
        | Some _ => (db, DuplicateRating)
        | None =>
            match Rating_create v user db with
            | (db1, inr e) => (db1, NextError e)
            | (db1, inl row) =>
                match run (updateUserAverageRating (req_ratedUserId v)) db1 with
                | (db2, inr e) => (db2, NextError e)
                | (db2, inl _) =>
                    (db2, CreatedJson "Rating created successfully"
                            (find (fun r => rating_id r =? rating_id row)
                                  (ratings db2)))
                end
            end
        end
  end.
Proof.
  unfold createRating, createRating_with, createRating_try.
  destruct (createRatingSchema_parse body) as [v|]; [|reflexivity].
  destruct (req_ratedUserId v =? user); [reflexivity|].
  cbn [run_with Rating_findOne tl].
  destruct (find (where_existing user v) (ratings db)); [reflexivity|].
  cbn [run_with tl].
  destruct (Rating_create v user db) as [db1 [row|e]]; [|reflexivity].
  change (run_with [] ?t ?d) with (run t d).
  rewrite run_bind.
  destruct (run (updateUserAverageRating (req_ratedUserId v)) db1)
    as [db2 [[]|e]]; reflexivity.
Qed.

Lemma user_exists_set_summary (us : list User) (sk : list Z)
    (rs : list Rating) (n u i : Z) (s : decimal * Z) (db : Db) :
  us = users db ->
  user_exists (mkDb (map (set_summary u s) us) sk rs n) i = user_exists db i.
Proof.
  intros ->. unfold user_exists. cbn [users].
  induction (users db) as [|x l IH]; [reflexivity|].
  cbn [map existsb]. rewrite IH. f_equal.
  unfold set_summary. destruct (user_id x =? u); reflexivity.
Qed.

End SequelizeCreate.

Section SequelizeInvariant.
Import Sequelize.

Lemma stars_of_inserted_rated (user : Z) (body : Body) (db : Db) :
  stars_of (inserted_state user body db) (req_ratedUserId body) =
  stars_of db (req_ratedUserId body) ++ [req_rating body].
Proof.
  unfold inserted_state. rewrite stars_of_insert.
  cbn [new_row ratedUserId rating]. now rewrite Z.eqb_refl.
Qed.

Lemma stars_of_inserted_other (user : Z) (body : Body) (db : Db) (u : Z) :
  u <> req_ratedUserId body ->
  stars_of (inserted_state user body db) u = stars_of db u.
Proof.
  intros Hu. unfold inserted_state. rewrite stars_of_insert.
  cbn [new_row ratedUserId]. apply Z.eqb_neq in Hu.
  rewrite Z.eqb_sym, Hu. apply app_nil_r.
Qed.

Lemma find_new_row (user : Z) (body : Body) (db : Db) :
  ids_below_seq db = true ->
  find (fun r => rating_id r =? ratings_id_seq db + 1)
       (ratings db ++ [new_row user body db]) = Some (new_row user body db).
Proof.
  intros H. rewrite find_app_none.
  - cbn. now rewrite Z.eqb_refl.
  - apply find_none_forallb. unfold ids_below_seq in H.
    revert H. apply forallb_impl. intros r Hr.
    apply Z.leb_le in Hr. apply negb_true_iff, Z.eqb_neq. lia.
Qed.

(** The reply and the state of a request that passes every guard. *)
Lemma createRating_accepted (user : Z) (body : Body) (db : Db) :
  wf db = true ->
  createRatingSchema_parse body <> None ->
  req_ratedUserId body <> user ->
  find (where_existing user body) (ratings db) = None ->
  user_exists db user = true ->
  user_exists db (req_ratedUserId body) = true ->
  match req_skillId body with
  | None => True
  | Some s => skill_exists db s = true
  end ->
  createRating user body db =
  (accepted_state user body db,
   CreatedJson "Rating created successfully" (Some (new_row user body db))).
Proof.
  intros Hwf Hp Hself Hdup Hu Ht Hs.
  apply parse_valid in Hp. pose proof (parse_some _ _ Hp) as (_ & _ & Hr & _).
  unfold wf in Hwf. apply andb_prop in Hwf as [Hwf Href].
  apply andb_prop in Hwf as [Hids Hstars].
  rewrite createRating_cases, Hp.
  apply Z.eqb_neq in Hself. rewrite Hself, Hdup.
  rewrite (Rating_create_ok body user db Hr Hu Ht Hs).
  rewrite updateUserAverageRating_rated.
  - cbn [inserted_state users skills ratings ratings_id_seq new_row rating_id].
    fold (new_row user body db).
    rewrite (find_new_row user body db Hids). reflexivity.
  - rewrite stars_of_inserted_rated. intros E.
    apply app_eq_nil in E as [_ E]. discriminate.
  - rewrite stars_of_inserted_rated, forallb_app.
    rewrite (stars_of_in_range _ _ Hstars). cbn.
    destruct Hr as [H1 H5]. apply Z.leb_le in H1, H5. now rewrite H1, H5.
Qed.

(** What a [createRating] handled alone can do to the store. *)
Lemma createRating_outcomes (user : Z) (body : Body) (db : Db) :
  wf db = true ->
  (fst (createRating user body db) = db
   /\ forall r, snd (createRating user body db)
                <> CreatedJson "Rating created successfully" r)
  \/ createRating user body db
     = (refused_state db, NextError ForeignKeyViolation)
  \/ (createRating user body db
      = (accepted_state user body db,
         CreatedJson "Rating created successfully"
           (Some (new_row user body db)))
      /\ createRatingSchema_parse body = Some body
      /\ req_ratedUserId body <> user
      /\ find (where_existing user body) (ratings db) = None
      /\ user_exists db user = true
      /\ user_exists db (req_ratedUserId body) = true
      /\ match req_skillId body with
         | None => True
         | Some s => skill_exists db s = true
         end).
Proof.
  intros Hwf.
  destruct (createRatingSchema_parse body) as [v|] eqn:Hp.
  2:{ left. rewrite createRating_cases, Hp. split; [reflexivity|].
      intros r; discriminate. }
  pose proof (parse_some _ _ Hp) as (-> & _ & Hr & _).
  destruct (req_ratedUserId body =? user) eqn:Hself.
  { left. rewrite createRating_cases, Hp, Hself. split; [reflexivity|].
    intros r; discriminate. }
  destruct (find (where_existing user body) (ratings db)) eqn:Hdup.
  { left. rewrite createRating_cases, Hp, Hself, Hdup. split; [reflexivity|].
    intros r'; discriminate. }
  apply Z.eqb_neq in Hself.
  destruct (user_exists db user
            && user_exists db (req_ratedUserId body)
            && match req_skillId body with
               | None => true
               | Some s => skill_exists db s
               end) eqn:Hfk.
  - right. right.
    apply andb_prop in Hfk as [Hfk Hs]. apply andb_prop in Hfk as [Hu Ht].
    assert (Hs' : match req_skillId body with
                  | None => True
                  | Some s => skill_exists db s = true
                  end) by (destruct (req_skillId body); auto).
    split; [|auto 10].
    apply createRating_accepted; auto. congruence.
  - destruct Hr as [H1 H5]. apply Z.leb_le in H1, H5.
    apply Z.eqb_neq in Hself.
    destruct (beyond_integer db body) eqn:B.
    + left. rewrite createRating_cases, Hp, Hself, Hdup.
      unfold Rating_create. rewrite H1, H5. cbn [andb negb]. rewrite B.
      split; [reflexivity|]. intros r; discriminate.
    + right. left. rewrite createRating_cases, Hp, Hself, Hdup.
      unfold Rating_create. rewrite H1, H5. cbn [andb negb].
      rewrite B, Hfk. reflexivity.
Qed.

End SequelizeInvariant.

Section SequelizePreservation.
Import Sequelize.

Lemma wf_refused (db : Db) : wf db = true -> wf (refused_state db) = true.
Proof.
  unfold wf. intros H. apply andb_prop in H as [H Href].
  apply andb_prop in H as [Hids Hstars].
  repeat (apply andb_true_intro; split).
  - unfold ids_below_seq in *. cbn [refused_state ratings ratings_id_seq].
    revert Hids. apply forallb_impl. intros r Hr.
    apply Z.leb_le in Hr. apply Z.leb_le. lia.
  - exact Hstars.
  - exact Href.
Qed.

Lemma wf_accepted (user : Z) (body : Body) (db : Db) :
  wf db = true ->
  1 <= req_rating body <= 5 ->
  user_exists db user = true ->
  user_exists db (req_ratedUserId body) = true ->
  match req_skillId body with
  | None => True
  | Some s => skill_exists db s = true
  end ->
  wf (accepted_state user body db) = true.
Proof.
  unfold wf. intros H [H1 H5] Hu Ht Hs. apply andb_prop in H as [H Href].
  apply andb_prop in H as [Hids Hstars].
  apply Z.leb_le in H1, H5.
  repeat (apply andb_true_intro; split).
  - unfold ids_below_seq in *.
    cbn [accepted_state ratings ratings_id_seq].
    rewrite forallb_app. apply andb_true_intro. split.
    + revert Hids. apply forallb_impl. intros r Hr.
      apply Z.leb_le in Hr. apply Z.leb_le. lia.
    + cbn. rewrite Z.leb_refl. reflexivity.
  - unfold stars_in_range in *. cbn [accepted_state ratings].
    rewrite forallb_app, Hstars. cbn. now rewrite H1, H5.
  - unfold references_hold in *. cbn [accepted_state ratings].
    unfold accepted_state at 1.
    assert (E : forall i,
               user_exists (accepted_state user body db) i = user_exists db i).
    { intros i. apply user_exists_set_summary. reflexivity. }
    rewrite forallb_app. apply andb_true_intro. split.
    + revert Href. apply forallb_impl. intros r Hr.
      unfold accepted_state in E. rewrite !E. exact Hr.
    + cbn [forallb new_row raterId ratedUserId skillId].
      unfold accepted_state in E. rewrite !E, Hu, Ht. cbn [andb].
      rewrite andb_true_r.
      destruct (req_skillId body); [exact Hs|reflexivity].
Qed.

Lemma summary_of_ratings (db db' : Db) (u : Z) :
  ratings db = ratings db' -> summary_of db u = summary_of db' u.
Proof.
  intros E. unfold summary_of, stars_of, ratings_of. now rewrite E.
Qed.

Lemma summaries_refused (db : Db) :
  summaries_ok db = true -> summaries_ok (refused_state db) = true.
Proof.
  unfold summaries_ok. cbn [refused_state users].
  apply forallb_impl. intros x Hx.
  rewrite (summary_of_ratings (refused_state db) db); [exact Hx|reflexivity].
Qed.

Lemma decimal_eqb_refl (d : decimal) : decimal_eqb d d = true.
Proof. destruct d; cbn; [reflexivity|apply Z.eqb_refl]. Qed.

Lemma decimal_eqb_eq (a b : decimal) : decimal_eqb a b = true -> a = b.
Proof.
  destruct a, b; cbn; try discriminate; [reflexivity|].
  intros H. apply Z.eqb_eq in H. now subst.
Qed.

Lemma summaries_accepted (user : Z) (body : Body) (db : Db) :
  summaries_ok db = true ->
  summaries_ok (accepted_state user body db) = true.
Proof.
  unfold summaries_ok. intros H.
  set (adb := accepted_state user body db).
  assert (Sr : forall u, summary_of adb u
                         = summary_of (inserted_state user body db) u).
  { intros u. apply summary_of_ratings. reflexivity. }
  change (users adb)
    with (map (set_summary (req_ratedUserId body)
                 (summary_of (inserted_state user body db)
                    (req_ratedUserId body))) (users db)).
  rewrite forallb_map. revert H. apply forallb_impl. intros x Hx.
  unfold set_summary. destruct (user_id x =? req_ratedUserId body) eqn:E.
  - cbn [user_id averageRating totalRatings]. apply Z.eqb_eq in E.
    rewrite E, Sr. now rewrite decimal_eqb_refl, Z.eqb_refl.
  - apply Z.eqb_neq in E. rewrite Sr.
    unfold summary_of at 1 2. rewrite stars_of_inserted_other by exact E.
    exact Hx.
Qed.

(** The two invariants survive every [createRating] handled alone,
    whatever it answers. *)
Lemma createRating_preserves (user : Z) (body : Body) (db : Db) :
  wf db = true -> summaries_ok db = true ->
  wf (fst (createRating user body db)) = true
  /\ summaries_ok (fst (createRating user body db)) = true.
Proof.
  intros Hwf Hs.
  destruct (createRating_outcomes user body db Hwf)
    as [[E _]|[E|(E & Hp & _ & _ & Hu & Ht & Hsk)]].
  - rewrite E. auto.
  - rewrite E. cbn [fst]. auto using wf_refused, summaries_refused.
  - rewrite E. cbn [fst]. apply parse_some in Hp as (_ & _ & Hr & _).
    auto using wf_accepted, summaries_accepted.
Qed.

Lemma createRatings_preserve (reqs : list (Z * Body)) :
  forall db,
    wf db = true -> summaries_ok db = true ->
    wf (createRatings reqs db) = true
    /\ summaries_ok (createRatings reqs db) = true.
Proof.
  induction reqs as [|[user body] reqs IH]; intros db Hwf Hs; cbn.
  - auto.
  - destruct (createRating_preserves user body db Hwf Hs). now apply IH.
Qed.

(** A store of newly registered users and no rating meets both. *)
Lemma fresh_store_ok (ids sk : list Z) (n : Z) :
  wf (mkDb (map fresh ids) sk [] n) = true
  /\ summaries_ok (mkDb (map fresh ids) sk [] n) = true.
Proof.
  split; [reflexivity|].
  unfold summaries_ok. cbn [users]. rewrite forallb_map.
  apply forallb_forall. intros i _. reflexivity.
Qed.

(** A summary that follows the ledger is its count and its mean to the
    nearest hundredth. *)
Lemma summaries_ok_rounded (db : Db) (x : User) :
  summaries_ok db = true -> In x (users db) -> summary_is_rounded db x.
Proof.
  unfold summaries_ok. rewrite forallb_forall. intros H Hx.
  specialize (H x Hx). apply andb_prop in H as [Ha Ht].
  apply decimal_eqb_eq in Ha. apply Z.eqb_eq in Ht.
  unfold summary_is_rounded. rewrite Ha, Ht. unfold summary_of.
  assert (L : COUNT (ratings_of db (user_id x))
              = COUNT (stars_of db (user_id x))).
  { unfold COUNT, stars_of. now rewrite length_map. }
  rewrite L.
  destruct (stars_of db (user_id x)) as [|s l]; cbn [fst snd decimal_value AVG].
  - split; reflexivity.
  - split; [reflexivity|]. apply round_double_close.
Qed.

End SequelizePreservation.

(** ** The raw-SQL back end: the routes, guard by guard *)

Lemma run_with_preserves {Db R} (I : Db -> Prop) (t : @Task Db R) :
  forall others db,
    steps_preserve I t ->
    Forall (fun w => forall d, I d -> I (w d)) others ->
    I db ->
    I (fst (run_with others t db)).
Proof.
  induction t as [r|X q k IH]; intros others db Ht Ho Hdb; cbn.
  - exact Hdb.
  - destruct Ht as [Hq Hk].
    assert (H1 : I (match others with [] => db | w :: _ => w db end)).
    { destruct Ho as [|w ws Hw _]; auto. }
    specialize (Hq _ H1).
    destruct (q _) as [db2 [a|e]]; cbn [fst] in *.
    + apply IH; auto. destruct Ho; [constructor|assumption].
    + exact Hq.
Qed.

Section RoutesFacts.
Import Routes.

(** [POST /api/ratings] handled alone. *)
Lemma post_rating_cases (p : ReqUser) (b : Body) (db : Db) :
  post_rating p b db =
  if negb (validation_isEmpty b) then (db, ErrorJson 400 "Validation failed")
  else if req_user_id p =? body_rated_user_id b then (db, SelfRating)
  else
    match filter (fun x => (user_id x =? body_rated_user_id b) && active x)
                 (users db) with
    | [] => (db, TargetNotFound)
    | _ :: _ =>
        match filter (fun r => (reviewer_id r =? req_user_id p)
                               && (rated_user_id r =? body_rated_user_id b))
                     (ratings db) with
        | _ :: _ => (db, DuplicateRating)
        | [] =>
            match insert_rating (req_user_id p) (body_rated_user_id b)
                    (body_rating b) (option_map trim (body_comment b)) db with
            | (db1, inl newRating) =>
                (db1, RatingAdded "Rating added successfully" newRating
                        (req_user_name p) (req_user_id p))
            | (db1, inr _) => (db1, ErrorJson 500 "Failed to add rating")
            end
        end
    end.
Proof.
  unfold post_rating, post_rating_with, post_rating_try.
  destruct (negb (validation_isEmpty b)); [reflexivity|].
  destruct (req_user_id p =? body_rated_user_id b); [reflexivity|].
  cbn [run_with select_active_user tl].
  destruct (filter _ (users db)); [reflexivity|].
  cbn [run_with select_rating_by_pair tl].
  destruct (filter _ (ratings db)); [|reflexivity].
  cbn [run_with tl].
  destruct (insert_rating _ _ _ _ db) as [db1 [row|e]]; reflexivity.
Qed.

(** [DELETE /api/ratings/:id] handled alone. *)
Lemma delete_rating_cases (p : ReqUser) (id : Z) (db : Db) :
  delete_rating p id db =
  match filter (fun r => rating_id r =? id) (ratings db) with
  | [] => (db, if int4 id then RatingNotFound
               else ErrorJson 500 "Failed to delete rating")
  | r :: _ =>
      if not_owner_nor_admin p (reviewer_id r)
      then (db, ErrorJson 403
                  "Access denied - you can only delete your own ratings")
      else (mkDb (users db)
                 (filter (fun r => negb (rating_id r =? id)) (ratings db))
                 (ratings_id_seq db),
            MessageJson "Rating deleted successfully")
  end.
Proof.
  unfold delete_rating, delete_rating_with, delete_rating_try.
  cbn [run_with tl]. unfold select_rating_by_id.
  destruct (filter _ (ratings db)) as [|r l].
  - destruct (int4 id); reflexivity.
  - destruct (not_owner_nor_admin p (reviewer_id r)); reflexivity.
Qed.

Lemma filter_nil_iff {A} (f : A -> bool) (l : list A) :
  filter f l = [] <-> forall x, In x l -> f x = false.
Proof.
  split.
  - intros E x Hx. destruct (f x) eqn:F; [|reflexivity].
    assert (In x (filter f l)) by (apply filter_In; auto).
    rewrite E in H. destruct H.
  - induction l as [|x l IH]; intros H; [reflexivity|].
    cbn. rewrite (H x (or_introl eq_refl)). apply IH.
    intros y Hy. apply H. now right.
Qed.

Lemma filter_filter_negb {A} (f : A -> bool) (l : list A) :
  filter f (filter (fun x => negb (f x)) l) = [].
Proof.
  apply filter_nil_iff. intros x Hx. apply filter_In in Hx as [_ Hx].
  now apply negb_true_iff in Hx.
Qed.

Lemma existsb_filter_nil {A} (f : A -> bool) (l : list A) :
  existsb f l = false -> filter f l = [].
Proof.
  intros H. apply filter_nil_iff. intros x Hx.
  destruct (f x) eqn:E; [|reflexivity].
  assert (existsb f l = true) by (apply existsb_exists; eauto). congruence.
Qed.

Lemma existsb_filter_cons {A} (f : A -> bool) (l : list A) :
  existsb f l = true -> exists x xs, filter f l = x :: xs.
Proof.
  intros H. apply existsb_exists in H as (x & Hx & Hf).
  destruct (filter f l) as [|y ys] eqn:E; [|eauto].
  assert (In x (filter f l)) by (apply filter_In; auto).
  rewrite E in H. destruct H.
Qed.

Lemma insert_rating_users (rv rt st : Z) (c : option string) (db : Db) :
  users (fst (insert_rating rv rt st c db)) = users db.
Proof.
  unfold insert_rating.
  repeat match goal with |- context [if ?c then _ else _] => destruct c end;
    reflexivity.
Qed.

(** Neither rating route writes the users table. *)
Lemma apply_op_users (o : Op) (db : Db) :
  users (fst (apply_op o db)) = users db.
Proof.
  destruct o as [p b|p id]; cbn [apply_op].
  - rewrite post_rating_cases.
    repeat match goal with
           | |- context [if ?c then _ else _] => destruct c
           | |- context [match filter ?f ?l with _ => _ end] =>
               destruct (filter f l)
           end; try reflexivity.
    pose proof (insert_rating_users (req_user_id p) (body_rated_user_id b)
                  (body_rating b) (option_map trim (body_comment b)) db) as H.
    destruct (insert_rating _ _ _ _ db) as [db1 [row|e]]; exact H.
  - rewrite delete_rating_cases.
    destruct (filter _ (ratings db)) as [|r l]; [reflexivity|].
    destruct (not_owner_nor_admin p (reviewer_id r)); reflexivity.
Qed.

Lemma unique_pairs_app_one (l : list rating_row) (row : rating_row) :
  unique_pairs l = true ->
  existsb (fun r => (reviewer_id r =? reviewer_id row)
                    && (rated_user_id r =? rated_user_id row)) l = false ->
  unique_pairs (l ++ [row]) = true.
Proof.
  induction l as [|x l IH]; intros Hu Hn; [reflexivity|].
  cbn [unique_pairs app] in *. cbn [existsb] in Hn.
  apply orb_false_iff in Hn as [Hx Hl].
  apply andb_prop in Hu as [Hxl Hu].
  apply andb_true_intro. split; [|auto].
  rewrite existsb_app. cbn [existsb].
  apply negb_true_iff in Hxl. rewrite Hxl. cbn [orb].
  unfold same_pair. rewrite Hx. reflexivity.
Qed.

Lemma unique_pairs_filter (f : rating_row -> bool) (l : list rating_row) :
  unique_pairs l = true -> unique_pairs (filter f l) = true.
Proof.
  induction l as [|x l IH]; intros Hu; [reflexivity|].
  cbn [unique_pairs] in Hu. apply andb_prop in Hu as [Hx Hu].
  cbn [filter]. destruct (f x); [|auto].
  cbn [unique_pairs]. rewrite IH by exact Hu. rewrite andb_true_r.
  apply negb_true_iff in Hx. apply negb_true_iff.
  destruct (existsb (same_pair x) (filter f l)) eqn:E; [|reflexivity].
  apply existsb_exists in E as (y & Hy & Hs).
  apply filter_In in Hy as [Hy _].
  assert (existsb (same_pair x) l = true) by (apply existsb_exists; eauto).
  congruence.
Qed.

(** The [UNIQUE] constraint: an insert never leaves two rows on one pair. *)
Lemma insert_rating_unique (rv rt st : Z) (c : option string) (db : Db) :
  unique_pairs (ratings db) = true ->
  unique_pairs (ratings (fst (insert_rating rv rt st c db))) = true.
Proof.
  intros Hu. unfold insert_rating.
  destruct (negb _); [exact Hu|].
  destruct (existsb _ (ratings db)) eqn:E; [exact Hu|].
  destruct (negb _); [exact Hu|].
  cbn [fst ratings]. apply unique_pairs_app_one; [exact Hu|exact E].
Qed.

Lemma post_rating_try_unique (p : ReqUser) (b : Body) :
  steps_preserve (fun d => unique_pairs (ratings d) = true)
                 (post_rating_try p b).
Proof.
  unfold post_rating_try.
  destruct (negb _); [exact I|].
  destruct (_ =? _); [exact I|].
  cbn. split; [auto|]. intros [|u us]; [exact I|].
  cbn. split; [auto|]. intros [|r rs]; [|exact I].
  cbn. split; [|intros; exact I].
  intros db. apply insert_rating_unique.
Qed.

(** The store [deactivate_user] leaves, whether or not it fails. *)
Lemma deactivate_user_store (i : Z) (db : Db) :
  fst (deactivate_user i db)
  = mkDb (map (fun x => if (user_id x =? i) && active x
                        then with_active false x else x) (users db))
         (ratings db) (ratings_id_seq db).
Proof.
  unfold deactivate_user, not_a_user_id.
  destruct (negb (int4 i) && negb (user_exists db i)) eqn:E; [|reflexivity].
  apply andb_prop in E as [_ E]. apply negb_true_iff in E.
  assert (M : map (fun x => if (user_id x =? i) && active x
                            then with_active false x else x) (users db)
              = users db).
  { rewrite <- (map_id (users db)) at 2. apply map_ext_in. intros y Hy.
    destruct (user_id y =? i) eqn:F; [|reflexivity].
    assert (user_exists db i = true)
      by (apply existsb_exists; exists y; auto).
    congruence. }
  rewrite M. now destruct db.
Qed.

End RoutesFacts.

Section RoutesReads.
Import Routes.

(** [GET /api/ratings/:userId]: the reply, from the query string as
    given. *)
Lemma get_ratings_cases (u : Z) (query_page query_limit : option Z) (db : Db) :
  let page := match query_page with Some v => v | None => 1 end in
  let limit := match query_limit with Some v => v | None => 10 end in
  let offset := (page - 1) * limit in
  get_ratings u query_page query_limit db =
  match filter (fun x => (user_id x =? u) && active x) (users db) with
  | [] => (db, ErrorJson 404 "User not found")
  | x :: _ =>
      if page_refused db u limit offset
      then (db, ErrorJson 500 "Failed to fetch ratings")
      else
        (db, RatingsJson
               (mkRatingsPayload (name x)
                  (firstn (Z.to_nat limit)
                     (skipn (Z.to_nat offset) (newest_first db u)))
                  (COUNT (received db u))
                  (toFixed 1
                     (parseFloat (or_zero (AVG (map rating (received db u))))))
                  (mkDistribution
                     (count_stars 5 (received db u))
                     (count_stars 4 (received db u))
                     (count_stars 3 (received db u))
                     (count_stars 2 (received db u))
                     (count_stars 1 (received db u)))
                  (mkPagination page limit (COUNT (received db u))
                     (ceil_div (COUNT (received db u)) limit))))
  end.
Proof.
  intros page limit offset.
  unfold get_ratings, get_ratings_try, run. fold page limit. fold offset.
  cbn [run_with select_active_user tl].
  destruct (filter _ (users db)) as [|x xs]; [reflexivity|].
  cbn [run_with tl]. unfold select_ratings_page, page_refused.
  destruct (beyond_bigint db u limit offset); [reflexivity|]. cbn [orb].
  destruct ((limit <? 0) || (offset <? 0)); reflexivity.
Qed.

(** [Math.ceil(total / limit)] is the least number of pages of [limit]
    rows that hold [total] rows. *)
Lemma ceil_div_pages (total limit : Z) :
  1 <= limit ->
  exists t, ceil_div total limit = JNum (inject_Z t)
            /\ (t - 1) * limit < total <= t * limit.
Proof.
  intros Hl. unfold ceil_div.
  destruct (limit =? 0) eqn:E; [apply Z.eqb_eq in E; lia|].
  exists (- (- total / limit)). split; [reflexivity|].
  assert (Hp : 0 < limit) by lia.
  pose proof (Z.mul_div_le (- total) limit Hp).
  pose proof (Z.mul_succ_div_gt (- total) limit Hp).
  lia.
Qed.

End RoutesReads.

(** * The claims *)

(** Claim C4.  A [CreateRating] whose rated user is the rater is answered
    with the self-rating rejection on both back ends, whatever the store
    holds and whatever other requests do meanwhile; the store comes back
    as it was, so no rating is inserted and no summary is touched.  The
    request is one that passes the body validation, which both handlers
    run first. *)
Theorem self_rating_always_rejected :
  (forall others user body db,
      Sequelize.createRatingSchema_parse body = Some body ->
      Sequelize.req_ratedUserId body = user ->
      Sequelize.createRating_with others user body db
      = (db, Sequelize.SelfRating))
  /\ (forall others p b db,
         Routes.validation_isEmpty b = true ->
         Routes.req_user_id p = Routes.body_rated_user_id b ->
         Routes.post_rating_with others p b db = (db, Routes.SelfRating)).
Proof.
  split.
  - intros others user body db Hp Hself.
    unfold Sequelize.createRating_with, Sequelize.createRating_try.
    rewrite Hp. apply Z.eqb_eq in Hself. rewrite Hself. reflexivity.
  - intros others p b db Hv Hself.
    unfold Routes.post_rating_with, Routes.post_rating_try.
    rewrite Hv. apply Z.eqb_eq in Hself. rewrite Hself. reflexivity.
Qed.

Lemma self_rating_always_rejected_witness :
  Sequelize.createRating_with Sequelize.racing_create 2 (Sequelize.stars 2 5)
    Sequelize.db_544
  = (Sequelize.db_544, Sequelize.SelfRating)
  /\ Routes.post_rating_with Routes.racing_post Routes.bob (Routes.stars 2 5)
       Routes.db_543
     = (Routes.db_543, Routes.SelfRating).
Proof.
  split.
  - apply (proj1 self_rating_always_rejected); reflexivity.
  - apply (proj2 self_rating_always_rejected); reflexivity.
Defined.

Section DuplicateCheck.
Import Sequelize.

Lemma where_existing_unscoped (user : Z) (body : Body) (r : Rating) :
  req_skillId body = None ->
  where_existing user body r = true
  <-> raterId r = user /\ ratedUserId r = req_ratedUserId body.
Proof.
  intros Hs. unfold where_existing. rewrite Hs, andb_true_r.
  rewrite andb_true_iff, !Z.eqb_eq. reflexivity.
Qed.

Lemma where_existing_scoped (user : Z) (body : Body) (s : Z) (r : Rating) :
  req_skillId body = Some s -> 0 < s ->
  where_existing user body r = true
  <-> raterId r = user /\ ratedUserId r = req_ratedUserId body
      /\ skillId r = Some s.
Proof.
  intros Hs Hpos. unfold where_existing. rewrite Hs.
  assert (T : truthy s = true).
  { unfold truthy. apply negb_true_iff, Z.eqb_neq. lia. }
  rewrite T, !andb_true_iff, !Z.eqb_eq.
  destruct (skillId r) as [s'|].
  - rewrite Z.eqb_eq. split.
    + intros [[? ?] ?]. subst. auto.
    + intros (? & ? & [= ->]). auto.
  - split; [intros [_ ?]; discriminate|intros (_ & _ & ?); discriminate].
Qed.

(** The duplicate rejection is exactly the case of the read-check
    finding a row. *)
Lemma createRating_duplicate_iff (user : Z) (body : Body) (db : Db) :
  createRatingSchema_parse body = Some body ->
  req_ratedUserId body <> user ->
  (snd (createRating user body db) = DuplicateRating
   <-> exists r, In r (ratings db) /\ where_existing user body r = true)
  /\ (snd (createRating user body db) = DuplicateRating ->
      fst (createRating user body db) = db).
Proof.
  intros Hp Hself. rewrite createRating_cases, Hp.
  apply Z.eqb_neq in Hself. rewrite Hself.
  destruct (find (where_existing user body) (ratings db)) as [r|] eqn:F.
  - split; [|reflexivity]. split; [|reflexivity].
    intros _. apply find_some in F. eauto.
  - assert (N : forall X : Db * Reply,
               X = (let (db1, s) := Rating_create body user db in
                    match s with
                    | inl row =>
                        let (db2, s0) :=
                          run (updateUserAverageRating (req_ratedUserId body))
                              db1 in
                        match s0 with
                        | inl _ =>
                            (db2, CreatedJson "Rating created successfully"
                                    (find (fun r => rating_id r =? rating_id row)
                                          (ratings db2)))
                        | inr e => (db2, NextError e)
                        end
                    | inr e => (db1, NextError e)
                    end) ->
               snd X <> DuplicateRating).
    { intros X ->. destruct (Rating_create body user db) as [db1 [row|e]].
      - destruct (run _ db1) as [db2 [[]|e]]; discriminate.
      - discriminate. }
    specialize (N _ eq_refl). split.
    + split; [intros E; now apply N in E|].
      intros (r & Hr & Hw). pose proof (find_none _ _ F r Hr). congruence.
    + intros E. now apply N in E.
Qed.

End DuplicateCheck.

(** Claim C10.  In the Sequelize [createRating] the duplicate check is
    asymmetric in [skillId].  A request without [skillId] is rejected as a
    duplicate exactly when some rating by the same rater for the same
    rated user exists, whatever skill that rating carries; a request with
    a [skillId] is rejected exactly when such a rating carries that very
    skill.  A rejected request leaves the store as it was.  The request
    passes the body validation and is not a self-rating. *)
Theorem duplicate_check_asymmetric_in_skill :
  forall user body db,
    Sequelize.createRatingSchema_parse body = Some body ->
    Sequelize.req_ratedUserId body <> user ->
    (Sequelize.req_skillId body = None ->
     (snd (Sequelize.createRating user body db) = Sequelize.DuplicateRating
      <-> exists r, In r (Sequelize.ratings db)
                    /\ Sequelize.raterId r = user
                    /\ Sequelize.ratedUserId r = Sequelize.req_ratedUserId body))
    /\ (forall s, Sequelize.req_skillId body = Some s ->
        (snd (Sequelize.createRating user body db) = Sequelize.DuplicateRating
         <-> exists r, In r (Sequelize.ratings db)
                       /\ Sequelize.raterId r = user
                       /\ Sequelize.ratedUserId r = Sequelize.req_ratedUserId body
                       /\ Sequelize.skillId r = Some s))
    /\ (snd (Sequelize.createRating user body db) = Sequelize.DuplicateRating ->
        fst (Sequelize.createRating user body db) = db).
Proof.
  intros user body db Hp Hself.
  destruct (createRating_duplicate_iff user body db Hp Hself) as [Hiff Hdb].
  split; [|split; [|exact Hdb]].
  - intros Hs. rewrite Hiff. split.
    + intros (r & Hr & Hw).
      apply (where_existing_unscoped user body r Hs) in Hw. eauto.
    + intros (r & Hr & Hw). exists r. split; [exact Hr|].
      now apply (where_existing_unscoped user body r Hs).
  - intros s Hs. rewrite Hiff.
    pose proof (parse_some _ _ Hp) as (_ & _ & _ & Hpos). rewrite Hs in Hpos.
    split.
    + intros (r & Hr & Hw).
      apply (where_existing_scoped user body s r Hs Hpos) in Hw. eauto.
    + intros (r & Hr & Hw). exists r. split; [exact Hr|].
      now apply (where_existing_scoped user body s r Hs Hpos).
Qed.

Lemma duplicate_check_asymmetric_in_skill_witness :
  (Sequelize.req_skillId (Sequelize.stars 2 4) = None ->
   (snd (Sequelize.createRating 1 (Sequelize.stars 2 4) Sequelize.db_skill7)
    = Sequelize.DuplicateRating
    <-> exists r, In r (Sequelize.ratings Sequelize.db_skill7)
                  /\ Sequelize.raterId r = 1
                  /\ Sequelize.ratedUserId r
                     = Sequelize.req_ratedUserId (Sequelize.stars 2 4)))
  /\ (forall s, Sequelize.req_skillId (Sequelize.stars 2 4) = Some s ->
      (snd (Sequelize.createRating 1 (Sequelize.stars 2 4) Sequelize.db_skill7)
       = Sequelize.DuplicateRating
       <-> exists r, In r (Sequelize.ratings Sequelize.db_skill7)
                     /\ Sequelize.raterId r = 1
                     /\ Sequelize.ratedUserId r
                        = Sequelize.req_ratedUserId (Sequelize.stars 2 4)
                     /\ Sequelize.skillId r = Some s))
  /\ (snd (Sequelize.createRating 1 (Sequelize.stars 2 4) Sequelize.db_skill7)
      = Sequelize.DuplicateRating ->
      fst (Sequelize.createRating 1 (Sequelize.stars 2 4) Sequelize.db_skill7)
      = Sequelize.db_skill7).
Proof.
  apply (duplicate_check_asymmetric_in_skill 1 (Sequelize.stars 2 4)
           Sequelize.db_skill7); [reflexivity|cbn; lia].
Defined.

(** A rating given for skill 7 blocks a later rating without skill, while
    a rating given without skill does not block a rating for skill 7. *)
Example unscoped_after_scoped_is_duplicate :
  Sequelize.createRating 1 (Sequelize.stars 2 4) Sequelize.db_skill7
  = (Sequelize.db_skill7, Sequelize.DuplicateRating).
Proof. reflexivity. Qed.

Example scoped_after_unscoped_is_accepted :
  snd (Sequelize.createRating 1 (Sequelize.mkBody 2 (Some 7) 4 None)
         Sequelize.db_rated)
  = Sequelize.CreatedJson "Rating created successfully"
      (Some (Sequelize.mkRating 2 1 2 (Some 7) 4 None)).
Proof. reflexivity. Qed.

(** Claim C8.  Deleting a rating id that the ledger does not hold answers
    [Rating not found] (404, not the 500 of the [catch]) and returns the
    store as it was, for every principal; so a repeated delete answers
    the same, and after a successful delete of an id every further delete
    of it is answered [Rating not found] and changes nothing.  The id is
    a value of the [INTEGER] key, as every id the ledger has issued is.
    A URL segment that names an integer outside that range is not a
    rating id: the select refuses it and the answer is the 500 of the
    [catch], with the store unchanged as well. *)
Theorem delete_of_absent_rating_not_found :
  (forall db p id,
      int4 id = true ->
      (forall r, In r (Routes.ratings db) -> Routes.rating_id r <> id) ->
      Routes.delete_rating p id db = (db, Routes.RatingNotFound))
  /\ (forall db p p' id db',
         int4 id = true ->
         Routes.delete_rating p id db
         = (db', Routes.MessageJson "Rating deleted successfully") ->
         Routes.delete_rating p' id db' = (db', Routes.RatingNotFound))
  /\ (forall db p id,
         int4 id = false ->
         (forall r, In r (Routes.ratings db) -> Routes.rating_id r <> id) ->
         Routes.delete_rating p id db
         = (db, Routes.ErrorJson 500 "Failed to delete rating")).
Proof.
  assert (Absent : forall db id,
             (forall r, In r (Routes.ratings db) -> Routes.rating_id r <> id) ->
             filter (fun r => Routes.rating_id r =? id) (Routes.ratings db)
             = []).
  { intros db id H. apply filter_nil_iff. intros r Hr. apply Z.eqb_neq. auto. }
  split; [|split].
  - intros db p id Hi H. rewrite delete_rating_cases, (Absent db id H), Hi.
    reflexivity.
  - intros db p p' id db' Hi H. rewrite delete_rating_cases in H.
    destruct (filter _ (Routes.ratings db)) as [|r l]; [|].
    { rewrite Hi in H. discriminate. }
    destruct (Routes.not_owner_nor_admin p (Routes.reviewer_id r));
      [discriminate|].
    injection H as <-. rewrite delete_rating_cases. cbn [Routes.ratings].
    rewrite (filter_filter_negb (fun r => Routes.rating_id r =? id)), Hi.
    reflexivity.
  - intros db p id Hi H. rewrite delete_rating_cases, (Absent db id H), Hi.
    reflexivity.
Qed.

Lemma delete_of_absent_rating_not_found_witness :
  Routes.delete_rating Routes.di 9 Routes.db_543
  = (Routes.db_543, Routes.RatingNotFound)
  /\ Routes.delete_rating Routes.ann 3
       (fst (Routes.delete_rating Routes.di 3 Routes.db_543))
     = (fst (Routes.delete_rating Routes.di 3 Routes.db_543),
        Routes.RatingNotFound)
  /\ Routes.delete_rating Routes.di 99999999999 Routes.db_543
     = (Routes.db_543, Routes.ErrorJson 500 "Failed to delete rating").
Proof.
  assert (Absent : forall id,
             id <> 1 -> id <> 2 -> id <> 3 ->
             forall r, In r (Routes.ratings Routes.db_543) ->
                       Routes.rating_id r <> id).
  { intros id H1 H2 H3 r Hr. vm_compute in Hr.
    destruct Hr as [<-|[<-|[<-|[]]]]; cbn; congruence. }
  split; [|split].
  - apply (proj1 delete_of_absent_rating_not_found); [reflexivity|].
    apply Absent; lia.
  - apply (proj1 (proj2 delete_of_absent_rating_not_found)
             Routes.db_543 Routes.di); reflexivity.
  - apply (proj2 (proj2 delete_of_absent_rating_not_found)); [reflexivity|].
    apply Absent; lia.
Defined.

Section Authorization.
Import Routes.

Lemma not_owner_nor_admin_false (p : ReqUser) (owner : Z) :
  not_owner_nor_admin p owner = false
  <-> req_user_role p = "admin"%string \/ req_user_id p = owner.
Proof.
  unfold not_owner_nor_admin.
  rewrite andb_false_iff, !negb_false_iff, String.eqb_eq, Z.eqb_eq.
  intuition congruence.
Qed.

Lemma not_owner_nor_admin_true (p : ReqUser) (owner : Z) :
  req_user_role p <> "admin"%string -> owner <> req_user_id p ->
  not_owner_nor_admin p owner = true.
Proof.
  intros Hr Ho. destruct (not_owner_nor_admin p owner) eqn:E; [reflexivity|].
  apply not_owner_nor_admin_false in E. destruct E; congruence.
Qed.

Lemma requireOwnerOrAdmin_next (p : ReqUser) (resourceId : Z) :
  requireOwnerOrAdmin p resourceId = None
  <-> req_user_role p = "admin"%string \/ req_user_id p = resourceId.
Proof.
  unfold requireOwnerOrAdmin.
  destruct (_ || _) eqn:E.
  - apply orb_true_iff in E. rewrite String.eqb_eq, Z.eqb_eq in E.
    split; auto.
  - apply orb_false_iff in E as [E1 E2].
    apply String.eqb_neq in E1. apply Z.eqb_neq in E2.
    split; [discriminate|]. intros [?|?]; contradiction.
Qed.

Lemma requireOwnerOrAdmin_denied (p : ReqUser) (resourceId : Z) :
  req_user_role p <> "admin"%string -> req_user_id p <> resourceId ->
  requireOwnerOrAdmin p resourceId
  = Some (ErrorJson 403 "Access denied - insufficient permissions").
Proof.
  intros Hr Ho. unfold requireOwnerOrAdmin.
  apply String.eqb_neq in Hr. apply Z.eqb_neq in Ho. now rewrite Hr, Ho.
Qed.

(** [DELETE /api/users/:id] once [requireOwnerOrAdmin] has let the
    principal through. *)
Lemma delete_user_allowed (p : ReqUser) (id : Z) (db : Db) :
  req_user_role p = "admin"%string \/ req_user_id p = id ->
  delete_user p id db =
  if not_a_user_id db id
  then (db, ErrorJson 500 "Failed to delete user")
  else
    (fst (deactivate_user id db),
     match filter (fun y => (user_id y =? id) && active y) (users db) with
     | [] => ErrorJson 404 "User not found"
     | x :: _ => UserJson "User deleted successfully" (with_active false x)
     end).
Proof.
  intros Hp. apply requireOwnerOrAdmin_next in Hp.
  unfold delete_user. rewrite Hp. unfold run. cbn [run_with tl].
  unfold deactivate_user.
  destruct (not_a_user_id db id); [reflexivity|]. cbn [fst].
  destruct (filter _ (users db)); reflexivity.
Qed.

End Authorization.

(** Claim C7.  Each mutating route of the raw-SQL back end lets the
    principal through exactly when the principal is an administrator or
    the owner of the resource, and otherwise answers a 403 denial and
    returns the store unchanged: [DELETE /api/ratings/:id] against the
    reviewer of the rating, [PUT] and [DELETE /api/skills/:id] against
    the creator of the active skill, [PUT] and [DELETE /api/users/:id]
    against the id in the URL.  A principal who is let through has the
    work of the route done: the rating is removed, the skill is rewritten
    or deactivated, the profile is validated and updated, the account is
    closed.  The rating and the skill are ones the store holds, and the
    body of the skill update is valid, since these routes answer 404 and
    400 before they check the principal. *)
Theorem owner_or_admin_gate :
  (forall db p id r rest,
      filter (fun x => Routes.rating_id x =? id) (Routes.ratings db)
      = r :: rest ->
      (Routes.req_user_role p <> "admin"%string ->
       Routes.reviewer_id r <> Routes.req_user_id p ->
       Routes.delete_rating p id db
       = (db, Routes.ErrorJson 403
                "Access denied - you can only delete your own ratings"))
      /\ (Routes.req_user_role p = "admin"%string
          \/ Routes.req_user_id p = Routes.reviewer_id r ->
          Routes.delete_rating p id db
          = (Routes.mkDb (Routes.users db)
               (filter (fun x => negb (Routes.rating_id x =? id))
                       (Routes.ratings db))
               (Routes.ratings_id_seq db),
             Routes.MessageJson "Rating deleted successfully")))
  /\ (forall isURL st p id b s rest,
         Catalog.skill_validation_isEmpty isURL b = true ->
         Catalog.select_active_skill id st = s :: rest ->
         (Routes.req_user_role p <> "admin"%string ->
          Catalog.created_by s <> Routes.req_user_id p ->
          Catalog.put_skill isURL p id b st
          = (st, Catalog.SkillError 403
                   "Access denied - you can only edit your own skills"))
         /\ (Routes.req_user_role p = "admin"%string
             \/ Routes.req_user_id p = Catalog.created_by s ->
             Catalog.put_skill isURL p id b st
             = match Catalog.update_skill (trim (Catalog.body_title b))
                       (trim (Catalog.body_description b))
                       (trim (Catalog.body_category b))
                       (match Catalog.body_tags b with
                        | Some t => t
                        | None => []
                        end)
                       (Catalog.body_image_url b) id st with
               | (st1, inl rows) =>
                   (st1, Catalog.SkillUpdated "Skill updated successfully"
                           (hd_error rows))
               | (st1, inr _) =>
                   (st1, Catalog.SkillError 500 "Failed to update skill")
               end
             /\ Catalog.SkillDenied (snd (Catalog.put_skill isURL p id b st))
                = false))
  /\ (forall st p id s rest,
         Catalog.select_active_skill id st = s :: rest ->
         (Routes.req_user_role p <> "admin"%string ->
          Catalog.created_by s <> Routes.req_user_id p ->
          Catalog.delete_skill p id st
          = (st, Catalog.SkillError 403
                   "Access denied - you can only delete your own skills"))
         /\ (Routes.req_user_role p = "admin"%string
             \/ Routes.req_user_id p = Catalog.created_by s ->
             Catalog.delete_skill p id st
             = (fst (Catalog.deactivate_skill id st),
                Catalog.SkillDeleted "Skill deleted successfully"
                  (hd_error (snd (Catalog.deactivate_skill id st))))))
  /\ (forall isURL db p id b,
         (Routes.req_user_role p <> "admin"%string ->
          Routes.req_user_id p <> id ->
          Catalog.put_user isURL p id b db
          = (db, Routes.ErrorJson 403
                   "Access denied - insufficient permissions"))
         /\ (Routes.req_user_role p = "admin"%string
             \/ Routes.req_user_id p = id ->
             Catalog.put_user isURL p id b db
             = (if negb (Catalog.profile_validation_isEmpty isURL b)
                then (db, Routes.ErrorJson 400 "Validation failed")
                else
                  match Catalog.update_user
                          (option_map trim (Catalog.body_name b))
                          (option_map trim (Catalog.body_bio b))
                          (option_map trim (Catalog.body_location b))
                          (Catalog.body_website b) (Catalog.body_avatar_url b)
                          id db with
                  | (db1, inl []) =>
                      (db1, Routes.ErrorJson 404 "User not found")
                  | (db1, inl (user :: _)) =>
                      (db1, Routes.UserJson "Profile updated successfully"
                              user)
                  | (db1, inr _) =>
                      (db1, Routes.ErrorJson 500 "Failed to update profile")
                  end)
             /\ Routes.InsufficientPermission
                  (snd (Catalog.put_user isURL p id b db)) = false))
  /\ (forall db p id,
         (Routes.req_user_role p <> "admin"%string ->
          Routes.req_user_id p <> id ->
          Routes.delete_user p id db
          = (db, Routes.ErrorJson 403
                   "Access denied - insufficient permissions"))
         /\ (Routes.req_user_role p = "admin"%string
             \/ Routes.req_user_id p = id ->
             Routes.delete_user p id db
             = (if Routes.not_a_user_id db id
                then (db, Routes.ErrorJson 500 "Failed to delete user")
                else
                  (fst (Routes.deactivate_user id db),
                   match filter (fun y => (Routes.user_id y =? id)
                                          && Routes.active y)
                                (Routes.users db) with
                   | [] => Routes.ErrorJson 404 "User not found"
                   | x :: _ =>
                       Routes.UserJson "User deleted successfully"
                         (Routes.with_active false x)
                   end)))).
Proof.
  split; [|split; [|split; [|split]]].
  - intros db p id r rest E. split.
    + intros Hrole Hown. rewrite delete_rating_cases, E.
      now rewrite (not_owner_nor_admin_true p _ Hrole Hown).
    + intros H. rewrite delete_rating_cases, E.
      apply not_owner_nor_admin_false in H. now rewrite H.
  - intros isURL st p id b s rest Hv Hs. unfold Catalog.put_skill.
    rewrite Hv, Hs. cbn [negb]. split.
    + intros Hrole Hown.
      now rewrite (not_owner_nor_admin_true p _ Hrole Hown).
    + intros H. apply not_owner_nor_admin_false in H. rewrite H.
      split; [reflexivity|].
      destruct (Catalog.update_skill _ _ _ _ _ _ _) as [st1 [rows|f]];
        reflexivity.
  - intros st p id s rest Hs. unfold Catalog.delete_skill. rewrite Hs. split.
    + intros Hrole Hown.
      now rewrite (not_owner_nor_admin_true p _ Hrole Hown).
    + intros H. apply not_owner_nor_admin_false in H. rewrite H. reflexivity.
  - intros isURL db p id b. unfold Catalog.put_user. split.
    + intros Hrole Hown.
      now rewrite (requireOwnerOrAdmin_denied p id Hrole Hown).
    + intros H. apply requireOwnerOrAdmin_next in H. rewrite H.
      split; [reflexivity|].
      destruct (negb _); [reflexivity|].
      destruct (Catalog.update_user _ _ _ _ _ _ _) as [db1 [[|u us]|f]];
        reflexivity.
  - intros db p id. unfold Routes.delete_user. split.
    + intros Hrole Hown.
      now rewrite (requireOwnerOrAdmin_denied p id Hrole Hown).
    + intros H. fold (Routes.delete_user p id db).
      apply (delete_user_allowed p id db H).
Qed.

Lemma owner_or_admin_gate_witness :
  Routes.delete_rating Routes.di 1 Routes.db_543
  = (Routes.db_543,
     Routes.ErrorJson 403
       "Access denied - you can only delete your own ratings")
  /\ Routes.delete_rating Routes.cy 1 Routes.db_543
     = (Routes.mkDb (Routes.users Routes.db_543)
          (filter (fun x => negb (Routes.rating_id x =? 1))
                  (Routes.ratings Routes.db_543))
          (Routes.ratings_id_seq Routes.db_543),
        Routes.MessageJson "Rating deleted successfully")
  /\ Catalog.put_skill Catalog.accept_url Routes.bob 1
       Catalog.gardening_renamed Catalog.store_gardening
     = (Catalog.store_gardening,
        Catalog.SkillError 403
          "Access denied - you can only edit your own skills")
  /\ Catalog.delete_skill Routes.ann 1 Catalog.store_gardening
     = (fst (Catalog.deactivate_skill 1 Catalog.store_gardening),
        Catalog.SkillDeleted "Skill deleted successfully"
          (hd_error (snd (Catalog.deactivate_skill 1 Catalog.store_gardening))))
  /\ Catalog.put_user Catalog.accept_url Routes.di 2 Catalog.new_bio
       Routes.db_543
     = (Routes.db_543,
        Routes.ErrorJson 403 "Access denied - insufficient permissions")
  /\ Routes.delete_user Routes.bob 2 Routes.db_543
     = (fst (Routes.deactivate_user 2 Routes.db_543),
        Routes.UserJson "User deleted successfully"
          (Routes.mkUserRow 2 "bob" "user" false)).
Proof.
  destruct owner_or_admin_gate as (Hrating & Hput & Hdel & Hprofile & Huser).
  assert (Hskill : Catalog.select_active_skill 1 Catalog.store_gardening
                   = [Catalog.mkSkillRow 1 "Gardening"
                        "Growing vegetables on a balcony" "outdoors"
                        ["plants"; "food"]%string
                        (Some "https://example.org/garden.png"%string) 1 true])
    by reflexivity.
  split; [|split; [|split; [|split; [|split]]]].
  - apply (proj1 (Hrating Routes.db_543 Routes.di 1
                    (Routes.mkRatingRow 1 1 2 5 None) [] eq_refl)).
    + discriminate.
    + cbn. lia.
  - apply (proj2 (Hrating Routes.db_543 Routes.cy 1
                    (Routes.mkRatingRow 1 1 2 5 None) [] eq_refl)).
    left. reflexivity.
  - apply (proj1 (Hput Catalog.accept_url Catalog.store_gardening Routes.bob 1
                    Catalog.gardening_renamed _ [] eq_refl Hskill)).
    + discriminate.
    + cbn. lia.
  - apply (proj2 (Hdel Catalog.store_gardening Routes.ann 1 _ [] Hskill)).
    right. reflexivity.
  - apply (proj1 (Hprofile Catalog.accept_url Routes.db_543 Routes.di 2
                    Catalog.new_bio)).
    + discriminate.
    + cbn. lia.
  - apply (proj2 (Huser Routes.db_543 Routes.bob 2)). right. reflexivity.
Defined.

(** Claim C9, as stated, fails: [GET /api/ratings/:userId] does not
    normalize its query.  With [page=0] the negative offset is refused by
    the store and the reply is the 500 of the [catch], not the first
    page; with [limit=0] the reply holds no rating and reports
    [limit: 0], not the page of 20; and the default limit is 10. *)
Lemma page_and_limit_not_normalized :
  snd (Routes.get_ratings 2 (Some 0) (Some 10) Routes.db_543)
  = Routes.ErrorJson 500 "Failed to fetch ratings"
  /\ snd (Routes.get_ratings 2 (Some 0) (Some 10) Routes.db_543)
     <> snd (Routes.get_ratings 2 (Some 1) (Some 10) Routes.db_543)
  /\ snd (Routes.get_ratings 2 (Some 1) (Some 0) Routes.db_543)
     <> snd (Routes.get_ratings 2 (Some 1) (Some 20) Routes.db_543)
  /\ exists payload,
       snd (Routes.get_ratings 2 (Some 1) (Some 0) Routes.db_543)
       = Routes.RatingsJson payload
       /\ Routes.page_ratings payload = []
       /\ Routes.limit (Routes.pagination payload) = 0
       /\ Routes.totalPages (Routes.pagination payload) = JInf.
Proof.
  split; [reflexivity|].
  split; [intros H; vm_compute in H; discriminate|].
  split; [intros H; vm_compute in H; discriminate|].
  eexists. split; [vm_compute; reflexivity|].
  repeat split.
Qed.

Section PageQuery.
Import Routes.

Lemma int8_safe (z : Z) : safe_integer z = true -> int8 z = true.
Proof.
  unfold safe_integer, int8. intros H. apply Z.leb_le in H.
  apply andb_true_intro. split; [apply Z.leb_le|apply Z.ltb_lt]; lia.
Qed.

Lemma page_served (db : Db) (u l o : Z) :
  safe_integer l = true -> safe_integer o = true -> 0 <= l -> 0 <= o ->
  page_refused db u l o = false.
Proof.
  intros Hl Ho Pl Po. unfold page_refused, beyond_bigint.
  rewrite (int8_safe l Hl), (int8_safe o Ho). cbn [negb andb orb].
  apply orb_false_iff. split; apply Z.ltb_ge; lia.
Qed.

End PageQuery.

(** Claim C9, amended.  For an active user, [GET /api/ratings/:userId]
    takes [page] (default 1) and [limit] (default 10) as given, integers
    that doubles count exactly.  When neither the limit nor the offset
    [(page-1) * limit] is negative, and the offset is such an integer
    too, the reply holds the ratings of the user, newest first, from that
    offset on and at most [limit] of them, reports [page] and [limit]
    unchanged and the total count, and for [limit >= 1] its [totalPages]
    is the ceiling of [total / limit].  When the limit or the offset is
    negative, when the limit is beyond [bigint], and when the offset is
    beyond [bigint] (and so past the last row), the store refuses the
    query and the reply is the 500 of the [catch]. *)
Theorem pagination_is_offset_based :
  forall db userId query_page query_limit x rest,
    filter (fun u => (Routes.user_id u =? userId) && Routes.active u)
           (Routes.users db) = x :: rest ->
    let page := match query_page with Some v => v | None => 1 end in
    let limit := match query_limit with Some v => v | None => 10 end in
    let offset := (page - 1) * limit in
    (safe_integer page = true -> safe_integer limit = true ->
     safe_integer offset = true -> 0 <= limit -> 0 <= offset ->
     exists payload,
       Routes.get_ratings userId query_page query_limit db
       = (db, Routes.RatingsJson payload)
       /\ Routes.page_ratings payload
          = firstn (Z.to_nat limit)
              (skipn (Z.to_nat offset) (Routes.newest_first db userId))
       /\ Routes.page (Routes.pagination payload) = page
       /\ Routes.limit (Routes.pagination payload) = limit
       /\ Routes.total (Routes.pagination payload)
          = COUNT (Routes.received db userId)
       /\ (1 <= limit ->
           exists t,
             Routes.totalPages (Routes.pagination payload) = JNum (inject_Z t)
             /\ (t - 1) * limit < COUNT (Routes.received db userId) <= t * limit))
    /\ (limit < 0 \/ offset < 0 \/ 2 ^ 63 <= limit ->
        Routes.get_ratings userId query_page query_limit db
        = (db, Routes.ErrorJson 500 "Failed to fetch ratings"))
    /\ (safe_integer page = true -> safe_integer limit = true ->
        2 ^ 63 <= offset ->
        COUNT (Routes.newest_first db userId) <= offset ->
        Routes.get_ratings userId query_page query_limit db
        = (db, Routes.ErrorJson 500 "Failed to fetch ratings")).
Proof.
  intros db userId query_page query_limit x rest Hu page limit offset.
  pose proof (get_ratings_cases userId query_page query_limit db) as G.
  cbv zeta in G. fold page limit in G. fold offset in G. rewrite Hu in G.
  split; [|split].
  - intros _ Sl So Hl Ho.
    rewrite (page_served db userId limit offset Sl So Hl Ho) in G.
    eexists. split; [exact G|].
    cbn [Routes.page_ratings Routes.pagination Routes.page Routes.limit
         Routes.total Routes.totalPages].
    repeat split. apply ceil_div_pages.
  - intros H.
    assert (E : Routes.page_refused db userId limit offset = true).
    { unfold Routes.page_refused, Routes.beyond_bigint, int8.
      destruct H as [H|[H|H]].
      - apply Z.ltb_lt in H. rewrite H. now rewrite orb_true_r.
      - apply Z.ltb_lt in H. rewrite H. now rewrite orb_true_r.
      - assert (F : (limit <? 2 ^ 63) = false) by (apply Z.ltb_ge; lia).
        rewrite F, andb_false_r. reflexivity. }
    rewrite E in G. exact G.
  - intros _ _ Ho Hc.
    assert (E : Routes.page_refused db userId limit offset = true).
    { unfold Routes.page_refused, Routes.beyond_bigint, int8.
      assert (F : (offset <? 2 ^ 63) = false) by (apply Z.ltb_ge; lia).
      apply Z.leb_le in Hc. rewrite F, Hc, andb_false_r. cbn [negb andb].
      now rewrite orb_true_r. }
    rewrite E in G. exact G.
Qed.

Lemma pagination_is_offset_based_witness :
  (exists payload,
      Routes.get_ratings 2 (Some 2) (Some 2) Routes.db_543
      = (Routes.db_543, Routes.RatingsJson payload)
      /\ Routes.page_ratings payload
         = firstn (Z.to_nat 2)
             (skipn (Z.to_nat ((2 - 1) * 2))
                    (Routes.newest_first Routes.db_543 2))
      /\ Routes.page (Routes.pagination payload) = 2
      /\ Routes.limit (Routes.pagination payload) = 2
      /\ Routes.total (Routes.pagination payload)
         = COUNT (Routes.received Routes.db_543 2)
      /\ (1 <= 2 ->
          exists t,
            Routes.totalPages (Routes.pagination payload) = JNum (inject_Z t)
            /\ (t - 1) * 2 < COUNT (Routes.received Routes.db_543 2) <= t * 2))
  /\ Routes.get_ratings 2 (Some 0) None Routes.db_543
     = (Routes.db_543, Routes.ErrorJson 500 "Failed to fetch ratings")
  /\ Routes.get_ratings 2 (Some (2 ^ 53)) (Some (2 ^ 53)) Routes.db_543
     = (Routes.db_543, Routes.ErrorJson 500 "Failed to fetch ratings").
Proof.
  pose proof (fun qp ql =>
                pagination_is_offset_based Routes.db_543 2 qp ql
                  (Routes.mkUserRow 2 "bob" "user" true) [] eq_refl) as P.
  split; [|split].
  - apply (proj1 (P (Some 2) (Some 2))); try reflexivity; lia.
  - apply (proj1 (proj2 (P (Some 0) None))). right. left. lia.
  - apply (proj2 (proj2 (P (Some (2 ^ 53)) (Some (2 ^ 53)))));
      try reflexivity.
    + lia.
    + vm_compute. discriminate.
Defined.

(** Claim C2, as stated, fails: when ann's two requests to rate bob race,
    the second insert is refused by the [UNIQUE] constraint and the reply
    is the generic 500, not the duplicate rejection. *)
Lemma constraint_violation_answered_500 :
  snd (run_with Routes.racing_post
         (Routes.post_rating_try Routes.ann (Routes.stars 2 4)) Routes.db_start)
  = inr UniqueViolation
  /\ snd (Routes.post_rating_with Routes.racing_post Routes.ann
            (Routes.stars 2 4) Routes.db_start)
     = Routes.ErrorJson 500 "Failed to add rating"
  /\ snd (Routes.post_rating_with Routes.racing_post Routes.ann
            (Routes.stars 2 4) Routes.db_start)
     <> Routes.DuplicateRating.
Proof.
  split; [reflexivity|]. split; [reflexivity|].
  intros H. vm_compute in H. discriminate.
Qed.

Lemma fst_try_catch {Db R} (res : Db * (R + DbError)) (h : DbError -> R) :
  fst (try_catch res h) = fst res.
Proof. destruct res as [db [r|e]]; reflexivity. Qed.

Section RacingPosts.
Import Routes.

(** [POST /api/ratings] with other requests' writes landing between its
    steps: each step acts on the store as it finds it. *)
Lemma post_rating_with_cases (others : list (Db -> Db)) (p : ReqUser)
    (b : Body) (db : Db) :
  post_rating_with others p b db =
  if negb (validation_isEmpty b) then (db, ErrorJson 400 "Validation failed")
  else if req_user_id p =? body_rated_user_id b then (db, SelfRating)
  else
    match filter (fun x => (user_id x =? body_rated_user_id b) && active x)
                 (users (seen_at others 0 db)) with
    | [] => (seen_at others 0 db, TargetNotFound)
    | _ :: _ =>
        match filter (fun r => (reviewer_id r =? req_user_id p)
                               && (rated_user_id r =? body_rated_user_id b))
                     (ratings (seen_at others 1 db)) with
        | _ :: _ => (seen_at others 1 db, DuplicateRating)
        | [] =>
            match insert_rating (req_user_id p) (body_rated_user_id b)
                    (body_rating b) (option_map trim (body_comment b))
                    (seen_at others 2 db) with
            | (db1, inl newRating) =>
                (db1, RatingAdded "Rating added successfully" newRating
                        (req_user_name p) (req_user_id p))
            | (db1, inr _) => (db1, ErrorJson 500 "Failed to add rating")
            end
        end
    end.
Proof.
  unfold post_rating_with, post_rating_try, seen_at.
  destruct (negb (validation_isEmpty b)); [reflexivity|].
  destruct (req_user_id p =? body_rated_user_id b); [reflexivity|].
  destruct others as [|w1 [|w2 [|w3 rest]]];
    cbn [run_with select_active_user tl firstn fold_left];
    (destruct (filter _ (users _)); [reflexivity|]);
    cbn [run_with select_rating_by_pair tl];
    (destruct (filter _ (ratings _)); [|reflexivity]);
    cbn [run_with tl];
    (destruct (insert_rating _ _ _ _ _) as [db1 [row|e]]; reflexivity).
Qed.

Lemma valid_stars (b : Body) :
  validation_isEmpty b = true ->
  negb ((1 <=? body_rating b) && (body_rating b <=? 5)) = false.
Proof.
  unfold validation_isEmpty. intros Hv.
  apply andb_prop in Hv as [Hv _]. apply andb_prop in Hv as [Hv H5].
  apply andb_prop in Hv as [_ H1]. now rewrite H1, H5.
Qed.

End RacingPosts.

(** Claim C2, amended.  On the raw-SQL back end the uniqueness of the
    pair (reviewer, rated user) is a constraint of the ratings table.
    Whatever the other requests write between the steps of [POST
    /api/ratings]: when a rating of the pair lands after the read-check
    of the request has found none, the store refuses the insert of the
    request, which adds no row, and the reply is the generic 500 [Failed
    to add rating]; the duplicate rejection (409) is the answer exactly
    when the read-check itself finds a row of the pair; and if the other
    requests keep the ledger at one row per pair then so does the
    handler.  The Sequelize model declares no such constraint: there two
    racing requests of one rater for one user are both admitted and
    leave two rows on the pair. *)
Theorem racing_insert_refused_by_constraint :
  (forall others p b db,
      Routes.validation_isEmpty b = true ->
      Routes.req_user_id p <> Routes.body_rated_user_id b ->
      existsb (fun x => (Routes.user_id x =? Routes.body_rated_user_id b)
                        && Routes.active x)
              (Routes.users (Routes.seen_at others 0 db)) = true ->
      existsb (fun r => (Routes.reviewer_id r =? Routes.req_user_id p)
                        && (Routes.rated_user_id r
                            =? Routes.body_rated_user_id b))
              (Routes.ratings (Routes.seen_at others 1 db)) = false ->
      existsb (fun r => (Routes.reviewer_id r =? Routes.req_user_id p)
                        && (Routes.rated_user_id r
                            =? Routes.body_rated_user_id b))
              (Routes.ratings (Routes.seen_at others 2 db)) = true ->
      Routes.post_rating_with others p b db
      = (Routes.refused_state (Routes.seen_at others 2 db),
         Routes.ErrorJson 500 "Failed to add rating"))
  /\ (forall others p b db,
         Routes.validation_isEmpty b = true ->
         Routes.req_user_id p <> Routes.body_rated_user_id b ->
         existsb (fun x => (Routes.user_id x =? Routes.body_rated_user_id b)
                           && Routes.active x)
                 (Routes.users (Routes.seen_at others 0 db)) = true ->
         (snd (Routes.post_rating_with others p b db) = Routes.DuplicateRating
          <-> exists r, In r (Routes.ratings (Routes.seen_at others 1 db))
                        /\ Routes.reviewer_id r = Routes.req_user_id p
                        /\ Routes.rated_user_id r = Routes.body_rated_user_id b))
  /\ (forall others p b db,
         Forall (fun w => forall d,
                     Routes.unique_pairs (Routes.ratings d) = true ->
                     Routes.unique_pairs (Routes.ratings (w d)) = true) others ->
         Routes.unique_pairs (Routes.ratings db) = true ->
         Routes.unique_pairs
           (Routes.ratings (fst (Routes.post_rating_with others p b db))) = true)
  /\ (exists r1 r2,
         snd (Sequelize.createRating_with Sequelize.racing_create 1
                (Sequelize.stars 2 4) Sequelize.db_start)
         = Sequelize.CreatedJson "Rating created successfully" (Some r2)
         /\ Sequelize.ratings
              (fst (Sequelize.createRating_with Sequelize.racing_create 1
                      (Sequelize.stars 2 4) Sequelize.db_start))
            = [r1; r2]
         /\ Sequelize.raterId r1 = Sequelize.raterId r2
         /\ Sequelize.ratedUserId r1 = Sequelize.ratedUserId r2
         /\ Sequelize.skillId r1 = Sequelize.skillId r2).
Proof.
  split; [|split; [|split]].
  - intros others p b db Hv Hself Ht Hn Hr.
    rewrite post_rating_with_cases, Hv. cbn [negb].
    apply Z.eqb_neq in Hself. rewrite Hself.
    destruct (existsb_filter_cons _ _ Ht) as (x & xs & ->).
    rewrite (existsb_filter_nil _ _ Hn).
    unfold Routes.insert_rating. rewrite (valid_stars b Hv), Hr. reflexivity.
  - intros others p b db Hv Hself Ht.
    rewrite post_rating_with_cases, Hv. cbn [negb].
    apply Z.eqb_neq in Hself. rewrite Hself.
    destruct (existsb_filter_cons _ _ Ht) as (x & xs & ->).
    destruct (filter _ (Routes.ratings _)) as [|r rs] eqn:F.
    + split.
      * destruct (Routes.insert_rating _ _ _ _ _) as [db1 [row|e]];
          discriminate.
      * intros (r & Hr & H1 & H2).
        rewrite filter_nil_iff in F. specialize (F r Hr).
        rewrite H1, H2, !Z.eqb_refl in F. discriminate.
    + split; [|reflexivity]. intros _. exists r.
      assert (Hr : In r (filter
                           (fun r => (Routes.reviewer_id r =? Routes.req_user_id p)
                                     && (Routes.rated_user_id r
                                         =? Routes.body_rated_user_id b))
                           (Routes.ratings (Routes.seen_at others 1 db)))).
      { rewrite F. now left. }
      apply filter_In in Hr as [Hin Hc].
      apply andb_prop in Hc as [H1 H2]. apply Z.eqb_eq in H1, H2. auto.
  - intros others p b db Ho Hdb. unfold Routes.post_rating_with.
    rewrite fst_try_catch.
    apply (run_with_preserves
             (fun d => Routes.unique_pairs (Routes.ratings d) = true));
      auto using post_rating_try_unique.
  - eexists. eexists. vm_compute. repeat split.
Qed.

Lemma racing_insert_refused_by_constraint_witness :
  Routes.post_rating_with Routes.racing_post Routes.ann (Routes.stars 2 4)
    Routes.db_start
  = (Routes.refused_state (Routes.seen_at Routes.racing_post 2 Routes.db_start),
     Routes.ErrorJson 500 "Failed to add rating")
  /\ (snd (Routes.post_rating_with [] Routes.ann (Routes.stars 2 4)
             Routes.db_rated) = Routes.DuplicateRating
      <-> exists r, In r (Routes.ratings (Routes.seen_at [] 1 Routes.db_rated))
                    /\ Routes.reviewer_id r = Routes.req_user_id Routes.ann
                    /\ Routes.rated_user_id r
                       = Routes.body_rated_user_id (Routes.stars 2 4))
  /\ Routes.unique_pairs
       (Routes.ratings
          (fst (Routes.post_rating_with [] Routes.cy (Routes.stars 2 4)
                  Routes.db_rated))) = true.
Proof.
  destruct racing_insert_refused_by_constraint as (H500 & H409 & Huniq & _).
  split; [|split].
  - apply H500; try reflexivity. cbn. lia.
  - apply H409; try reflexivity. cbn. lia.
  - apply Huniq; [constructor|reflexivity].
Defined.

(** Claim C1, as stated, fails when two admitted requests overlap.  User 1
    and user 3 rate user 2 at the same time; the request of user 3 is
    handled between the aggregate query and the [User.update] of the
    recompute of user 1's request.  Both requests are answered 201 and
    both ratings are in the ledger, but the summary user 1's request
    writes last is the one it read before: user 2 is left with a stored
    total of 1 and an average of 5.00 while the ledger holds two ratings
    of mean 4.5. *)
Lemma overlapping_creates_leave_stale_summary :
  snd (Sequelize.createRating_with Sequelize.overlapping_create 1
         (Sequelize.stars 2 5) Sequelize.db_start)
  = Sequelize.CreatedJson "Rating created successfully"
      (Some (Sequelize.mkRating 1 1 2 None 5 None))
  /\ snd (Sequelize.createRating 3 (Sequelize.stars 2 4)
            (fst (Sequelize.Rating_create (Sequelize.stars 2 5) 1
                    Sequelize.db_start)))
     = Sequelize.CreatedJson "Rating created successfully"
         (Some (Sequelize.mkRating 2 3 2 None 4 None))
  /\ Sequelize.ratings Sequelize.db_overlapped
     = [Sequelize.mkRating 1 1 2 None 5 None;
        Sequelize.mkRating 2 3 2 None 4 None]
  /\ In (Sequelize.mkUser 2 (Sequelize.DVal 500) 1)
        (Sequelize.users Sequelize.db_overlapped)
  /\ COUNT (Sequelize.ratings_of Sequelize.db_overlapped 2) = 2
  /\ AVG (Sequelize.stars_of Sequelize.db_overlapped 2) = Some (9 # 2)%Q
  /\ ~ Sequelize.summary_is_rounded Sequelize.db_overlapped
         (Sequelize.mkUser 2 (Sequelize.DVal 500) 1).
Proof.
  split; [reflexivity|]. split; [reflexivity|]. split; [reflexivity|].
  split; [vm_compute; auto|]. split; [reflexivity|]. split; [reflexivity|].
  intros [H _]. vm_compute in H. discriminate.
Qed.

(** Claim C1, amended.  On the Sequelize back end, starting from a store
    whose summaries follow the ledger, after every sequence of
    [createRating] requests handled one after the other each user's
    stored [totalRatings] is the count of the ratings addressed to them
    and the stored [averageRating] is their mean kept to two decimals
    (0 with no rating): the recompute has run when the reply is issued.
    The raw-SQL [POST] and [DELETE] routes run no recompute and write
    nothing to the users table; the summary that back end serves is
    computed from the ledger by the read itself, whatever inserts and
    deletes came before. *)
Theorem summary_follows_ledger :
  (forall reqs db x,
      Sequelize.wf db = true ->
      Sequelize.summaries_ok db = true ->
      In x (Sequelize.users (Sequelize.createRatings reqs db)) ->
      Sequelize.summary_is_rounded (Sequelize.createRatings reqs db) x)
  /\ (forall o db, Routes.users (fst (Routes.apply_op o db)) = Routes.users db)
  /\ (forall ops db userId query_page query_limit payload,
         snd (Routes.get_ratings userId query_page query_limit
                (Routes.apply_ops ops db))
         = Routes.RatingsJson payload ->
         Routes.total_ratings payload
         = COUNT (Routes.received (Routes.apply_ops ops db) userId)
         /\ Routes.average_rating payload
            = toFixed 1
                (parseFloat
                   (or_zero
                      (AVG (map Routes.rating
                              (Routes.received (Routes.apply_ops ops db)
                                 userId)))))).
Proof.
  split; [|split].
  - intros reqs db x Hwf Hs Hx.
    destruct (createRatings_preserve reqs db Hwf Hs) as [_ Hs'].
    now apply summaries_ok_rounded.
  - apply apply_op_users.
  - intros ops db userId query_page query_limit payload.
    generalize (Routes.apply_ops ops db). intros d.
    pose proof (get_ratings_cases userId query_page query_limit d) as G.
    cbv zeta in G. rewrite G.
    destruct (filter _ (Routes.users d)); [discriminate|].
    destruct (Routes.page_refused _ _ _ _); [discriminate|].
    intros [= <-]. split; reflexivity.
Qed.

Lemma summary_follows_ledger_witness :
  Sequelize.summary_is_rounded Sequelize.db_544
    (Sequelize.mkUser 2 (Sequelize.DVal 433) 3)
  /\ Routes.total_ratings
       (Routes.mkRatingsPayload "bob" [] 2 (FDec 45)
          (Routes.mkDistribution 1 1 0 0 0)
          (Routes.mkPagination 1 0 2 JInf))
     = COUNT (Routes.received
                (Routes.apply_ops [Routes.Delete Routes.di 3] Routes.db_543) 2).
Proof.
  destruct summary_follows_ledger as (Hseq & _ & Hread).
  split.
  - apply (Hseq [(1, Sequelize.stars 2 5); (3, Sequelize.stars 2 4);
                 (4, Sequelize.stars 2 4)] Sequelize.db_start);
      [reflexivity|reflexivity|vm_compute; auto].
  - apply (Hread [Routes.Delete Routes.di 3] Routes.db_543 2 (Some 1) (Some 0)).
    reflexivity.
Defined.

(** The halfway means go the way of their doubles, on both back ends:
    40 ratings that sum to 41 store 1.02, and a mean of 1.15 is served
    as 1.1. *)
Example halfway_means :
  toFixed 2 (parseFloat (Some (41 # 40)%Q)) = FDec 102
  /\ toFixed 1 (parseFloat (Some (23 # 20)%Q)) = FDec 11
  /\ toFixed 2 (parseFloat (Some (9 # 8)%Q)) = FDec 113.
Proof. repeat split. Qed.

Section TargetCheck.
Import Routes.

(** The rated user is looked up, active, before the duplicate check. *)
Lemma post_rating_target_not_found (p : ReqUser) (b : Body) (db : Db) :
  validation_isEmpty b = true ->
  req_user_id p <> body_rated_user_id b ->
  filter (fun x => (user_id x =? body_rated_user_id b) && active x)
         (users db) = [] ->
  post_rating p b db = (db, TargetNotFound).
Proof.
  intros Hv Hself Hu. rewrite post_rating_cases, Hv.
  apply Z.eqb_neq in Hself. rewrite Hself, Hu. reflexivity.
Qed.


(** A principal selected by [authenticateToken] is an active user. *)
Lemma authenticated_is_active (p : ReqUser) (db : Db) :
  authenticateToken (req_user_id p) db = inl p ->
  filter (fun x => (user_id x =? req_user_id p) && active x) (users db)
  <> [].
Proof.
  unfold authenticateToken.
  destruct (filter _ (users db)); [discriminate|discriminate].
Qed.

End TargetCheck.



(** ann has rated bob and bob has closed his account: ann's second
    rating of bob is answered by the target check. *)
Example closed_account_is_answered_first :
  In (Routes.mkRatingRow 1 1 2 5 None) (Routes.ratings Routes.db_rated_closed)
  /\ Routes.post_rating Routes.ann (Routes.stars 2 4) Routes.db_rated_closed
     = (Routes.db_rated_closed, Routes.TargetNotFound).
Proof. split; [vm_compute; auto|reflexivity]. Qed.

(** The raw-SQL route does check the target: for an authenticated
    principal and a user id within [INTEGER], a rated user who is not an
    active row is answered
    [User to be rated not found] and the store is unchanged. *)
Lemma post_rating_checks_target (p : Routes.ReqUser) (b : Routes.Body)
    (db : Routes.Db) :
  Routes.validation_isEmpty b = true ->
  int4 (Routes.body_rated_user_id b) = true ->
  Routes.authenticateToken (Routes.req_user_id p) db = inl p ->
  filter (fun x => (Routes.user_id x =? Routes.body_rated_user_id b)
                   && Routes.active x) (Routes.users db) = [] ->
  Routes.post_rating p b db = (db, Routes.TargetNotFound).
Proof.
  intros Hv _ Ha Hu. apply post_rating_target_not_found; auto.
  intros E. apply authenticated_is_active in Ha. rewrite E in Ha. auto.
Qed.

(** Claim C5 fails on the Sequelize [createRating], which has no check of
    the rated user: a valid request that rates a user id absent from the
    users table passes the self and duplicate guards and reaches the
    insert.  For an id within the range of the [INTEGER] column (and a
    skill id, if any, within it too) the insert draws an id, the foreign
    key refuses the row and the error is handed to [next(error)]: the id
    sequence has moved.  For an id beyond that range the statement fails
    on the value itself, the store unchanged.  Either way the reply is an
    error of the store, not a target-not-found rejection. *)
Theorem unknown_target_reaches_insert :
  forall db user body,
    Sequelize.wf db = true ->
    Sequelize.createRatingSchema_parse body = Some body ->
    Sequelize.req_ratedUserId body <> user ->
    Sequelize.user_exists db (Sequelize.req_ratedUserId body) = false ->
    (int4 (Sequelize.req_ratedUserId body) = true ->
     match Sequelize.req_skillId body with
     | None => True
     | Some s => int4 s = true
     end ->
     Sequelize.createRating user body db
     = (Sequelize.refused_state db, Sequelize.NextError ForeignKeyViolation))
    /\ (int4 (Sequelize.req_ratedUserId body) = false ->
        Sequelize.createRating user body db
        = (db, Sequelize.NextError NumericOverflow)).
Proof.
  intros db user body Hwf Hp Hself Hu.
  pose proof (parse_some _ _ Hp) as (_ & _ & [H1 H5] & _).
  apply Z.leb_le in H1, H5.
  assert (G : Sequelize.createRating user body db
              = match Sequelize.Rating_create body user db with
                | (db1, inr e) => (db1, Sequelize.NextError e)
                | (db1, inl row) => Sequelize.createRating user body db
                end).
  { rewrite createRating_cases, Hp.
    apply Z.eqb_neq in Hself. rewrite Hself.
    destruct (find (Sequelize.where_existing user body) (Sequelize.ratings db))
      as [r|] eqn:F.
    - exfalso. apply find_some in F as [Hr Hw].
      unfold Sequelize.where_existing in Hw.
      apply andb_prop in Hw as [Hw _]. apply andb_prop in Hw as [_ Hw].
      apply Z.eqb_eq in Hw.
      unfold Sequelize.wf in Hwf. apply andb_prop in Hwf as [_ Href].
      unfold Sequelize.references_hold in Href.
      rewrite forallb_forall in Href. specialize (Href r Hr).
      apply andb_prop in Href as [Href _]. apply andb_prop in Href as [_ Href].
      congruence.
    - unfold Sequelize.Rating_create. rewrite H1, H5. cbn [andb negb].
      destruct (Sequelize.beyond_integer db body); [reflexivity|].
      rewrite Hu, andb_false_r. reflexivity. }
  rewrite G. unfold Sequelize.Rating_create, Sequelize.beyond_integer.
  rewrite H1, H5, Hu. cbn [andb negb]. rewrite andb_false_r, andb_true_r.
  split.
  - intros Hi Hs. rewrite Hi. cbn [negb orb].
    destruct (Sequelize.req_skillId body) as [s|]; [rewrite Hs|]; reflexivity.
  - intros Hi. rewrite Hi. reflexivity.
Qed.

Lemma unknown_target_reaches_insert_witness :
  Sequelize.createRating 1 (Sequelize.stars 99 5) Sequelize.db_rated
  = (Sequelize.refused_state Sequelize.db_rated,
     Sequelize.NextError ForeignKeyViolation)
  /\ Sequelize.createRating 1 (Sequelize.stars 99999999999 5) Sequelize.db_rated
     = (Sequelize.db_rated, Sequelize.NextError NumericOverflow).
Proof.
  split.
  - apply (proj1 (unknown_target_reaches_insert Sequelize.db_rated 1
                    (Sequelize.stars 99 5) eq_refl eq_refl
                    ltac:(cbn; lia) eq_refl)); [reflexivity|exact I].
  - apply (proj2 (unknown_target_reaches_insert Sequelize.db_rated 1
                    (Sequelize.stars 99999999999 5) eq_refl eq_refl
                    ltac:(cbn; lia) eq_refl)).
    reflexivity.
Defined.

Section EmptyLedger.
Import Sequelize.




End EmptyLedger.



(** The reads of the raw-SQL back end answer 0 over no rating. *)
Example read_average_over_no_rating_is_zero :
  exists payload,
    snd (Routes.get_ratings 3 None None Routes.db_543)
    = Routes.RatingsJson payload
    /\ Routes.total_ratings payload = 0
    /\ Routes.average_rating payload = FDec 0.
Proof. eexists. split; [vm_compute; reflexivity|]. split; reflexivity. Qed.

(** The scenario of the specification on the raw-SQL back end: ratings of
    5, 4 and 3 stars give the average 4.0 over 3 ratings; once the
    3-star rating is deleted the read gives 4.5 over 2. *)
Example end_to_end_scenario :
  exists before after,
    snd (Routes.get_ratings 2 None None Routes.db_543)
    = Routes.RatingsJson before
    /\ Routes.average_rating before = FDec 40
    /\ Routes.total_ratings before = 3
    /\ Routes.rating_distribution before = Routes.mkDistribution 1 1 1 0 0
    /\ snd (Routes.get_ratings 2 None None
              (fst (Routes.delete_rating Routes.di 3 Routes.db_543)))
       = Routes.RatingsJson after
    /\ Routes.average_rating after = FDec 45
    /\ Routes.total_ratings after = 2.
Proof.
  eexists. eexists.
  split; [vm_compute; reflexivity|]. split; [reflexivity|].
  split; [reflexivity|]. split; [reflexivity|].
  split; [vm_compute; reflexivity|]. split; reflexivity.
Qed.

(** * Further properties of the code *)

(** ** The raw-SQL back end: what the tables always satisfy *)

Section LedgerInvariants.
Import Routes.

Lemma existsb_eqb_app_one (y x : Z) (l : list Z) :
  existsb (Z.eqb y) (l ++ [x]) = existsb (Z.eqb y) l || (y =? x).
Proof. rewrite existsb_app. cbn. now rewrite orb_false_r. Qed.

Lemma distinct_app_one (l : list Z) (x : Z) :
  Ledger.distinct l = true ->
  existsb (fun y => y =? x) l = false ->
  Ledger.distinct (l ++ [x]) = true.
Proof.
  induction l as [|y l IH]; intros Hd Hx; [reflexivity|].
  cbn [Ledger.distinct app] in *. cbn [existsb] in Hx.
  apply orb_false_iff in Hx as [Hy Hl].
  apply andb_prop in Hd as [Hyl Hd].
  rewrite existsb_eqb_app_one, Hy, orb_false_r, Hyl. cbn [andb]. auto.
Qed.

Lemma distinct_filter {A} (f : A -> Z) (p : A -> bool) (l : list A) :
  Ledger.distinct (map f l) = true ->
  Ledger.distinct (map f (filter p l)) = true.
Proof.
  induction l as [|x l IH]; intros Hd; [reflexivity|].
  cbn [map Ledger.distinct] in Hd. apply andb_prop in Hd as [Hx Hd].
  cbn [filter]. destruct (p x); [|auto].
  cbn [map Ledger.distinct]. rewrite IH by exact Hd. rewrite andb_true_r.
  apply negb_true_iff. apply negb_true_iff in Hx.
  destruct (existsb (Z.eqb (f x)) (map f (filter p l))) eqn:E; [|reflexivity].
  apply existsb_exists in E as (y & Hy & Hxy).
  apply in_map_iff in Hy as (a & <- & Ha). apply filter_In in Ha as [Ha _].
  assert (existsb (Z.eqb (f x)) (map f l) = true).
  { apply existsb_exists. exists (f a). split; [now apply in_map|exact Hxy]. }
  congruence.
Qed.

Lemma user_exists_ids (db db' : Db) (u : Z) :
  map user_id (users db') = map user_id (users db) ->
  user_exists db' u = user_exists db u.
Proof.
  unfold user_exists. intros E.
  assert (G : forall l, existsb (fun x => user_id x =? u) l
                        = existsb (fun i => i =? u) (map user_id l)).
  { induction l as [|x l IH]; cbn; [reflexivity|]. now rewrite IH. }
  now rewrite !G, E.
Qed.

Lemma wf_parts (db : Db) :
  Ledger.wf db = true <->
  Ledger.no_self_rating db = true /\ Ledger.stars_in_range db = true
  /\ Ledger.ids_below_seq db = true /\ Ledger.references_hold db = true
  /\ unique_pairs (ratings db) = true
  /\ Ledger.distinct (map user_id (users db)) = true
  /\ Ledger.distinct (map rating_id (ratings db)) = true.
Proof.
  unfold Ledger.wf. rewrite !andb_true_iff. tauto.
Qed.

(** A change of the users table that keeps its keys, the ratings
    untouched, keeps the invariant. *)
Lemma wf_users_changed (db : Db) (us : list user_row) :
  map user_id us = map user_id (users db) ->
  Ledger.wf db = true ->
  Ledger.wf (mkDb us (ratings db) (ratings_id_seq db)) = true.
Proof.
  intros E H. apply wf_parts in H as (H1 & H2 & H3 & H4 & H5 & H6 & H7).
  apply wf_parts. repeat split; try assumption.
  - unfold Ledger.references_hold in *. cbn [ratings].
    revert H4. apply forallb_impl. intros r Hr.
    rewrite !(user_exists_ids db (mkDb us (ratings db) (ratings_id_seq db)))
      by exact E.
    exact Hr.
  - cbn [users]. now rewrite E.
Qed.

Lemma wf_insert (rv rt st : Z) (c : option string) (db : Db) :
  rv <> rt ->
  Ledger.wf db = true ->
  Ledger.wf (fst (insert_rating rv rt st c db)) = true.
Proof.
  intros Hne H. pose proof (insert_rating_unique rv rt st c db) as U.
  apply wf_parts in H as (H1 & H2 & H3 & H4 & H5 & H6 & H7).
  specialize (U H5). revert U. unfold insert_rating.
  assert (Hseq : forallb (fun r => rating_id r <=? ratings_id_seq db + 1)
                         (ratings db) = true).
  { revert H3. apply forallb_impl. intros r Hr.
    apply Z.leb_le in Hr. apply Z.leb_le. lia. }
  destruct (negb ((1 <=? st) && (st <=? 5))) eqn:Hc;
    [intros _; apply wf_parts; repeat split; assumption|].
  destruct (existsb _ (ratings db));
    [intros _; apply wf_parts; repeat split; assumption|].
  destruct (negb (user_exists db rv && user_exists db rt)) eqn:Hf;
    [intros _; apply wf_parts; repeat split; assumption|].
  cbn [fst ratings]. intros U. apply negb_false_iff in Hc, Hf.
  apply wf_parts. repeat split; try assumption.
  - unfold Ledger.no_self_rating in *. cbn [ratings].
    rewrite forallb_app, H1. cbn. apply Z.eqb_neq in Hne. now rewrite Hne.
  - unfold Ledger.stars_in_range in *. cbn [ratings].
    rewrite forallb_app, H2. cbn. now rewrite Hc.
  - unfold Ledger.ids_below_seq. cbn [ratings ratings_id_seq].
    rewrite forallb_app, Hseq. cbn. now rewrite Z.leb_refl.
  - unfold Ledger.references_hold in *. cbn [ratings].
    rewrite forallb_app. apply andb_true_intro. split; [exact H4|].
    cbn. unfold user_exists in *. cbn [users]. now rewrite Hf.
  - cbn [ratings]. rewrite map_app. cbn [map rating_id].
    apply distinct_app_one; [exact H7|].
    destruct (existsb _ (map rating_id (ratings db))) eqn:E; [|reflexivity].
    apply existsb_exists in E as (i & Hi & Hx).
    apply in_map_iff in Hi as (r & <- & Hr).
    unfold Ledger.ids_below_seq in H3. rewrite forallb_forall in H3.
    specialize (H3 r Hr). apply Z.leb_le in H3. apply Z.eqb_eq in Hx. lia.
Qed.

Lemma wf_delete (id : Z) (db : Db) :
  Ledger.wf db = true ->
  Ledger.wf (mkDb (users db)
               (filter (fun r => negb (rating_id r =? id)) (ratings db))
               (ratings_id_seq db)) = true.
Proof.
  intros H. apply wf_parts in H as (H1 & H2 & H3 & H4 & H5 & H6 & H7).
  apply wf_parts.
  repeat split; try assumption;
    try (now apply forallb_filter);
    [now apply unique_pairs_filter|now apply distinct_filter].
Qed.

Lemma deactivate_keeps_ids (i : Z) (db : Db) :
  map user_id (users (fst (deactivate_user i db))) = map user_id (users db).
Proof.
  rewrite deactivate_user_store. cbn [users].
  rewrite map_map. apply map_ext. intros x.
  destruct ((user_id x =? i) && active x); reflexivity.
Qed.

Lemma toggle_keeps_ids (i : Z) (db : Db) :
  map user_id (users (fst (Admin.toggle_user i db))) = map user_id (users db).
Proof.
  unfold Admin.toggle_user.
  destruct (filter _ (users db)); [destruct (int4 i); reflexivity|].
  cbn [fst users]. rewrite map_map. apply map_ext. intros x.
  destruct (user_id x =? i); reflexivity.
Qed.

Lemma toggle_keeps_ratings (i : Z) (db : Db) :
  fst (Admin.toggle_user i db)
  = mkDb (users (fst (Admin.toggle_user i db))) (ratings db)
         (ratings_id_seq db).
Proof.
  unfold Admin.toggle_user.
  destruct (filter _ (users db)); [destruct (int4 i)|]; cbn [fst users];
    try reflexivity; now destruct db.
Qed.

Lemma handle_preserves_wf (r : Admin.Request) (db : Db) :
  Ledger.wf db = true -> Ledger.wf (fst (Admin.handle r db)) = true.
Proof.
  intros H. destruct r as [p b|p id|p id|p id]; cbn [Admin.handle].
  - rewrite post_rating_cases.
    destruct (negb (validation_isEmpty b)); [exact H|].
    destruct (req_user_id p =? body_rated_user_id b) eqn:Hs; [exact H|].
    destruct (filter _ (users db)); [exact H|].
    destruct (filter _ (ratings db)); [|exact H].
    apply Z.eqb_neq in Hs.
    pose proof (wf_insert (req_user_id p) (body_rated_user_id b)
                  (body_rating b) (option_map trim (body_comment b)) db Hs H)
      as W.
    destruct (insert_rating _ _ _ _ db) as [db1 [row|e]]; exact W.
  - rewrite delete_rating_cases.
    destruct (filter _ (ratings db)) as [|r l]; [exact H|].
    destruct (not_owner_nor_admin p (reviewer_id r)); [exact H|].
    now apply wf_delete.
  - unfold delete_user. destruct (requireOwnerOrAdmin p id); [exact H|].
    unfold run. cbn [run_with tl].
    pose proof (deactivate_keeps_ids id db) as K.
    pose proof (deactivate_user_store id db) as T.
    destruct (deactivate_user id db) as [db1 [rows|e]] eqn:E;
      cbn [fst] in K, T.
    + assert (Hdb1 : db1 = mkDb (users db1) (ratings db) (ratings_id_seq db))
        by (rewrite T; reflexivity).
      destruct rows; cbn [run_with try_catch fst];
        rewrite Hdb1; now apply wf_users_changed.
    + assert (Hdb1 : db1 = mkDb (users db1) (ratings db) (ratings_id_seq db))
        by (rewrite T; reflexivity).
      cbn [try_catch fst]. rewrite Hdb1. now apply wf_users_changed.
  - unfold Admin.toggle_status. destruct (requireAdmin p); [exact H|].
    unfold run. cbn [run_with tl].
    pose proof (toggle_keeps_ids id db) as K.
    pose proof (toggle_keeps_ratings id db) as T.
    destruct (Admin.toggle_user id db) as [db1 [rows|e]]; cbn [fst] in K, T.
    + destruct rows; cbn [run_with try_catch fst];
        rewrite T; now apply wf_users_changed.
    + cbn [try_catch fst]. rewrite T. now apply wf_users_changed.
Qed.

End LedgerInvariants.

(** The constraints of the raw-SQL tables hold after every sequence of
    rating, unrating, account-closing and status-toggling requests: no
    rating of oneself, stars between 1 and 5, one rating per pair, every
    rating pointing at existing users, ids never reused. *)
Theorem ledger_invariants_kept :
  forall requests db,
    Ledger.wf db = true ->
    Ledger.wf (Admin.handle_all requests db) = true.
Proof.
  induction requests as [|r rest IH]; intros db H; cbn; [exact H|].
  apply IH. now apply handle_preserves_wf.
Qed.

Lemma ledger_invariants_kept_witness :
  Ledger.wf
    (Admin.handle_all
       [Admin.Rate Routes.ann (Routes.stars 2 5);
        Admin.Rate Routes.ann (Routes.stars 1 5);
        Admin.CloseAccount Routes.bob 2;
        Admin.Unrate Routes.cy 1;
        Admin.ToggleStatus Routes.cy 2] Routes.db_start) = true.
Proof.
  apply ledger_invariants_kept. reflexivity.
Defined.

Section RatingLifeCycle.
Import Routes.

Lemma authenticated_exists (p : ReqUser) (db : Db) :
  authenticateToken (req_user_id p) db = inl p ->
  user_exists db (req_user_id p) = true.
Proof.
  intros H. apply authenticated_is_active in H.
  destruct (filter _ (users db)) as [|x l] eqn:F; [congruence|].
  assert (Hx : In x (filter (fun x => (user_id x =? req_user_id p) && active x)
                            (users db))) by (rewrite F; now left).
  apply filter_In in Hx as [Hin Hc]. apply andb_prop in Hc as [Hc _].
  unfold user_exists. apply existsb_exists. eauto.
Qed.

Lemma filter_drop_new_id (l : list rating_row) (row : rating_row) :
  forallb (fun r => rating_id r <=? rating_id row - 1) l = true ->
  filter (fun r => negb (rating_id r =? rating_id row)) (l ++ [row]) = l.
Proof.
  intros H. rewrite filter_app. cbn. rewrite Z.eqb_refl. cbn.
  rewrite app_nil_r. induction l as [|x l IH]; [reflexivity|].
  cbn [forallb] in H. apply andb_prop in H as [Hx Hl].
  cbn [filter]. apply Z.leb_le in Hx.
  assert (E : (rating_id x =? rating_id row) = false)
    by (apply Z.eqb_neq; lia).
  rewrite E. cbn. now rewrite IH.
Qed.

End RatingLifeCycle.

(** [POST /api/ratings] by an authenticated principal, with a valid body,
    for another user who is active and whom the principal has not rated
    yet: the reply is 201 with the new row, whose id is the next of the
    sequence and whose comment is the trimmed one; the row is appended to
    the ledger and nothing else changes. *)
Theorem post_rating_inserts :
  forall p b db,
    Routes.authenticateToken (Routes.req_user_id p) db = inl p ->
    Routes.validation_isEmpty b = true ->
    Routes.req_user_id p <> Routes.body_rated_user_id b ->
    existsb (fun x => (Routes.user_id x =? Routes.body_rated_user_id b)
                      && Routes.active x) (Routes.users db) = true ->
    existsb (fun r => (Routes.reviewer_id r =? Routes.req_user_id p)
                      && (Routes.rated_user_id r =? Routes.body_rated_user_id b))
            (Routes.ratings db) = false ->
    let row := Routes.mkRatingRow (Routes.ratings_id_seq db + 1)
                 (Routes.req_user_id p) (Routes.body_rated_user_id b)
                 (Routes.body_rating b)
                 (option_map trim (Routes.body_comment b)) in
    Routes.post_rating p b db
    = (Routes.mkDb (Routes.users db) (Routes.ratings db ++ [row])
         (Routes.ratings_id_seq db + 1),
       Routes.RatingAdded "Rating added successfully" row
         (Routes.req_user_name p) (Routes.req_user_id p)).
Proof.
  intros p b db Ha Hv Hself Ht Hn row.
  rewrite post_rating_cases, Hv. cbn [negb].
  apply Z.eqb_neq in Hself. rewrite Hself.
  destruct (existsb_filter_cons _ _ Ht) as (x & xs & ->).
  rewrite (existsb_filter_nil _ _ Hn).
  unfold Routes.insert_rating. fold row.
  unfold Routes.validation_isEmpty in Hv.
  apply andb_prop in Hv as [Hv _]. apply andb_prop in Hv as [Hv H5].
  apply andb_prop in Hv as [_ H1]. rewrite H1, H5. cbn [andb negb].
  rewrite Hn.
  assert (Hu : Routes.user_exists db (Routes.req_user_id p) = true)
    by now apply authenticated_exists.
  assert (Hr : Routes.user_exists db (Routes.body_rated_user_id b) = true).
  { unfold Routes.user_exists. apply existsb_exists.
    apply existsb_exists in Ht as (y & Hy & Hc).
    apply andb_prop in Hc as [Hc _]. eauto. }
  rewrite Hu, Hr. reflexivity.
Qed.

Lemma post_rating_inserts_witness :
  Routes.post_rating Routes.cy (Routes.mkBody 2 4 (Some "  fine  "%string))
    Routes.db_rated
  = (Routes.mkDb (Routes.users Routes.db_rated)
       (Routes.ratings Routes.db_rated
        ++ [Routes.mkRatingRow (Routes.ratings_id_seq Routes.db_rated + 1)
              3 2 4 (Some "fine"%string)])
       (Routes.ratings_id_seq Routes.db_rated + 1),
     Routes.RatingAdded "Rating added successfully"
       (Routes.mkRatingRow (Routes.ratings_id_seq Routes.db_rated + 1)
          3 2 4 (Some "fine"%string))
       "cy"%string 3).
Proof.
  apply (post_rating_inserts Routes.cy (Routes.mkBody 2 4 (Some "  fine  "%string))
           Routes.db_rated); try reflexivity.
  cbn. lia.
Defined.

(** A rating added by [POST /api/ratings] and then deleted by its
    reviewer through [DELETE /api/ratings/:id] leaves the ledger and the
    users table exactly as they were before the two requests; only the id
    is spent. *)
Theorem post_then_delete_restores_ledger :
  forall p b db db1 message row reviewer_name reviewer,
    Ledger.ids_below_seq db = true ->
    Routes.post_rating p b db
    = (db1, Routes.RatingAdded message row reviewer_name reviewer) ->
    Routes.delete_rating p (Routes.rating_id row) db1
    = (Routes.mkDb (Routes.users db) (Routes.ratings db)
         (Routes.ratings_id_seq db + 1),
       Routes.MessageJson "Rating deleted successfully").
Proof.
  intros p b db db1 message row reviewer_name reviewer Hids H.
  rewrite post_rating_cases in H.
  destruct (negb _); [discriminate|].
  destruct (_ =? _); [discriminate|].
  destruct (filter _ (Routes.users db)) as [|u us]; [discriminate|].
  destruct (filter _ (Routes.ratings db)) as [|r rs]; [|discriminate].
  unfold Routes.insert_rating in H.
  destruct (negb _); [discriminate|].
  destruct (existsb _ (Routes.ratings db)); [discriminate|].
  destruct (negb _); [discriminate|].
  injection H as <- _ <- _ _.
  rewrite delete_rating_cases. cbn [Routes.ratings Routes.rating_id].
  assert (Hold : filter (fun r => Routes.rating_id r
                                  =? Routes.ratings_id_seq db + 1)
                        (Routes.ratings db) = []).
  { apply filter_nil_iff. intros r Hr.
    unfold Ledger.ids_below_seq in Hids. rewrite forallb_forall in Hids.
    specialize (Hids r Hr). apply Z.leb_le in Hids. apply Z.eqb_neq. lia. }
  rewrite filter_app, Hold. cbn [filter Routes.rating_id app].
  rewrite Z.eqb_refl.
  assert (Howner : Routes.not_owner_nor_admin p (Routes.req_user_id p) = false).
  { apply not_owner_nor_admin_false. now right. }
  cbn [Routes.reviewer_id]. rewrite Howner.
  cbn [Routes.users Routes.ratings_id_seq]. f_equal. f_equal.
  set (row := Routes.mkRatingRow _ _ _ _ _).
  change (Routes.ratings_id_seq db + 1) with (Routes.rating_id row).
  apply filter_drop_new_id. cbn [Routes.rating_id row].
  replace (Routes.ratings_id_seq db + 1 - 1) with (Routes.ratings_id_seq db)
    by lia.
  exact Hids.
Qed.

Lemma post_then_delete_restores_ledger_witness :
  Routes.delete_rating Routes.cy
    (Routes.rating_id (Routes.mkRatingRow 2 3 2 4 None))
    (fst (Routes.post_rating Routes.cy (Routes.stars 2 4) Routes.db_rated))
  = (Routes.mkDb (Routes.users Routes.db_rated)
       (Routes.ratings Routes.db_rated)
       (Routes.ratings_id_seq Routes.db_rated + 1),
     Routes.MessageJson "Rating deleted successfully").
Proof.
  apply (post_then_delete_restores_ledger Routes.cy (Routes.stars 2 4)
           Routes.db_rated _ "Rating added successfully"%string _ "cy"%string 3);
    reflexivity.
Defined.

Section ReadStatistics.
Import Routes.

Lemma count_stars_cons (s : Z) (r : rating_row) (rows : list rating_row) :
  count_stars s (r :: rows)
  = (if rating r =? s then 1 else 0) + count_stars s rows.
Proof.
  unfold count_stars, COUNT. cbn [filter].
  destruct (rating r =? s); cbn [List.length]; lia.
Qed.

Lemma distribution_counts_all (rows : list rating_row) :
  forallb (fun r => (1 <=? rating r) && (rating r <=? 5)) rows = true ->
  count_stars 5 rows + count_stars 4 rows + count_stars 3 rows
  + count_stars 2 rows + count_stars 1 rows = COUNT rows.
Proof.
  induction rows as [|r rows IH]; intros H; [reflexivity|].
  cbn [forallb] in H. apply andb_prop in H as [Hr Hrows].
  apply andb_prop in Hr as [H1 H5]. apply Z.leb_le in H1, H5.
  specialize (IH Hrows). rewrite !count_stars_cons.
  unfold COUNT in *. cbn [List.length]. rewrite Nat2Z.inj_succ.
  destruct (rating r =? 5) eqn:E5, (rating r =? 4) eqn:E4,
           (rating r =? 3) eqn:E3, (rating r =? 2) eqn:E2,
           (rating r =? 1) eqn:E1;
    rewrite ?Z.eqb_eq, ?Z.eqb_neq in *; lia.
Qed.

Lemma pos_of_length {A} (x : A) (l : list A) :
  Zpos (Pos.of_nat (List.length (x :: l))) = Z.of_nat (List.length (x :: l)).
Proof.
  rewrite <- positive_nat_Z, Nat2Pos.id; [reflexivity|discriminate].
Qed.

(** The one decimal served by the reads, for stars between 1 and 5. *)
Lemma read_mean_tenths (x : Z) (l : list Z) :
  forallb (fun y => (1 <=? y) && (y <=? 5)) (x :: l) = true ->
  let m := (SUM (x :: l) # Pos.of_nat (List.length (x :: l)))%Q in
  toFixed 1 (parseFloat (or_zero (Some m))) = FDec (round_double 1 m)
  /\ 10 <= round_double 1 m <= 50
  /\ (Qabs ((round_double 1 m # 10) - m) <= 1 # 20)%Q.
Proof.
  intros H m. pose proof (SUM_bounds _ H) as S. unfold COUNT in S.
  pose proof (round_double_bracket 1 m) as B. cbv zeta in B.
  change (10 ^ 1) with 10 in B.
  change (Qnum m) with (SUM (x :: l)) in B.
  change (Zpos (Qden m)) with (Zpos (Pos.of_nat (List.length (x :: l)))) in B.
  rewrite pos_of_length in B.
  assert (Hc : 0 < Z.of_nat (List.length (x :: l)))
    by (cbn [List.length]; lia).
  set (n := round_double 1 m) in *.
  set (c := Z.of_nat (List.length (x :: l))) in *.
  split; [|split].
  - unfold or_zero, parseFloat, toFixed. change (Qnum m) with (SUM (x :: l)).
    assert (E : (SUM (x :: l) <? 0) = false) by (apply Z.ltb_ge; lia).
    now rewrite E.
  - nia.
  - apply Qabs_Qle_condition. unfold m.
    unfold Qle, Qminus, Qplus, Qopp. cbn [Qnum Qden].
    rewrite pos_of_length. fold c.
    split; lia.
Qed.

End ReadStatistics.

(** In every reply of [GET /api/ratings/:userId] the five counts of the
    star distribution add up to [total_ratings]: with the stars of the
    ledger between 1 and 5, each rating falls in exactly one of them. *)
Theorem distribution_adds_up_to_total :
  forall db userId query_page query_limit payload,
    Ledger.stars_in_range db = true ->
    snd (Routes.get_ratings userId query_page query_limit db)
    = Routes.RatingsJson payload ->
    Ledger.distribution_sum (Routes.rating_distribution payload)
    = Routes.total_ratings payload.
Proof.
  intros db userId query_page query_limit payload Hs.
  pose proof (get_ratings_cases userId query_page query_limit db) as G.
  cbv zeta in G. rewrite G.
  destruct (filter _ (Routes.users db)); [discriminate|].
  destruct (Routes.page_refused _ _ _ _); [discriminate|].
  intros [= <-].
  cbn [Routes.rating_distribution Routes.total_ratings].
  unfold Ledger.distribution_sum.
  cbn [Routes.five_star Routes.four_star Routes.three_star Routes.two_star
       Routes.one_star].
  apply distribution_counts_all. unfold Routes.received.
  apply forallb_filter. exact Hs.
Qed.

Lemma distribution_adds_up_to_total_witness :
  Ledger.distribution_sum
    (Routes.rating_distribution
       (Routes.mkRatingsPayload "bob" [] 3 (FDec 40)
          (Routes.mkDistribution 1 1 1 0 0)
          (Routes.mkPagination 1 0 3 JInf)))
  = Routes.total_ratings
      (Routes.mkRatingsPayload "bob" [] 3 (FDec 40)
         (Routes.mkDistribution 1 1 1 0 0)
         (Routes.mkPagination 1 0 3 JInf)).
Proof.
  apply (distribution_adds_up_to_total Routes.db_543 2 (Some 1) (Some 0));
    reflexivity.
Defined.

(** The average served by [GET /api/ratings/:userId], with the stars of
    the ledger between 1 and 5: it is 0.0 for a user nobody rated, and
    otherwise a one-decimal value between 1.0 and 5.0 within 0.05 of the
    mean of the stars received. *)
Theorem read_average_in_range :
  forall db userId query_page query_limit payload,
    Ledger.stars_in_range db = true ->
    snd (Routes.get_ratings userId query_page query_limit db)
    = Routes.RatingsJson payload ->
    match AVG (map Routes.rating (Routes.received db userId)) with
    | None =>
        Routes.total_ratings payload = 0
        /\ Routes.average_rating payload = FDec 0
    | Some mean =>
        exists tenths,
          Routes.average_rating payload = FDec tenths
          /\ 10 <= tenths <= 50
          /\ (Qabs ((tenths # 10) - mean) <= 1 # 20)%Q
    end.
Proof.
  intros db userId query_page query_limit payload Hs.
  pose proof (get_ratings_cases userId query_page query_limit db) as G.
  cbv zeta in G. rewrite G.
  destruct (filter _ (Routes.users db)); [discriminate|].
  destruct (Routes.page_refused _ _ _ _); [discriminate|].
  intros [= <-]. cbn [Routes.average_rating Routes.total_ratings].
  assert (Hr : forallb (fun y => (1 <=? y) && (y <=? 5))
                       (map Routes.rating (Routes.received db userId)) = true).
  { rewrite forallb_map. unfold Routes.received. now apply forallb_filter. }
  destruct (Routes.received db userId) as [|r rows]; cbn [map] in *.
  - split; reflexivity.
  - cbn [AVG]. destruct (read_mean_tenths _ _ Hr) as (E & B & C).
    eexists. split; [exact E|]. split; assumption.
Qed.

Lemma read_average_in_range_witness :
  match AVG (map Routes.rating (Routes.received Routes.db_543 2)) with
  | None =>
      Routes.total_ratings
        (Routes.mkRatingsPayload "bob" [] 3 (FDec 40)
           (Routes.mkDistribution 1 1 1 0 0)
           (Routes.mkPagination 1 0 3 JInf)) = 0
      /\ Routes.average_rating
           (Routes.mkRatingsPayload "bob" [] 3 (FDec 40)
              (Routes.mkDistribution 1 1 1 0 0)
              (Routes.mkPagination 1 0 3 JInf)) = FDec 0
  | Some mean =>
      exists tenths,
        Routes.average_rating
          (Routes.mkRatingsPayload "bob" [] 3 (FDec 40)
             (Routes.mkDistribution 1 1 1 0 0)
             (Routes.mkPagination 1 0 3 JInf)) = FDec tenths
        /\ 10 <= tenths <= 50
        /\ (Qabs ((tenths # 10) - mean) <= 1 # 20)%Q
  end.
Proof.
  apply (read_average_in_range Routes.db_543 2 (Some 1) (Some 0));
    reflexivity.
Defined.

Section Paging.
Import Routes.

Lemma firstn_plus {A} (a b : nat) (xs : list A) :
  firstn (a + b) xs = firstn a xs ++ firstn b (skipn a xs).
Proof.
  revert xs. induction a as [|a IH]; intros xs; [reflexivity|].
  destruct xs as [|x xs]; cbn.
  - now rewrite firstn_nil.
  - now rewrite IH.
Qed.

(** Consecutive slices of [l] rows, from the first, make up a prefix. *)
Lemma slices_make_prefix {A} (l n : nat) (xs : list A) :
  List.concat (map (fun k => firstn l (skipn (k * l) xs)) (seq 0 n))
  = firstn (n * l) xs.
Proof.
  induction n as [|n IH]; [reflexivity|].
  rewrite seq_S, map_app, concat_app, IH. cbn [map List.concat Nat.add].
  rewrite app_nil_r.
  replace (S n * l)%nat with (n * l + l)%nat by lia.
  now rewrite firstn_plus.
Qed.

Lemma page_rows_of_page (db : Db) (u : Z) (k : nat) (limit : Z)
    (x : user_row) (rest : list user_row) :
  filter (fun y => (user_id y =? u) && active y) (users db) = x :: rest ->
  0 <= limit -> int8 limit = true ->
  Ledger.page_rows
    (snd (get_ratings u (Some (Z.of_nat (S k))) (Some limit) db))
  = firstn (Z.to_nat limit)
      (skipn (k * Z.to_nat limit) (newest_first db u)).
Proof.
  intros Hu Hl Hi.
  pose proof (get_ratings_cases u (Some (Z.of_nat (S k))) (Some limit) db) as G.
  cbv zeta in G. rewrite G, Hu.
  set (o := (Z.of_nat (S k) - 1) * limit).
  assert (Ho : 0 <= o) by (unfold o; nia).
  assert (Eo : Z.to_nat o = (k * Z.to_nat limit)%nat).
  { unfold o. rewrite Nat2Z.inj_succ.
    replace (Z.succ (Z.of_nat k) - 1) with (Z.of_nat k) by lia.
    rewrite Z2Nat.inj_mul by lia. now rewrite Nat2Z.id. }
  destruct (page_refused db u limit o) eqn:E.
  - cbn [snd Ledger.page_rows]. symmetry.
    unfold page_refused, beyond_bigint in E. rewrite Hi in E.
    assert (Nl : (limit <? 0) = false) by (apply Z.ltb_ge; lia).
    assert (No : (o <? 0) = false) by (apply Z.ltb_ge; lia).
    rewrite Nl, No, !orb_false_r in E. cbn [negb orb] in E.
    apply andb_prop in E as [_ E]. apply Z.leb_le in E. unfold COUNT in E.
    rewrite <- Eo, skipn_all2 by lia. apply firstn_nil.
  - cbn [snd Ledger.page_rows page_ratings]. now rewrite Eo.
Qed.

Lemma read_pages_prefix (db : Db) (u : Z) (n : nat) (limit : Z)
    (x : user_row) (rest : list user_row) :
  filter (fun y => (user_id y =? u) && active y) (users db) = x :: rest ->
  0 <= limit -> int8 limit = true ->
  Ledger.read_pages u limit n db
  = firstn (n * Z.to_nat limit) (newest_first db u).
Proof.
  intros Hu Hl Hi. unfold Ledger.read_pages.
  rewrite <- seq_shift, map_map.
  rewrite <- slices_make_prefix. f_equal.
  apply map_ext. intros k. now apply (page_rows_of_page db u k limit x rest).
Qed.

Lemma one_row_per_key (us : list user_row) (i : Z) :
  Ledger.distinct (map user_id us) = true ->
  existsb (fun y => user_id y =? i) us = true ->
  List.length (filter (fun y => user_id y =? i) us) = 1%nat.
Proof.
  induction us as [|y us IH]; intros Hd He; [discriminate|].
  cbn [map Ledger.distinct] in Hd. apply andb_prop in Hd as [Hy Hd].
  cbn [existsb] in He. cbn [filter].
  destruct (user_id y =? i) eqn:E.
  - apply Z.eqb_eq in E. subst i. cbn [List.length]. f_equal.
    apply length_zero_iff_nil, filter_nil_iff. intros z Hz.
    destruct (user_id z =? user_id y) eqn:F; [|reflexivity].
    apply negb_true_iff in Hy.
    assert (existsb (Z.eqb (user_id y)) (map user_id us) = true).
    { apply existsb_exists. exists (user_id z).
      split; [now apply in_map|]. now rewrite Z.eqb_sym. }
    congruence.
  - cbn [orb] in He. auto.
Qed.

(** With the foreign key on the reviewer and the key of the users table,
    the join of the page query keeps every rating once. *)
Lemma newest_first_length (db : Db) (u : Z) :
  Ledger.references_hold db = true ->
  Ledger.distinct (map user_id (users db)) = true ->
  Z.of_nat (List.length (newest_first db u)) = COUNT (received db u).
Proof.
  intros Hr Hd. unfold newest_first, COUNT.
  rewrite <- (length_rev (received db u)).
  assert (H : forall r, In r (rev (received db u)) ->
                        user_exists db (reviewer_id r) = true).
  { intros r Hin. apply in_rev in Hin. unfold received in Hin.
    apply filter_In in Hin as [Hin _].
    unfold Ledger.references_hold in Hr. rewrite forallb_forall in Hr.
    specialize (Hr r Hin). now apply andb_prop in Hr as [Hr _]. }
  induction (rev (received db u)) as [|r rows IH]; [reflexivity|].
  cbn [flat_map]. rewrite length_app, length_map.
  rewrite (one_row_per_key (users db) (reviewer_id r) Hd).
  - cbn [List.length]. rewrite !Nat2Z.inj_succ. f_equal.
    apply IH. intros r' Hr'. apply H. now right.
  - apply (H r). now left.
Qed.

End Paging.

(** Reading [GET /api/ratings/:userId] page by page covers the ratings
    exactly: for an active user and a limit of at least 1, the pages 1 to
    [totalPages], as the first reply reports it, read one after the other
    on an unchanged store, hold every rating the user received once,
    newest first, and [total] is their number. *)
Theorem pages_cover_every_rating :
  forall db userId limit payload pages,
    Ledger.wf db = true ->
    1 <= limit ->
    snd (Routes.get_ratings userId (Some 1) (Some limit) db)
    = Routes.RatingsJson payload ->
    Routes.totalPages (Routes.pagination payload) = JNum (inject_Z pages) ->
    Ledger.read_pages userId limit (Z.to_nat pages) db
    = Routes.newest_first db userId
    /\ Z.of_nat (List.length (Routes.newest_first db userId))
       = Routes.total (Routes.pagination payload).
Proof.
  intros db userId limit payload pages Hwf Hl.
  apply wf_parts in Hwf as (_ & _ & _ & Href & _ & Hd & _).
  pose proof (get_ratings_cases userId (Some 1) (Some limit) db) as G.
  cbv zeta in G. rewrite G.
  destruct (filter _ (Routes.users db)) as [|x rest] eqn:Hu; [discriminate|].
  destruct (Routes.page_refused _ _ _ _) eqn:Hp; [discriminate|].
  assert (Hi : int8 limit = true).
  { unfold Routes.page_refused, Routes.beyond_bigint in Hp.
    destruct (int8 limit); [reflexivity|discriminate]. }
  intros [= <-]. cbn [Routes.pagination Routes.totalPages Routes.total].
  pose proof (newest_first_length db userId Href Hd) as L.
  destruct (ceil_div_pages (COUNT (Routes.received db userId)) limit Hl)
    as (t & Et & Ht).
  rewrite Et. intros [= <-]. split; [|exact L].
  rewrite (read_pages_prefix db userId (Z.to_nat t) limit x rest Hu)
    by (lia || exact Hi).
  apply firstn_all2.
  assert (0 <= t) by (unfold COUNT in *; nia).
  apply Nat2Z.inj_le. rewrite L, Nat2Z.inj_mul, !Z2Nat.id by lia. lia.
Qed.

Lemma pages_cover_every_rating_witness :
  Ledger.read_pages 2 2 (Z.to_nat 2) Routes.db_543
  = Routes.newest_first Routes.db_543 2
  /\ Z.of_nat (List.length (Routes.newest_first Routes.db_543 2))
     = Routes.total
         (Routes.pagination
            (Routes.mkRatingsPayload "bob"
               (firstn 2 (Routes.newest_first Routes.db_543 2)) 3 (FDec 40)
               (Routes.mkDistribution 1 1 1 0 0)
               (Routes.mkPagination 1 2 3 (JNum (inject_Z 2))))).
Proof.
  apply (pages_cover_every_rating Routes.db_543 2 2); try reflexivity. lia.
Defined.

Section Accounts.
Import Routes.

Lemma deactivated_none_active (i : Z) (us : list user_row) :
  filter (fun y => (user_id y =? i) && active y)
         (map (fun y => if (user_id y =? i) && active y
                        then with_active false y
                        else y) us) = [].
Proof.
  apply filter_nil_iff. intros y Hy. apply in_map_iff in Hy as (z & <- & _).
  destruct ((user_id z =? i) && active z) eqn:E.
  - cbn. now rewrite andb_false_r.
  - exact E.
Qed.

Lemma deactivate_nothing (id : Z) (db : Db) :
  filter (fun y => (user_id y =? id) && active y) (users db) = [] ->
  fst (deactivate_user id db) = db.
Proof.
  intros H. rewrite deactivate_user_store. destruct db as [us rs n].
  cbn [users ratings ratings_id_seq] in *. f_equal.
  rewrite <- (map_id us) at 2. apply map_ext_in. intros y Hy.
  rewrite (proj1 (filter_nil_iff _ _) H y Hy). reflexivity.
Qed.

(** An id carried by a row is a user id. *)
Lemma carried_is_user_id (id : Z) (db : Db) (x : user_row) :
  In x (users db) -> user_id x = id -> not_a_user_id db id = false.
Proof.
  intros Hx Hi. unfold not_a_user_id.
  assert (E : user_exists db id = true).
  { apply existsb_exists. exists x. split; [exact Hx|]. now apply Z.eqb_eq. }
  rewrite E. apply andb_false_r.
Qed.

(** Once [deactivate_user] has run, no active row carries the id. *)
Lemma deactivated_gone (id : Z) (db : Db) :
  filter (fun y => (user_id y =? id) && active y)
         (users (fst (deactivate_user id db))) = [].
Proof.
  rewrite deactivate_user_store. cbn [users]. apply deactivated_none_active.
Qed.


(** The principal [authenticateToken] selects carries the id the token
    names. *)
Lemma authenticated_id (who : Z) (p : ReqUser) (db : Db) :
  authenticateToken who db = inl p -> req_user_id p = who.
Proof.
  unfold authenticateToken.
  destruct (filter _ (users db)) as [|u l] eqn:E; [discriminate|].
  intros [= <-]. cbn [req_user_id].
  assert (H : In u (filter (fun u => (user_id u =? who) && active u)
                           (users db))) by (rewrite E; now left).
  apply filter_In in H as [_ H]. apply andb_prop in H as [H _].
  now apply Z.eqb_eq.
Qed.

(** An update of the rows of one user leaves the authentication of every
    other user as it was. *)
Lemma authenticated_elsewhere (who i : Z) (touched : user_row -> bool)
      (f : user_row -> user_row) (us : list user_row) :
  who <> i ->
  (forall y, touched y = true -> user_id y = i) ->
  (forall y, user_id (f y) = user_id y) ->
  filter (fun y => (user_id y =? who) && active y)
         (map (fun y => if touched y then f y else y) us)
  = filter (fun y => (user_id y =? who) && active y) us.
Proof.
  intros Hw Ht Hf. induction us as [|y us IH]; [reflexivity|].
  cbn [map filter]. rewrite IH.
  destruct (touched y) eqn:E; [|reflexivity].
  rewrite Hf. apply Ht in E.
  assert (N : (user_id y =? who) = false) by (apply Z.eqb_neq; congruence).
  now rewrite N.
Qed.

Lemma authenticateToken_after_deactivate (who id : Z) (db : Db) :
  who <> id ->
  authenticateToken who (fst (deactivate_user id db))
  = authenticateToken who db.
Proof.
  intros Hw. unfold authenticateToken.
  rewrite deactivate_user_store. cbn [users].
  rewrite (authenticated_elsewhere who id); auto.
  intros y Hy. apply andb_prop in Hy as [Hy _]. now apply Z.eqb_eq.
Qed.

End Accounts.

(** [DELETE /api/users/:id], sent by the user or by an administrator,
    closes an active account without removing anything: the row stays,
    inactive, the keys of the users table and the whole ratings table are
    as before.  A second such request changes nothing: from an
    administrator closing somebody else's account it finds no active
    account and is answered [User not found]; from the user who has just
    closed the own account it does not pass [authenticateToken] any more
    and is answered [Invalid token - user not found]. *)
Theorem closing_account_is_soft_and_final :
  forall db who p id x rest,
    Routes.authenticateToken who db = inl p ->
    Routes.req_user_role p = "admin"%string \/ who = id ->
    filter (fun y => (Routes.user_id y =? id) && Routes.active y)
           (Routes.users db) = x :: rest ->
    let db' := fst (Routes.delete_user_route who id db) in
    snd (Routes.delete_user_route who id db)
    = Routes.UserJson "User deleted successfully" (Routes.with_active false x)
    /\ map Routes.user_id (Routes.users db') = map Routes.user_id (Routes.users db)
    /\ Routes.ratings db' = Routes.ratings db
    /\ (forall y, In y (Routes.users db') -> Routes.user_id y = id ->
                  Routes.active y = false)
    /\ Routes.delete_user_route who id db'
       = (db',
          if who =? id
          then Routes.ErrorJson 401 "Invalid token - user not found"
          else Routes.ErrorJson 404 "User not found").
Proof.
  intros db who p id x rest Ha Hp Hx db'. subst db'.
  pose proof (authenticated_id who p db Ha) as Hid.
  assert (Hp' : Routes.req_user_role p = "admin"%string
                \/ Routes.req_user_id p = id) by (rewrite Hid; exact Hp).
  assert (Ix : In x (Routes.users db) /\ Routes.user_id x = id).
  { assert (I : In x (filter (fun y => (Routes.user_id y =? id)
                                       && Routes.active y) (Routes.users db)))
      by (rewrite Hx; now left).
    apply filter_In in I as [I C]. apply andb_prop in C as [C _].
    split; [exact I|]. now apply Z.eqb_eq. }
  destruct Ix as [Ix Hxid].
  pose proof (carried_is_user_id id db x Ix Hxid) as Hk.
  assert (R : Routes.delete_user_route who id db
              = (fst (Routes.deactivate_user id db),
                 Routes.UserJson "User deleted successfully"
                   (Routes.with_active false x))).
  { unfold Routes.delete_user_route, Routes.behind_token.
    now rewrite Ha, (delete_user_allowed p id db Hp'), Hk, Hx. }
  rewrite R. cbn [fst snd].
  pose proof (deactivated_gone id db) as G.
  split; [reflexivity|]. split; [apply deactivate_keeps_ids|].
  split; [now rewrite deactivate_user_store|]. split.
  - intros y Hy Hy'. rewrite deactivate_user_store in Hy.
    cbn [Routes.users] in Hy.
    apply in_map_iff in Hy as (z & <- & _).
    destruct ((Routes.user_id z =? id) && Routes.active z) eqn:E;
      [reflexivity|].
    apply andb_false_iff in E as [E|E]; [|exact E].
    apply Z.eqb_neq in E. contradiction.
  - assert (Hk' : Routes.not_a_user_id (fst (Routes.deactivate_user id db)) id
                  = false).
    { apply (carried_is_user_id id _ (Routes.with_active false x)).
      - rewrite deactivate_user_store. cbn [Routes.users].
        apply in_map_iff. exists x. split; [|exact Ix].
        assert (I : In x (filter (fun y => (Routes.user_id y =? id)
                                           && Routes.active y)
                                 (Routes.users db)))
          by (rewrite Hx; now left).
        apply filter_In in I as [_ C]. now rewrite C.
      - exact Hxid. }
    unfold Routes.delete_user_route, Routes.behind_token.
    destruct (who =? id) eqn:W.
    + apply Z.eqb_eq in W. rewrite W.
      unfold Routes.authenticateToken. now rewrite G.
    + apply Z.eqb_neq in W.
      rewrite (authenticateToken_after_deactivate who id db W), Ha.
      rewrite (delete_user_allowed p id _ Hp'), Hk'.
      rewrite (deactivate_nothing id _ G). now rewrite G.
Qed.

Lemma closing_account_is_soft_and_final_witness :
  (snd (Routes.delete_user_route 2 2 Routes.db_rated)
   = Routes.UserJson "User deleted successfully"
       (Routes.mkUserRow 2 "bob" "user" false)
   /\ map Routes.user_id
        (Routes.users (fst (Routes.delete_user_route 2 2 Routes.db_rated)))
      = map Routes.user_id (Routes.users Routes.db_rated)
   /\ Routes.ratings (fst (Routes.delete_user_route 2 2 Routes.db_rated))
      = Routes.ratings Routes.db_rated
   /\ (forall y,
          In y (Routes.users
                  (fst (Routes.delete_user_route 2 2 Routes.db_rated))) ->
          Routes.user_id y = 2 -> Routes.active y = false)
   /\ Routes.delete_user_route 2 2
        (fst (Routes.delete_user_route 2 2 Routes.db_rated))
      = (fst (Routes.delete_user_route 2 2 Routes.db_rated),
         Routes.ErrorJson 401 "Invalid token - user not found"))
  /\ Routes.delete_user_route 3 2
       (fst (Routes.delete_user_route 3 2 Routes.db_rated))
     = (fst (Routes.delete_user_route 3 2 Routes.db_rated),
        Routes.ErrorJson 404 "User not found").
Proof.
  split.
  - apply (closing_account_is_soft_and_final Routes.db_rated 2 Routes.bob 2
             (Routes.mkUserRow 2 "bob" "user" true) []);
      [reflexivity|right; reflexivity|reflexivity].
  - apply (closing_account_is_soft_and_final Routes.db_rated 3 Routes.cy 2
             (Routes.mkUserRow 2 "bob" "user" true) []);
      [reflexivity|left; reflexivity|reflexivity].
Defined.



Section Toggle.
Import Routes.

Lemma toggle_twice_users (i : Z) (us : list user_row) :
  map (fun y => if user_id y =? i
                then with_active (negb (active y)) y
                else y)
      (map (fun y => if user_id y =? i
                     then with_active (negb (active y)) y
                     else y) us) = us.
Proof.
  rewrite map_map. rewrite <- (map_id us) at 2. apply map_ext. intros y.
  destruct (user_id y =? i) eqn:E; [|now rewrite E].
  cbn [user_id with_active]. rewrite E. cbn. rewrite negb_involutive.
  now destruct y.
Qed.

(** What [toggle_user] does when the id is carried by a row. *)
Lemma toggle_user_found (id : Z) (db : Db) (x : user_row)
      (rest : list user_row) :
  filter (fun y => user_id y =? id) (users db) = x :: rest ->
  Admin.toggle_user id db
  = (mkDb (map (fun y => if user_id y =? id
                         then with_active (negb (active y)) y else y)
               (users db))
          (ratings db) (ratings_id_seq db),
     inl (map (fun y => with_active (negb (active y)) y) (x :: rest))).
Proof.
  intros H. unfold Admin.toggle_user. now rewrite H.
Qed.

Lemma toggle_status_admin (p : ReqUser) (id : Z) (db : Db) :
  req_user_role p = "admin"%string ->
  Admin.toggle_status p id db =
  (fst (Admin.toggle_user id db),
   match filter (fun y => user_id y =? id) (users db) with
   | [] => if int4 id then ErrorJson 404 "User not found"
           else ErrorJson 500 "Failed to toggle user status"
   | x :: _ =>
       UserJson ("User " ++ (if negb (active x) then "activated"
                             else "deactivated") ++ " successfully")%string
         (with_active (negb (active x)) x)
   end).
Proof.
  intros Hr. unfold Admin.toggle_status, requireAdmin.
  apply String.eqb_eq in Hr. rewrite Hr. cbn [negb].
  unfold run. cbn [run_with tl].
  destruct (filter (fun y => user_id y =? id) (users db)) as [|x rest] eqn:E.
  - unfold Admin.toggle_user. rewrite E. now destruct (int4 id).
  - rewrite (toggle_user_found id db x rest E). reflexivity.
Qed.

Lemma toggled_rows_found (id : Z) (us : list user_row) :
  filter (fun y => user_id y =? id)
         (map (fun y => if user_id y =? id
                        then with_active (negb (active y)) y else y) us)
  = map (fun y => with_active (negb (active y)) y)
        (filter (fun y => user_id y =? id) us).
Proof.
  induction us as [|y us IH]; [reflexivity|]. cbn [map filter].
  destruct (user_id y =? id) eqn:E.
  - cbn [with_active user_id]. rewrite E. cbn [map]. now rewrite IH.
  - rewrite E. exact IH.
Qed.

(** Toggling the same id twice gives back the store. *)
Lemma toggle_user_twice (id : Z) (db : Db) :
  fst (Admin.toggle_user id (fst (Admin.toggle_user id db))) = db.
Proof.
  destruct (filter (fun y => user_id y =? id) (users db)) as [|x rest] eqn:E.
  - assert (N : fst (Admin.toggle_user id db) = db).
    { unfold Admin.toggle_user. rewrite E. now destruct (int4 id). }
    now rewrite !N.
  - rewrite (toggle_user_found id db x rest E). cbn [fst].
    unfold Admin.toggle_user. cbn [users ratings ratings_id_seq].
    rewrite toggled_rows_found, E. cbn [map fst].
    rewrite toggle_twice_users. now destruct db.
Qed.

Lemma authenticateToken_after_toggle (who id : Z) (db : Db) :
  who <> id ->
  authenticateToken who (fst (Admin.toggle_user id db))
  = authenticateToken who db.
Proof.
  intros Hw. unfold authenticateToken, Admin.toggle_user.
  destruct (filter (fun y => user_id y =? id) (users db)) as [|x rest];
    [now destruct (int4 id)|].
  cbn [fst users].
  rewrite (authenticated_elsewhere who id
             (fun y => user_id y =? id)
             (fun y => with_active (negb (active y)) y)); auto.
  intros y Hy. now apply Z.eqb_eq.
Qed.

(** With one row per key, an authenticated user whose own row is flipped
    does not authenticate any more. *)
Lemma own_toggle_locks_out (who : Z) (p : ReqUser) (db : Db) :
  Ledger.distinct (map user_id (users db)) = true ->
  authenticateToken who db = inl p ->
  authenticateToken who (fst (Admin.toggle_user who db))
  = inr (ErrorJson 401 "Invalid token - user not found").
Proof.
  intros Hd Ha. unfold authenticateToken in Ha.
  destruct (filter (fun u => (user_id u =? who) && active u) (users db))
    as [|u l] eqn:E; [discriminate|]. clear Ha.
  assert (Hu : In u (filter (fun u => (user_id u =? who) && active u)
                            (users db))) by (rewrite E; now left).
  apply filter_In in Hu as [Hu Hu']. apply andb_prop in Hu' as [Hw Hact].
  assert (Hex : existsb (fun y => user_id y =? who) (users db) = true).
  { apply existsb_exists. exists u. auto. }
  pose proof (one_row_per_key (users db) who Hd Hex) as Hlen.
  destruct (filter (fun y => user_id y =? who) (users db)) as [|x rest] eqn:F;
    [discriminate|].
  destruct rest; [|discriminate].
  assert (Hall : forall y, In y (users db) -> (user_id y =? who) = true ->
                           active y = true).
  { intros y Hy Hy'.
    assert (Iy : In y [x]) by (rewrite <- F; apply filter_In; auto).
    assert (Iu : In u [x]) by (rewrite <- F; apply filter_In; auto).
    destruct Iy as [<-|[]]. destruct Iu as [<-|[]]. exact Hact. }
  rewrite (toggle_user_found who db x [] F). cbn [fst].
  unfold authenticateToken. cbn [users].
  replace (filter _ (map _ (users db))) with (@nil user_row); [reflexivity|].
  symmetry. apply filter_nil_iff. intros y Hy.
  apply in_map_iff in Hy as (z & <- & Hz).
  destruct (user_id z =? who) eqn:G.
  - cbn [with_active user_id active]. rewrite G, (Hall z Hz G). reflexivity.
  - now rewrite G.
Qed.

End Toggle.

(** [PUT /api/admin/users/:id/toggle-status] sits behind
    [authenticateToken] and [requireAdmin]: an authenticated user who is
    no administrator gets [Admin access required] and the store
    unchanged.  For an administrator it flips [active] of the user and
    says which way ([activated] or [deactivated]), the ratings being left
    alone; an id no user carries is answered [User not found] within the
    range of the [INTEGER] key and [Failed to toggle user status] beyond
    it, the store unchanged either way.  Two such requests for the same
    user, the second from an administrator other than that user, give
    back the store as it was; an administrator who toggles the own
    account is refused by [authenticateToken] the second time, and the
    account stays closed. *)
Theorem toggle_status_flips_and_undoes :
  (forall db who p id,
      Routes.authenticateToken who db = inl p ->
      Routes.req_user_role p <> "admin"%string ->
      Admin.toggle_status_route who id db
      = (db, Routes.ErrorJson 403 "Admin access required"))
  /\ (forall db who p id,
         Routes.authenticateToken who db = inl p ->
         Routes.req_user_role p = "admin"%string ->
         (forall y, In y (Routes.users db) -> Routes.user_id y <> id) ->
         Admin.toggle_status_route who id db
         = (db, if int4 id
                then Routes.ErrorJson 404 "User not found"
                else Routes.ErrorJson 500 "Failed to toggle user status"))
  /\ (forall db who p id x rest,
         Routes.authenticateToken who db = inl p ->
         Routes.req_user_role p = "admin"%string ->
         filter (fun y => Routes.user_id y =? id) (Routes.users db)
         = x :: rest ->
         snd (Admin.toggle_status_route who id db)
         = Routes.UserJson
             (if Routes.active x then "User deactivated successfully"
              else "User activated successfully")
             (Routes.with_active (negb (Routes.active x)) x)
         /\ Routes.ratings (fst (Admin.toggle_status_route who id db))
            = Routes.ratings db)
  /\ (forall db who p who' q id,
         Routes.authenticateToken who db = inl p ->
         Routes.req_user_role p = "admin"%string ->
         Routes.authenticateToken who' db = inl q ->
         Routes.req_user_role q = "admin"%string ->
         who' <> id ->
         fst (Admin.toggle_status_route who' id
                (fst (Admin.toggle_status_route who id db)))
         = db)
  /\ (forall db who p,
         Ledger.distinct (map Routes.user_id (Routes.users db)) = true ->
         Routes.authenticateToken who db = inl p ->
         Routes.req_user_role p = "admin"%string ->
         let db' := fst (Admin.toggle_status_route who who db) in
         Routes.authenticateToken who db'
         = inr (Routes.ErrorJson 401 "Invalid token - user not found")
         /\ Admin.toggle_status_route who who db'
            = (db', Routes.ErrorJson 401 "Invalid token - user not found")).
Proof.
  split; [|split; [|split; [|split]]].
  - intros db who p id Ha Hr.
    unfold Admin.toggle_status_route, Routes.behind_token. rewrite Ha.
    unfold Admin.toggle_status, Routes.requireAdmin.
    apply String.eqb_neq in Hr. now rewrite Hr.
  - intros db who p id Ha Hr Hn.
    unfold Admin.toggle_status_route, Routes.behind_token. rewrite Ha.
    rewrite (toggle_status_admin p id db Hr).
    assert (E : filter (fun y => Routes.user_id y =? id) (Routes.users db)
                = []).
    { apply filter_nil_iff. intros y Hy. apply Z.eqb_neq. auto. }
    rewrite E. f_equal. unfold Admin.toggle_user. rewrite E.
    now destruct (int4 id).
  - intros db who p id x rest Ha Hr Hx.
    unfold Admin.toggle_status_route, Routes.behind_token. rewrite Ha.
    rewrite (toggle_status_admin p id db Hr), Hx.
    cbn [fst snd]. split; [|now rewrite toggle_keeps_ratings].
    destruct (Routes.active x); reflexivity.
  - intros db who p who' q id Hp Hpr Hq Hqr Hw.
    unfold Admin.toggle_status_route at 2. unfold Routes.behind_token.
    rewrite Hp, (toggle_status_admin p id db Hpr). cbn [fst].
    unfold Admin.toggle_status_route, Routes.behind_token.
    rewrite (authenticateToken_after_toggle who' id db Hw), Hq.
    rewrite (toggle_status_admin q id _ Hqr). cbn [fst].
    apply toggle_user_twice.
  - intros db who p Hd Ha Hr db'.
    assert (E : db' = fst (Admin.toggle_user who db)).
    { subst db'. unfold Admin.toggle_status_route, Routes.behind_token.
      now rewrite Ha, (toggle_status_admin p who db Hr). }
    rewrite E. pose proof (own_toggle_locks_out who p db Hd Ha) as L.
    split; [exact L|].
    unfold Admin.toggle_status_route, Routes.behind_token. now rewrite L.
Qed.

Lemma toggle_status_flips_and_undoes_witness :
  Admin.toggle_status_route 1 2 Routes.db_rated
  = (Routes.db_rated, Routes.ErrorJson 403 "Admin access required")
  /\ Admin.toggle_status_route 3 9 Routes.db_rated
     = (Routes.db_rated, Routes.ErrorJson 404 "User not found")
  /\ Admin.toggle_status_route 3 99999999999 Routes.db_rated
     = (Routes.db_rated, Routes.ErrorJson 500 "Failed to toggle user status")
  /\ snd (Admin.toggle_status_route 3 2 Routes.db_rated)
     = Routes.UserJson "User deactivated successfully"
         (Routes.mkUserRow 2 "bob" "user" false)
  /\ fst (Admin.toggle_status_route 3 2
            (fst (Admin.toggle_status_route 3 2 Routes.db_rated)))
     = Routes.db_rated
  /\ Admin.toggle_status_route 3 3
       (fst (Admin.toggle_status_route 3 3 Routes.db_rated))
     = (fst (Admin.toggle_status_route 3 3 Routes.db_rated),
        Routes.ErrorJson 401 "Invalid token - user not found").
Proof.
  destruct toggle_status_flips_and_undoes
    as (Hdeny & Hunknown & Hflip & Hback & Hown).
  assert (Hnone : forall id, 4 < id ->
            forall y, In y (Routes.users Routes.db_rated) ->
                      Routes.user_id y <> id).
  { intros id Hid y Hy. vm_compute in Hy.
    destruct Hy as [<-|[<-|[<-|[<-|[]]]]]; cbn; lia. }
  split; [|split; [|split; [|split; [|split]]]].
  - apply (Hdeny Routes.db_rated 1 Routes.ann 2); [reflexivity|discriminate].
  - apply (Hunknown Routes.db_rated 3 Routes.cy 9);
      [reflexivity|reflexivity|apply Hnone; lia].
  - apply (Hunknown Routes.db_rated 3 Routes.cy 99999999999);
      [reflexivity|reflexivity|apply Hnone; lia].
  - apply (proj1 (Hflip Routes.db_rated 3 Routes.cy 2
                    (Routes.mkUserRow 2 "bob" "user" true) []
                    eq_refl eq_refl eq_refl)).
  - apply (Hback Routes.db_rated 3 Routes.cy 3 Routes.cy 2);
      [reflexivity|reflexivity|reflexivity|reflexivity|lia].
  - apply (proj2 (Hown Routes.db_rated 3 Routes.cy eq_refl eq_refl eq_refl)).
Defined.

(** ** The Sequelize back end: what a request leaves untouched, and the reads *)

Section SequelizeMore.
Import Sequelize.

Lemma set_summary_id (u : Z) (s : decimal * Z) (x : User) :
  user_id (set_summary u s x) = user_id x.
Proof. unfold set_summary. destruct (user_id x =? u); reflexivity. Qed.

Lemma set_summary_twice (u : Z) (s : decimal * Z) (x : User) :
  set_summary u s (set_summary u s x) = set_summary u s x.
Proof.
  unfold set_summary. destruct (user_id x =? u) eqn:E.
  - cbn [user_id]. now rewrite E.
  - now rewrite E.
Qed.

(** Whatever it stores or throws, the helper only rewrites summary
    columns of the rows of its user. *)
Lemma updateUserAverageRating_writes (u : Z) (db : Db) :
  exists s out,
    run (updateUserAverageRating u) db = (fst (run (updateUserAverageRating u) db), out)
    /\ ratings (fst (run (updateUserAverageRating u) db)) = ratings db
    /\ skills (fst (run (updateUserAverageRating u) db)) = skills db
    /\ ratings_id_seq (fst (run (updateUserAverageRating u) db))
       = ratings_id_seq db
    /\ (users (fst (run (updateUserAverageRating u) db)) = users db
        \/ users (fst (run (updateUserAverageRating u) db))
           = map (set_summary u s) (users db)).
Proof.
  unfold run, updateUserAverageRating.
  cbn [run_with Rating_findAll_aggregate tl]. unfold User_update.
  destruct (to_decimal _) as [d|e].
  - exists (d, COUNT (stars_of db u)). eexists. cbn. auto 10.
  - exists (DNaN, 0). eexists. cbn. auto 10.
Qed.

End SequelizeMore.

(** [createRating] never rewrites or removes a rating, a skill or a user:
    whatever it answers, the ledger afterwards is the ledger before with
    at most one row appended, the skills and the keys of the users are as
    before, the id sequence has not gone back, and the only user rows
    that can differ are the summary columns of the rated user. *)
Theorem createRating_only_appends :
  forall user body db,
    let db' := fst (Sequelize.createRating user body db) in
    (exists added,
        Sequelize.ratings db' = Sequelize.ratings db ++ added
        /\ (List.length added <= 1)%nat)
    /\ Sequelize.skills db' = Sequelize.skills db
    /\ Sequelize.ratings_id_seq db <= Sequelize.ratings_id_seq db'
    /\ map Sequelize.user_id (Sequelize.users db')
       = map Sequelize.user_id (Sequelize.users db)
    /\ (forall x, In x (Sequelize.users db) ->
                  Sequelize.user_id x <> Sequelize.req_ratedUserId body ->
                  In x (Sequelize.users db')).
Proof.
  intros user body db db'. subst db'.
  assert (Same : (exists added,
                     Sequelize.ratings db = Sequelize.ratings db ++ added
                     /\ (List.length added <= 1)%nat)
                 /\ Sequelize.skills db = Sequelize.skills db
                 /\ Sequelize.ratings_id_seq db <= Sequelize.ratings_id_seq db
                 /\ map Sequelize.user_id (Sequelize.users db)
                    = map Sequelize.user_id (Sequelize.users db)
                 /\ (forall x, In x (Sequelize.users db) ->
                               Sequelize.user_id x
                               <> Sequelize.req_ratedUserId body ->
                               In x (Sequelize.users db))).
  { split; [exists []; rewrite app_nil_r; auto|]. repeat split; auto. lia. }
  rewrite createRating_cases.
  destruct (Sequelize.createRatingSchema_parse body) as [v|] eqn:Hp;
    [|exact Same].
  apply parse_some in Hp as (-> & _).
  destruct (_ =? _); [exact Same|].
  destruct (find _ (Sequelize.ratings db)); [exact Same|].
  unfold Sequelize.Rating_create.
  destruct (negb _); [exact Same|].
  destruct (Sequelize.beyond_integer db body); [exact Same|].
  destruct (_ && _).
  - set (row := Sequelize.mkRating _ _ _ _ _ _).
    set (db1 := Sequelize.mkDb _ _ _ _).
    destruct (updateUserAverageRating_writes
                (Sequelize.req_ratedUserId body) db1)
      as (s & out & E & Hr & Hs & Hq & Hu).
    rewrite E. set (db2 := fst _) in *.
    assert (G : (exists added,
                    Sequelize.ratings db2 = Sequelize.ratings db ++ added
                    /\ (List.length added <= 1)%nat)
                /\ Sequelize.skills db2 = Sequelize.skills db
                /\ Sequelize.ratings_id_seq db
                   <= Sequelize.ratings_id_seq db2
                /\ map Sequelize.user_id (Sequelize.users db2)
                   = map Sequelize.user_id (Sequelize.users db)
                /\ (forall x, In x (Sequelize.users db) ->
                              Sequelize.user_id x
                              <> Sequelize.req_ratedUserId body ->
                              In x (Sequelize.users db2))).
    { split; [exists [row]; rewrite Hr; auto|].
      split; [rewrite Hs; reflexivity|].
      split; [rewrite Hq; cbn; lia|].
      destruct Hu as [Hu|Hu]; rewrite Hu; cbn [db1 Sequelize.users].
      - auto.
      - split.
        + rewrite map_map. apply map_ext. intros x. apply set_summary_id.
        + intros x Hx Hne. apply in_map_iff. exists x. split; [|exact Hx].
          unfold Sequelize.set_summary. apply Z.eqb_neq in Hne.
          now rewrite Hne. }
    destruct out as [[]|e]; exact G.
  - cbn [fst Sequelize.ratings Sequelize.skills Sequelize.users
         Sequelize.ratings_id_seq].
    split; [exists []; rewrite app_nil_r; auto|]. repeat split; auto. lia.
Qed.

(** The rating a [createRating] request has just been answered 201 for
    is what [getUserRatings] of the rated user lists first, and the
    total it reports has grown by one. *)
Theorem created_rating_is_listed_first :
  forall user body db,
    Sequelize.wf db = true ->
    Sequelize.createRatingSchema_parse body = Some body ->
    Sequelize.req_ratedUserId body <> user ->
    find (Sequelize.where_existing user body) (Sequelize.ratings db) = None ->
    Sequelize.user_exists db user = true ->
    Sequelize.user_exists db (Sequelize.req_ratedUserId body) = true ->
    match Sequelize.req_skillId body with
    | None => True
    | Some s => Sequelize.skill_exists db s = true
    end ->
    let db' := fst (Sequelize.createRating user body db) in
    Sequelize.getUserRatings (Sequelize.req_ratedUserId body) db'
    = (db',
       Sequelize.RatingsJson
         (Sequelize.new_row user body db
          :: rev (Sequelize.ratings_of db (Sequelize.req_ratedUserId body)))
         (COUNT (Sequelize.ratings_of db (Sequelize.req_ratedUserId body)) + 1)).
Proof.
  intros user body db Hwf Hp Hself Hdup Hu Ht Hs db'. subst db'.
  rewrite (createRating_accepted user body db); auto; [|congruence].
  cbn [fst]. unfold Sequelize.getUserRatings, run.
  cbn [run_with tl try_catch].
  unfold Sequelize.ratings_of.
  cbn [Sequelize.accepted_state Sequelize.ratings].
  rewrite filter_app. cbn [filter Sequelize.new_row Sequelize.ratedUserId].
  rewrite Z.eqb_refl, rev_app_distr. cbn [rev app].
  f_equal. f_equal. unfold COUNT. cbn [List.length].
  rewrite length_rev. lia.
Qed.

Lemma created_rating_is_listed_first_witness :
  Sequelize.getUserRatings (Sequelize.req_ratedUserId (Sequelize.stars 2 4))
    (fst (Sequelize.createRating 3 (Sequelize.stars 2 4) Sequelize.db_rated))
  = (fst (Sequelize.createRating 3 (Sequelize.stars 2 4) Sequelize.db_rated),
     Sequelize.RatingsJson
       (Sequelize.new_row 3 (Sequelize.stars 2 4) Sequelize.db_rated
        :: rev (Sequelize.ratings_of Sequelize.db_rated
                  (Sequelize.req_ratedUserId (Sequelize.stars 2 4))))
       (COUNT (Sequelize.ratings_of Sequelize.db_rated
                 (Sequelize.req_ratedUserId (Sequelize.stars 2 4))) + 1)).
Proof.
  apply (created_rating_is_listed_first 3 (Sequelize.stars 2 4)
           Sequelize.db_rated); try reflexivity; try exact I. cbn. lia.
Defined.

(** [updateUserAverageRating] is safe to repeat: with the stars of the
    ledger between 1 and 5 it never throws, it leaves the ledger alone,
    and running it again on its own result changes nothing. *)
Theorem recompute_is_idempotent :
  forall db userId,
    Sequelize.stars_in_range db = true ->
    exists db1,
      run (Sequelize.updateUserAverageRating userId) db = (db1, inl tt)
      /\ run (Sequelize.updateUserAverageRating userId) db1 = (db1, inl tt)
      /\ Sequelize.ratings db1 = Sequelize.ratings db.
Proof.
  intros db userId Hs.
  destruct (Sequelize.stars_of db userId) as [|x l] eqn:E.
  - rewrite (updateUserAverageRating_unrated userId db E).
    eexists. split; [reflexivity|]. split; [|reflexivity].
    rewrite updateUserAverageRating_unrated by exact E.
    cbn [Sequelize.users Sequelize.skills Sequelize.ratings
         Sequelize.ratings_id_seq].
    rewrite map_map. f_equal. f_equal. apply map_ext. intros y.
    apply set_summary_twice.
  - assert (Hne : Sequelize.stars_of db userId <> []) by congruence.
    pose proof (stars_of_in_range db userId Hs) as Hr.
    rewrite (updateUserAverageRating_rated userId db Hne Hr).
    eexists. split; [reflexivity|]. split; [|reflexivity].
    rewrite updateUserAverageRating_rated.
    + cbn [Sequelize.users Sequelize.skills Sequelize.ratings
           Sequelize.ratings_id_seq].
      rewrite map_map. f_equal. f_equal. apply map_ext. intros y.
      rewrite (summary_of_ratings _ db) by reflexivity.
      apply set_summary_twice.
    + exact Hne.
    + exact Hr.
Qed.

Lemma recompute_is_idempotent_witness :
  exists db1,
    run (Sequelize.updateUserAverageRating 2) Sequelize.db_544 = (db1, inl tt)
    /\ run (Sequelize.updateUserAverageRating 2) db1 = (db1, inl tt)
    /\ Sequelize.ratings db1 = Sequelize.ratings Sequelize.db_544.
Proof.
  apply (recompute_is_idempotent Sequelize.db_544 2). reflexivity.
Defined.

(** After a [createRating] answered 201 the summary stored for the rated
    user fits its [DECIMAL(3,2)] column: every row of that user holds an
    average between 1.00 and 5.00 and a total one above the number of
    ratings the user had. *)
Theorem stored_average_between_one_and_five :
  forall user body db db' r x,
    Sequelize.wf db = true ->
    Sequelize.createRating user body db
    = (db', Sequelize.CreatedJson "Rating created successfully" r) ->
    In x (Sequelize.users db') ->
    Sequelize.user_id x = Sequelize.req_ratedUserId body ->
    exists hundredths,
      Sequelize.averageRating x = Sequelize.DVal hundredths
      /\ 100 <= hundredths <= 500
      /\ Sequelize.totalRatings x
         = COUNT (Sequelize.ratings_of db (Sequelize.req_ratedUserId body)) + 1.
Proof.
  intros user body db db' r x Hwf H Hx Hid.
  destruct (createRating_outcomes user body db Hwf)
    as [[_ N]|[E|(E & Hp & _)]].
  - exfalso. apply (N r). now rewrite H.
  - rewrite E in H. discriminate.
  - rewrite E in H. injection H as <- _.
    cbn [Sequelize.accepted_state Sequelize.users] in Hx.
    apply in_map_iff in Hx as (y & <- & Hy).
    rewrite set_summary_id in Hid.
    unfold Sequelize.set_summary. apply Z.eqb_eq in Hid. rewrite Hid.
    cbn [Sequelize.averageRating Sequelize.totalRatings].
    unfold Sequelize.summary_of. rewrite stars_of_inserted_rated.
    unfold Sequelize.wf in Hwf. apply andb_prop in Hwf as [Hwf _].
    apply andb_prop in Hwf as [_ Hstars].
    pose proof (stars_of_in_range db (Sequelize.req_ratedUserId body) Hstars)
      as Hr.
    apply parse_some in Hp as (_ & _ & [H1 H5] & _).
    assert (Hall : forallb (fun y => (1 <=? y) && (y <=? 5))
                     (Sequelize.stars_of db (Sequelize.req_ratedUserId body)
                      ++ [Sequelize.req_rating body]) = true).
    { rewrite forallb_app, Hr. cbn. apply Z.leb_le in H1, H5.
      now rewrite H1, H5. }
    assert (Hlen : COUNT (Sequelize.stars_of db (Sequelize.req_ratedUserId body)
                          ++ [Sequelize.req_rating body])
                   = COUNT (Sequelize.ratings_of db
                              (Sequelize.req_ratedUserId body)) + 1).
    { unfold COUNT, Sequelize.stars_of.
      rewrite length_app, length_map. cbn [List.length]. lia. }
    destruct (Sequelize.stars_of db (Sequelize.req_ratedUserId body)
              ++ [Sequelize.req_rating body]) as [|s l] eqn:El.
    + apply app_eq_nil in El as [_ El]. discriminate.
    + cbn [fst snd]. eexists. split; [reflexivity|].
      split; [now apply round_mean_bounds|exact Hlen].
Qed.

Lemma stored_average_between_one_and_five_witness :
  exists hundredths,
    Sequelize.averageRating (Sequelize.mkUser 2 (Sequelize.DVal 450) 2)
    = Sequelize.DVal hundredths
    /\ 100 <= hundredths <= 500
    /\ Sequelize.totalRatings (Sequelize.mkUser 2 (Sequelize.DVal 450) 2)
       = COUNT (Sequelize.ratings_of Sequelize.db_rated
                  (Sequelize.req_ratedUserId (Sequelize.stars 2 4))) + 1.
Proof.
  apply (stored_average_between_one_and_five 3 (Sequelize.stars 2 4)
           Sequelize.db_rated
           (fst (Sequelize.createRating 3 (Sequelize.stars 2 4)
                   Sequelize.db_rated))
           (Some (Sequelize.mkRating 2 3 2 None 4 None)));
    try reflexivity.
  vm_compute. auto.
Defined.

(** On a store grown from newly registered users by [createRating]
    requests, the [totalRatings] stored for a user is the total that
    [getUserRatings] reports for that user. *)
Theorem stored_total_matches_listing :
  forall ids sk requests x,
    let db := Sequelize.createRatings requests
                (Sequelize.mkDb (map Sequelize.fresh ids) sk [] 0) in
    In x (Sequelize.users db) ->
    exists listed,
      Sequelize.getUserRatings (Sequelize.user_id x) db
      = (db, Sequelize.RatingsJson listed (Sequelize.totalRatings x))
      /\ Z.of_nat (List.length listed) = Sequelize.totalRatings x.
Proof.
  intros ids sk requests x db Hx.
  destruct (fresh_store_ok ids sk 0) as [Hwf Hs].
  destruct (createRatings_preserve requests _ Hwf Hs) as [_ Hs'].
  destruct (summaries_ok_rounded _ x Hs' Hx) as [Ht _]. fold db in Ht.
  eexists. split.
  - unfold Sequelize.getUserRatings, run. cbn [run_with tl try_catch].
    rewrite Ht. unfold COUNT. now rewrite length_rev.
  - rewrite Ht. unfold COUNT. now rewrite length_rev.
Qed.

Lemma stored_total_matches_listing_witness :
  exists listed,
    Sequelize.getUserRatings
      (Sequelize.user_id (Sequelize.mkUser 2 (Sequelize.DVal 433) 3))
      (Sequelize.createRatings
         [(1, Sequelize.stars 2 5); (3, Sequelize.stars 2 4);
          (4, Sequelize.stars 2 4)]
         (Sequelize.mkDb (map Sequelize.fresh [1; 2; 3; 4]) [7] [] 0))
    = (Sequelize.createRatings
         [(1, Sequelize.stars 2 5); (3, Sequelize.stars 2 4);
          (4, Sequelize.stars 2 4)]
         (Sequelize.mkDb (map Sequelize.fresh [1; 2; 3; 4]) [7] [] 0),
       Sequelize.RatingsJson listed
         (Sequelize.totalRatings (Sequelize.mkUser 2 (Sequelize.DVal 433) 3)))
    /\ Z.of_nat (List.length listed)
       = Sequelize.totalRatings (Sequelize.mkUser 2 (Sequelize.DVal 433) 3).
Proof.
  apply (stored_total_matches_listing [1; 2; 3; 4] [7]
           [(1, Sequelize.stars 2 5); (3, Sequelize.stars 2 4);
            (4, Sequelize.stars 2 4)]).
  vm_compute. auto.
Defined.

(** ** The raw-SQL back end: skills and profiles *)

Section SkillRoutes.
Import Routes.
Variable isURL : string -> bool.

Lemma chars_le_js_length (s : string) : (chars s <= js_length s)%nat.
Proof.
  induction s as [|a s IH]; cbn [chars js_length]; [lia|].
  destruct (is_continuation a); [lia|].
  destruct (Nat.leb 240 (Ascii.nat_of_ascii a)); lia.
Qed.

Lemma chars_le_length (s : string) : (chars s <= String.length s)%nat.
Proof.
  induction s as [|a s IH]; cbn [chars String.length]; [lia|].
  destruct (is_continuation a); lia.
Qed.

Lemma varchar_holds (n : nat) (s : string) :
  (chars s <= n)%nat -> Catalog.varchar n s = Some s.
Proof.
  intros H. unfold Catalog.varchar. apply Nat.leb_le in H. now rewrite H.
Qed.

Lemma varchar_fits (n : nat) (s : string) :
  (String.length s <= n)%nat -> Catalog.varchar n s = Some s.
Proof.
  intros H. apply varchar_holds. pose proof (chars_le_length s). lia.
Qed.

Lemma between_fits (lo hi : nat) (s : string) :
  Catalog.between lo hi s = true -> Catalog.varchar hi s = Some s.
Proof.
  unfold Catalog.between. intros H. apply andb_prop in H as [_ H].
  apply Nat.leb_le in H. now apply varchar_holds.
Qed.

(** A valid body whose image URL, if any, fits its column passes the
    length checks of the store as it is. *)
Lemma valid_body_fits (b : Catalog.SkillBody) :
  Catalog.skill_validation_isEmpty isURL b = true ->
  match Catalog.body_image_url b with
  | None => True
  | Some u => (String.length u <= 500)%nat
  end ->
  Catalog.varchar 100 (trim (Catalog.body_title b))
  = Some (trim (Catalog.body_title b))
  /\ Catalog.varchar 50 (trim (Catalog.body_category b))
     = Some (trim (Catalog.body_category b))
  /\ Catalog.varchar_opt 500 (Catalog.body_image_url b)
     = Some (Catalog.body_image_url b).
Proof.
  unfold Catalog.skill_validation_isEmpty. intros Hv Hi.
  apply andb_prop in Hv as [Hv _]. apply andb_prop in Hv as [Hv Hc].
  apply andb_prop in Hv as [Ht _].
  split; [now apply (between_fits 3)|]. split; [now apply (between_fits 2)|].
  destruct (Catalog.body_image_url b) as [u|]; [|reflexivity].
  cbn. now rewrite varchar_fits.
Qed.

Lemma deactivated_skill_gone (id : Z) (st : Catalog.Store) :
  Catalog.select_active_skill id (fst (Catalog.deactivate_skill id st)) = [].
Proof.
  unfold Catalog.select_active_skill. cbn [Catalog.deactivate_skill fst
                                           Catalog.skills].
  apply filter_nil_iff. intros s Hs. apply in_map_iff in Hs as (z & <- & _).
  destruct (Catalog.skill_id z =? id) eqn:E.
  - cbn. now rewrite andb_false_r.
  - now rewrite E.
Qed.

Lemma delete_skill_allowed (p : ReqUser) (id : Z) (st : Catalog.Store)
    (s : Catalog.skill_row) (rest : list Catalog.skill_row) :
  Catalog.select_active_skill id st = s :: rest ->
  req_user_role p = "admin"%string \/ req_user_id p = Catalog.created_by s ->
  Catalog.delete_skill p id st
  = (fst (Catalog.deactivate_skill id st),
     Catalog.SkillDeleted "Skill deleted successfully"
       (hd_error (snd (Catalog.deactivate_skill id st)))).
Proof.
  intros Hs Hp. unfold Catalog.delete_skill. rewrite Hs.
  apply not_owner_nor_admin_false in Hp. rewrite Hp. reflexivity.
Qed.

End SkillRoutes.

(** [DELETE /api/skills/:id] by the owner or an administrator is a soft
    delete, and final: the reply carries a row of that id, now inactive;
    no skill is removed, no row of that id stays active, skills of other
    ids and the users and ratings are untouched.  Afterwards the skill
    is gone for every route: a second delete, a read and a valid update
    of the id all answer [Skill not found] and change nothing. *)
Theorem deleted_skill_is_gone :
  forall isURL st p id s rest,
    Catalog.select_active_skill id st = s :: rest ->
    Routes.req_user_role p = "admin"%string
    \/ Routes.req_user_id p = Catalog.created_by s ->
    let st' := fst (Catalog.delete_skill p id st) in
    (exists r, snd (Catalog.delete_skill p id st)
               = Catalog.SkillDeleted "Skill deleted successfully" (Some r)
               /\ Catalog.skill_id r = id
               /\ Catalog.skill_active r = false)
    /\ Catalog.core st' = Catalog.core st
    /\ map Catalog.skill_id (Catalog.skills st')
       = map Catalog.skill_id (Catalog.skills st)
    /\ (forall z, In z (Catalog.skills st') -> Catalog.skill_id z = id ->
                  Catalog.skill_active z = false)
    /\ (forall z, In z (Catalog.skills st) -> Catalog.skill_id z <> id ->
                  In z (Catalog.skills st'))
    /\ (forall q, Catalog.delete_skill q id st'
                  = (st', Catalog.SkillError 404 "Skill not found"))
    /\ Catalog.get_skill id st' = Catalog.SkillError 404 "Skill not found"
    /\ (forall q b,
           Catalog.skill_validation_isEmpty isURL b = true ->
           Catalog.put_skill isURL q id b st'
           = (st', Catalog.SkillError 404 "Skill not found")).
Proof.
  intros isURL st p id s rest Hs Hp st'. subst st'.
  rewrite (delete_skill_allowed p id st s rest Hs Hp). cbn [fst snd].
  pose proof (deactivated_skill_gone id st) as Gone.
  split; [|split; [|split; [|split; [|split; [|split; [|split]]]]]].
  - cbn [Catalog.deactivate_skill snd].
    assert (Hin : In s (filter (fun z => Catalog.skill_id z =? id)
                               (Catalog.skills st))).
    { assert (Hin : In s (Catalog.select_active_skill id st))
        by (rewrite Hs; now left).
      unfold Catalog.select_active_skill in Hin.
      apply filter_In in Hin as [Hin Hc]. apply andb_prop in Hc as [Hc _].
      apply filter_In. auto. }
    destruct (filter _ (Catalog.skills st)) as [|z zs] eqn:F; [destruct Hin|].
    cbn [map hd_error]. eexists. split; [reflexivity|].
    assert (Hz : In z (filter (fun z => Catalog.skill_id z =? id)
                              (Catalog.skills st))) by (rewrite F; now left).
    apply filter_In in Hz as [_ Hz]. apply Z.eqb_eq in Hz. auto.
  - reflexivity.
  - cbn [Catalog.deactivate_skill fst Catalog.skills].
    rewrite map_map. apply map_ext. intros z.
    destruct (Catalog.skill_id z =? id); reflexivity.
  - intros z Hz Hid.
    cbn [Catalog.deactivate_skill fst Catalog.skills] in Hz.
    apply in_map_iff in Hz as (y & <- & _).
    destruct (Catalog.skill_id y =? id) eqn:E; [reflexivity|].
    apply Z.eqb_neq in E. contradiction.
  - intros z Hz Hne. cbn [Catalog.deactivate_skill fst Catalog.skills].
    apply in_map_iff. exists z. split; [|exact Hz].
    apply Z.eqb_neq in Hne. now rewrite Hne.
  - intros q. unfold Catalog.delete_skill. now rewrite Gone.
  - unfold Catalog.get_skill. now rewrite Gone.
  - intros q b Hv. unfold Catalog.put_skill. now rewrite Hv, Gone.
Qed.

Lemma deleted_skill_is_gone_witness :
  (exists r,
      snd (Catalog.delete_skill Routes.ann 1 Catalog.store_gardening)
      = Catalog.SkillDeleted "Skill deleted successfully" (Some r)
      /\ Catalog.skill_id r = 1
      /\ Catalog.skill_active r = false)
  /\ Catalog.core (fst (Catalog.delete_skill Routes.ann 1 Catalog.store_gardening))
     = Catalog.core Catalog.store_gardening
  /\ map Catalog.skill_id
       (Catalog.skills
          (fst (Catalog.delete_skill Routes.ann 1 Catalog.store_gardening)))
     = map Catalog.skill_id (Catalog.skills Catalog.store_gardening)
  /\ (forall z,
         In z (Catalog.skills
                 (fst (Catalog.delete_skill Routes.ann 1
                         Catalog.store_gardening))) ->
         Catalog.skill_id z = 1 -> Catalog.skill_active z = false)
  /\ (forall z,
         In z (Catalog.skills Catalog.store_gardening) ->
         Catalog.skill_id z <> 1 ->
         In z (Catalog.skills
                 (fst (Catalog.delete_skill Routes.ann 1
                         Catalog.store_gardening))))
  /\ (forall q,
         Catalog.delete_skill q 1
           (fst (Catalog.delete_skill Routes.ann 1 Catalog.store_gardening))
         = (fst (Catalog.delete_skill Routes.ann 1 Catalog.store_gardening),
            Catalog.SkillError 404 "Skill not found"))
  /\ Catalog.get_skill 1
       (fst (Catalog.delete_skill Routes.ann 1 Catalog.store_gardening))
     = Catalog.SkillError 404 "Skill not found"
  /\ (forall q b,
         Catalog.skill_validation_isEmpty Catalog.accept_url b = true ->
         Catalog.put_skill Catalog.accept_url q 1 b
           (fst (Catalog.delete_skill Routes.ann 1 Catalog.store_gardening))
         = (fst (Catalog.delete_skill Routes.ann 1 Catalog.store_gardening),
            Catalog.SkillError 404 "Skill not found")).
Proof.
  apply (deleted_skill_is_gone Catalog.accept_url Catalog.store_gardening
           Routes.ann 1
           (Catalog.mkSkillRow 1 "Gardening" "Growing vegetables on a balcony"
              "outdoors" ["plants"; "food"]%string
              (Some "https://example.org/garden.png"%string) 1 true) []);
    [reflexivity|right; reflexivity].
Defined.

(** A principal who is neither the owner of an active skill nor an
    administrator cannot change it: [DELETE /api/skills/:id] and a valid
    [PUT /api/skills/:id] both answer 403 and return the store as it
    was. *)
Theorem skill_of_another_user_is_protected :
  forall isURL st p id s rest,
    Catalog.select_active_skill id st = s :: rest ->
    Routes.req_user_role p <> "admin"%string ->
    Catalog.created_by s <> Routes.req_user_id p ->
    Catalog.delete_skill p id st
    = (st, Catalog.SkillError 403
             "Access denied - you can only delete your own skills")
    /\ (forall b,
           Catalog.skill_validation_isEmpty isURL b = true ->
           Catalog.put_skill isURL p id b st
           = (st, Catalog.SkillError 403
                    "Access denied - you can only edit your own skills")).
Proof.
  intros isURL st p id s rest Hs Hr Ho.
  assert (N : Routes.not_owner_nor_admin p (Catalog.created_by s) = true).
  { destruct (Routes.not_owner_nor_admin p (Catalog.created_by s)) eqn:E;
      [reflexivity|].
    apply not_owner_nor_admin_false in E. destruct E; congruence. }
  split.
  - unfold Catalog.delete_skill. now rewrite Hs, N.
  - intros b Hv. unfold Catalog.put_skill. now rewrite Hv, Hs, N.
Qed.

Lemma skill_of_another_user_is_protected_witness :
  Catalog.delete_skill Routes.bob 1 Catalog.store_gardening
  = (Catalog.store_gardening,
     Catalog.SkillError 403
       "Access denied - you can only delete your own skills")
  /\ (forall b,
         Catalog.skill_validation_isEmpty Catalog.accept_url b = true ->
         Catalog.put_skill Catalog.accept_url Routes.bob 1 b
           Catalog.store_gardening
         = (Catalog.store_gardening,
            Catalog.SkillError 403
              "Access denied - you can only edit your own skills")).
Proof.
  apply (skill_of_another_user_is_protected Catalog.accept_url
           Catalog.store_gardening Routes.bob 1
           (Catalog.mkSkillRow 1 "Gardening" "Growing vegetables on a balcony"
              "outdoors" ["plants"; "food"]%string
              (Some "https://example.org/garden.png"%string) 1 true) []);
    [reflexivity|discriminate|cbn; lia].
Defined.

(** A valid [PUT /api/skills/:id] by the owner or an administrator, with
    an image URL that fits its column, rewrites the active skill of that
    id with the trimmed title, description and category of the body, and
    with the body's tags and image URL, which are erased when the body
    omits them; id, owner and [active] stay, the skills that are not the
    active one of that id are untouched, and so are the users, the
    ratings and the sequence. *)
Theorem put_skill_rewrites_the_skill :
  forall isURL st p id b s rest,
    Catalog.skill_validation_isEmpty isURL b = true ->
    match Catalog.body_image_url b with
    | None => True
    | Some u => (String.length u <= 500)%nat
    end ->
    Catalog.select_active_skill id st = s :: rest ->
    Routes.req_user_role p = "admin"%string
    \/ Routes.req_user_id p = Catalog.created_by s ->
    let written z :=
      Catalog.mkSkillRow (Catalog.skill_id z) (trim (Catalog.body_title b))
        (trim (Catalog.body_description b)) (trim (Catalog.body_category b))
        (match Catalog.body_tags b with Some t => t | None => [] end)
        (Catalog.body_image_url b) (Catalog.created_by z)
        (Catalog.skill_active z) in
    Catalog.put_skill isURL p id b st
    = (Catalog.mkStore (Catalog.core st)
         (map (fun z => if (Catalog.skill_id z =? id) && Catalog.skill_active z
                        then written z else z) (Catalog.skills st))
         (Catalog.skills_id_seq st),
       Catalog.SkillUpdated "Skill updated successfully" (Some (written s))).
Proof.
  intros isURL st p id b s rest Hv Hi Hs Hp written.
  destruct (valid_body_fits isURL b Hv Hi) as (Ht & Hc & Hu).
  unfold Catalog.put_skill. rewrite Hv, Hs. cbn [negb].
  apply not_owner_nor_admin_false in Hp. rewrite Hp.
  unfold Catalog.update_skill. rewrite Ht, Hc, Hu.
  fold written. unfold Catalog.select_active_skill in Hs. rewrite Hs.
  reflexivity.
Qed.

Lemma put_skill_rewrites_the_skill_witness :
  Catalog.put_skill Catalog.accept_url Routes.ann 1 Catalog.gardening_renamed
    Catalog.store_gardening
  = (Catalog.mkStore (Catalog.core Catalog.store_gardening)
       (map (fun z =>
               if (Catalog.skill_id z =? 1) && Catalog.skill_active z
               then Catalog.mkSkillRow (Catalog.skill_id z)
                      (trim (Catalog.body_title Catalog.gardening_renamed))
                      (trim (Catalog.body_description Catalog.gardening_renamed))
                      (trim (Catalog.body_category Catalog.gardening_renamed))
                      (match Catalog.body_tags Catalog.gardening_renamed with
                       | Some t => t
                       | None => []
                       end)
                      (Catalog.body_image_url Catalog.gardening_renamed)
                      (Catalog.created_by z) (Catalog.skill_active z)
               else z) (Catalog.skills Catalog.store_gardening))
       (Catalog.skills_id_seq Catalog.store_gardening),
     Catalog.SkillUpdated "Skill updated successfully"
       (Some (Catalog.mkSkillRow 1 "Balcony gardening"
                "Growing vegetables on a small balcony" "outdoors" [] None
                1 true))).
Proof.
  apply (put_skill_rewrites_the_skill Catalog.accept_url
           Catalog.store_gardening Routes.ann 1 Catalog.gardening_renamed
           (Catalog.mkSkillRow 1 "Gardening" "Growing vegetables on a balcony"
              "outdoors" ["plants"; "food"]%string
              (Some "https://example.org/garden.png"%string) 1 true) []);
    try reflexivity; try exact I. right. reflexivity.
Defined.

(** [PUT /api/skills/:id] and [DELETE /api/skills/:id] never change the
    id or the owner of any skill, never add or remove a row, and never
    touch the users, the ratings or the id sequence, whatever the
    principal, the body and the reply. *)
Theorem skill_keys_and_owners_never_change :
  forall isURL st p id b,
    let keeps st' :=
      Catalog.core st' = Catalog.core st
      /\ Catalog.skills_id_seq st' = Catalog.skills_id_seq st
      /\ map Catalog.skill_id (Catalog.skills st')
         = map Catalog.skill_id (Catalog.skills st)
      /\ map Catalog.created_by (Catalog.skills st')
         = map Catalog.created_by (Catalog.skills st) in
    keeps (fst (Catalog.put_skill isURL p id b st))
    /\ keeps (fst (Catalog.delete_skill p id st)).
Proof.
  intros isURL st p id b keeps.
  assert (K : keeps st) by (repeat split).
  split.
  - unfold Catalog.put_skill.
    destruct (negb _); [exact K|].
    destruct (Catalog.select_active_skill id st) as [|s rest]; [exact K|].
    destruct (Routes.not_owner_nor_admin p (Catalog.created_by s)); [exact K|].
    unfold Catalog.update_skill.
    destruct (Catalog.varchar 100 _); [|exact K].
    destruct (Catalog.varchar 50 _); [|exact K].
    destruct (Catalog.varchar_opt 500 _); [|exact K].
    cbn [fst]. unfold keeps. cbn [Catalog.core Catalog.skills
                                  Catalog.skills_id_seq].
    repeat split; rewrite map_map; apply map_ext; intros z;
      destruct (_ && _); reflexivity.
  - unfold Catalog.delete_skill.
    destruct (Catalog.select_active_skill id st) as [|s rest]; [exact K|].
    destruct (Routes.not_owner_nor_admin p (Catalog.created_by s)); [exact K|].
    cbn [Catalog.deactivate_skill fst]. unfold keeps.
    cbn [Catalog.core Catalog.skills Catalog.skills_id_seq].
    repeat split; rewrite map_map; apply map_ext; intros z;
      destruct (_ =? _); reflexivity.
Qed.

Section SkillReads.
Import Routes.

Lemma authenticated_row (p : ReqUser) (db : Db) :
  authenticateToken (req_user_id p) db = inl p ->
  exists u rest,
    filter (fun y => (user_id y =? req_user_id p) && active y) (users db)
    = u :: rest
    /\ user_id u = req_user_id p /\ name u = req_user_name p.
Proof.
  unfold authenticateToken.
  destruct (filter _ (users db)) as [|u rest]; [discriminate|].
  intros [= <-]. cbn. eauto.
Qed.

Lemma select_new_skill (st : Catalog.Store) (row : Catalog.skill_row) :
  forallb (fun s => Catalog.skill_id s <=? Catalog.skills_id_seq st)
          (Catalog.skills st) = true ->
  Catalog.skill_id row = Catalog.skills_id_seq st + 1 ->
  Catalog.skill_active row = true ->
  Catalog.select_active_skill (Catalog.skills_id_seq st + 1)
    (Catalog.mkStore (Catalog.core st) (Catalog.skills st ++ [row])
       (Catalog.skills_id_seq st + 1)) = [row].
Proof.
  intros Hids Hid Hact. unfold Catalog.select_active_skill.
  cbn [Catalog.skills]. rewrite filter_app. cbn [filter].
  rewrite Hid, Z.eqb_refl, Hact. cbn [andb].
  replace (filter _ (Catalog.skills st)) with (@nil Catalog.skill_row);
    [reflexivity|].
  symmetry. apply filter_nil_iff. intros s Hs.
  rewrite forallb_forall in Hids. specialize (Hids s Hs).
  apply Z.leb_le in Hids.
  assert (E : (Catalog.skill_id s =? Catalog.skills_id_seq st + 1) = false)
    by (apply Z.eqb_neq; lia).
  now rewrite E.
Qed.

End SkillReads.

(** [POST /api/skills] by an authenticated principal with a valid body
    whose image URL fits its column answers 201 with the new skill: next
    id of the sequence, trimmed title, description and category, the
    tags of the body or none, owned by the principal and active; the row
    is appended and nothing else changes.  [GET /api/skills/:id] of that
    id then serves the same skill with the principal as creator. *)
Theorem posted_skill_is_served :
  forall isURL st p b,
    Routes.authenticateToken (Routes.req_user_id p) (Catalog.core st) = inl p ->
    Catalog.skill_validation_isEmpty isURL b = true ->
    match Catalog.body_image_url b with
    | None => True
    | Some u => (String.length u <= 500)%nat
    end ->
    forallb (fun s => Catalog.skill_id s <=? Catalog.skills_id_seq st)
            (Catalog.skills st) = true ->
    let row :=
      Catalog.mkSkillRow (Catalog.skills_id_seq st + 1)
        (trim (Catalog.body_title b)) (trim (Catalog.body_description b))
        (trim (Catalog.body_category b))
        (match Catalog.body_tags b with Some t => t | None => [] end)
        (Catalog.body_image_url b) (Routes.req_user_id p) true in
    Catalog.post_skill isURL p b st
    = (Catalog.mkStore (Catalog.core st) (Catalog.skills st ++ [row])
         (Catalog.skills_id_seq st + 1),
       Catalog.SkillCreated "Skill created successfully" row
         (Routes.req_user_name p) (Routes.req_user_id p))
    /\ Catalog.get_skill (Catalog.skills_id_seq st + 1)
         (fst (Catalog.post_skill isURL p b st))
       = Catalog.SkillJson row (Routes.req_user_name p) (Routes.req_user_id p)
           (fst (Catalog.rating_aggregates (Catalog.core st)
                   (Routes.req_user_id p)))
           (snd (Catalog.rating_aggregates (Catalog.core st)
                   (Routes.req_user_id p))).
Proof.
  intros isURL st p b Ha Hv Hi Hids row.
  destruct (valid_body_fits isURL b Hv Hi) as (Ht & Hc & Hu).
  assert (P : Catalog.post_skill isURL p b st
              = (Catalog.mkStore (Catalog.core st) (Catalog.skills st ++ [row])
                   (Catalog.skills_id_seq st + 1),
                 Catalog.SkillCreated "Skill created successfully" row
                   (Routes.req_user_name p) (Routes.req_user_id p))).
  { unfold Catalog.post_skill, Catalog.insert_skill.
    rewrite Hv, Ht, Hc, Hu. cbn [negb].
    rewrite (authenticated_exists p (Catalog.core st) Ha). reflexivity. }
  split; [exact P|]. rewrite P. cbn [fst].
  unfold Catalog.get_skill.
  rewrite (select_new_skill st row Hids eq_refl eq_refl).
  cbn [flat_map Catalog.core Catalog.created_by row].
  destruct (authenticated_row p (Catalog.core st) Ha)
    as (u & rest & -> & Hid & Hname).
  cbn [map app]. now rewrite Hid, Hname.
Qed.

Lemma posted_skill_is_served_witness :
  Catalog.post_skill Catalog.accept_url Routes.ann Catalog.gardening
    Catalog.store_start
  = (Catalog.mkStore (Catalog.core Catalog.store_start)
       (Catalog.skills Catalog.store_start
        ++ [Catalog.mkSkillRow 1 "Gardening" "Growing vegetables on a balcony"
              "outdoors" ["plants"; "food"]%string
              (Some "https://example.org/garden.png"%string) 1 true])
       (Catalog.skills_id_seq Catalog.store_start + 1),
     Catalog.SkillCreated "Skill created successfully"
       (Catalog.mkSkillRow 1 "Gardening" "Growing vegetables on a balcony"
          "outdoors" ["plants"; "food"]%string
          (Some "https://example.org/garden.png"%string) 1 true)
       "ann" 1)
  /\ Catalog.get_skill (Catalog.skills_id_seq Catalog.store_start + 1)
       (fst (Catalog.post_skill Catalog.accept_url Routes.ann Catalog.gardening
               Catalog.store_start))
     = Catalog.SkillJson
         (Catalog.mkSkillRow 1 "Gardening" "Growing vegetables on a balcony"
            "outdoors" ["plants"; "food"]%string
            (Some "https://example.org/garden.png"%string) 1 true)
         "ann" 1
         (fst (Catalog.rating_aggregates (Catalog.core Catalog.store_start) 1))
         (snd (Catalog.rating_aggregates (Catalog.core Catalog.store_start) 1)).
Proof.
  apply (posted_skill_is_served Catalog.accept_url Catalog.store_start
           Routes.ann Catalog.gardening); try reflexivity.
  cbn. lia.
Defined.

(** The profile of an active user and the first page of five of the
    user's ratings agree: [GET /api/users/:id] serves the same total and
    the same one-decimal average as [GET /api/ratings/:userId], and its
    recent ratings are exactly that page; the skills it lists are at
    most ten. *)
Theorem profile_agrees_with_ratings_page :
  forall st id u rest,
    filter (fun y => (Routes.user_id y =? id) && Routes.active y)
           (Routes.users (Catalog.core st)) = u :: rest ->
    exists payload listed,
      Routes.get_ratings id (Some 1) (Some 5) (Catalog.core st)
      = (Catalog.core st, Routes.RatingsJson payload)
      /\ Catalog.get_profile id st
         = Catalog.ProfileJson u (Routes.average_rating payload)
             (Routes.total_ratings payload) listed
             (Routes.page_ratings payload)
      /\ (List.length listed <= 10)%nat
      /\ (List.length (Routes.page_ratings payload) <= 5)%nat.
Proof.
  intros st id u rest Hu.
  pose proof (get_ratings_cases id (Some 1) (Some 5) (Catalog.core st)) as G.
  cbv zeta in G. rewrite Hu in G. cbn [orb Z.ltb Z.compare Z.mul Z.sub] in G.
  change ((5 <? 0) || ((1 - 1) * 5 <? 0)) with false in G.
  eexists. eexists. split; [exact G|].
  cbn [Routes.average_rating Routes.total_ratings Routes.page_ratings].
  assert (Hid : Routes.user_id u = id).
  { assert (Hin : In u (filter (fun y => (Routes.user_id y =? id)
                                         && Routes.active y)
                               (Routes.users (Catalog.core st))))
      by (rewrite Hu; now left).
    apply filter_In in Hin as [_ Hc]. apply andb_prop in Hc as [Hc _].
    now apply Z.eqb_eq. }
  split; [|split].
  - unfold Catalog.get_profile. rewrite Hu, Hid.
    unfold Catalog.rating_aggregates. cbn [fst snd].
    change (Z.to_nat 5) with 5%nat. change (Z.to_nat ((1 - 1) * 5)) with 0%nat.
    cbn [skipn]. f_equal.
    destruct (AVG (map Routes.rating (Routes.received (Catalog.core st) id)));
      reflexivity.
  - apply firstn_le_length.
  - apply firstn_le_length.
Qed.

Lemma profile_agrees_with_ratings_page_witness :
  exists payload listed,
    Routes.get_ratings 2 (Some 1) (Some 5) (Catalog.core Catalog.store_gardening)
    = (Catalog.core Catalog.store_gardening, Routes.RatingsJson payload)
    /\ Catalog.get_profile 2 Catalog.store_gardening
       = Catalog.ProfileJson (Routes.mkUserRow 2 "bob" "user" true)
           (Routes.average_rating payload) (Routes.total_ratings payload)
           listed (Routes.page_ratings payload)
    /\ (List.length listed <= 10)%nat
    /\ (List.length (Routes.page_ratings payload) <= 5)%nat.
Proof.
  apply (profile_agrees_with_ratings_page Catalog.store_gardening 2
           (Routes.mkUserRow 2 "bob" "user" true) []).
  reflexivity.
Defined.



(** Once [DELETE /api/ratings/:id] has found the rating and let the
    principal through, nothing another request writes before the delete
    statement runs changes the answer: the reply is [Rating deleted
    successfully], also when the rating is already gone by then, and the
    store is what the other request left, without any row of that id. *)
Theorem delete_rating_answers_success_after_check :
  forall db p id other r rest,
    filter (fun x => Routes.rating_id x =? id) (Routes.ratings db) = r :: rest ->
    Routes.req_user_role p = "admin"%string
    \/ Routes.req_user_id p = Routes.reviewer_id r ->
    Routes.delete_rating_with [fun d => d; other] p id db
    = (Routes.mkDb (Routes.users (other db))
         (filter (fun x => negb (Routes.rating_id x =? id))
                 (Routes.ratings (other db)))
         (Routes.ratings_id_seq (other db)),
       Routes.MessageJson "Rating deleted successfully").
Proof.
  intros db p id other r rest Hr Hp.
  unfold Routes.delete_rating_with, Routes.delete_rating_try.
  cbn [run_with tl]. unfold Routes.select_rating_by_id. rewrite Hr.
  apply not_owner_nor_admin_false in Hp. rewrite Hp. reflexivity.
Qed.

Lemma delete_rating_answers_success_after_check_witness :
  Routes.delete_rating_with
    [fun d => d; fun d => fst (Routes.delete_rating Routes.cy 3 d)]
    Routes.di 3 Routes.db_543
  = (Routes.mkDb
       (Routes.users (fst (Routes.delete_rating Routes.cy 3 Routes.db_543)))
       (filter (fun x => negb (Routes.rating_id x =? 3))
               (Routes.ratings
                  (fst (Routes.delete_rating Routes.cy 3 Routes.db_543))))
       (Routes.ratings_id_seq
          (fst (Routes.delete_rating Routes.cy 3 Routes.db_543))),
     Routes.MessageJson "Rating deleted successfully").
Proof.
  apply (delete_rating_answers_success_after_check Routes.db_543 Routes.di 3
           (fun d => fst (Routes.delete_rating Routes.cy 3 d))
           (Routes.mkRatingRow 3 4 2 3 None) []);
    [reflexivity|right; reflexivity].
Defined.

(** ** The Sequelize back end: the skills controller *)

Section SkillsControllerFacts.
Import SkillsController.

Lemma length_between_fits (lo hi : nat) (s : string) :
  length_between lo hi s = true -> Catalog.varchar hi s = Some s.
Proof.
  unfold length_between. intros H. apply andb_prop in H as [_ H].
  apply Nat.leb_le in H. apply varchar_holds.
  pose proof (chars_le_js_length s). lia.
Qed.

Lemma optional_fits (lo hi : nat) (v : option string) :
  optional (length_between lo hi) v = true ->
  Catalog.varchar_opt hi v = Some v.
Proof.
  destruct v as [s|]; [|reflexivity]. cbn. intros H.
  now rewrite (length_between_fits lo hi s H).
Qed.

Lemma short_fits (n : nat) (v : option string) :
  match v with
  | None => True
  | Some s => (String.length s <= n)%nat
  end ->
  Catalog.varchar_opt n v = Some v.
Proof.
  destruct v as [s|]; [|reflexivity]. cbn. intros H.
  now rewrite varchar_fits.
Qed.

Lemma find_patched (f : Skill -> Skill) (id : Z) (l : list Skill) (s : Skill) :
  (forall z, skill_id (f z) = skill_id z) ->
  find (fun z => skill_id z =? id) l = Some s ->
  find (fun z => skill_id z =? id)
       (map (fun z => if skill_id z =? id then f z else z) l) = Some (f s).
Proof.
  intros Hf. induction l as [|z l IH]; [discriminate|].
  cbn [find map]. destruct (skill_id z =? id) eqn:E.
  - intros [= ->]. cbn [find]. now rewrite Hf, E.
  - intros H. cbn [find]. rewrite E. auto.
Qed.

Lemma find_in_appended (l : list Skill) (row : Skill) (n : Z) :
  forallb (fun z => skill_id z <=? n) l = true ->
  skill_id row = n + 1 ->
  find (fun z => skill_id z =? n + 1) (l ++ [row]) = Some row.
Proof.
  intros H Hid. rewrite find_app_none.
  - cbn. now rewrite Hid, Z.eqb_refl.
  - apply find_none_forallb. revert H. apply forallb_impl. intros z Hz.
    apply Z.leb_le in Hz. apply negb_true_iff, Z.eqb_neq. lia.
Qed.

End SkillsControllerFacts.

(** [updateSkill] is a partial update reserved to the owner.  For the
    owner, a valid body whose [timeCommitment] and [location], if given,
    fit their columns rewrites on the skill exactly the keys the body
    carries and keeps every other field; id, owner and [isActive] never
    change and the other skills are untouched; the reply carries the
    skill as rewritten.  For anyone else the reply is 403 and the store
    is unchanged. *)
Theorem updateSkill_patches_for_owner_only :
  forall user id body st s,
    SkillsController.updateSkillSchema_parse body = Some body ->
    SkillsController.Skill_findByPk id st = Some s ->
    (SkillsController.userId s = user ->
     match SkillsController.body_timeCommitment body with
     | None => True
     | Some v => (String.length v <= 100)%nat
     end ->
     match SkillsController.body_location body with
     | None => True
     | Some v => (String.length v <= 100)%nat
     end ->
     SkillsController.updateSkill user id body st
     = (SkillsController.mkStore (SkillsController.users st)
          (map (fun z => if SkillsController.skill_id z =? id
                         then SkillsController.patched body z else z)
               (SkillsController.skills st))
          (SkillsController.skills_id_seq st),
        SkillsController.SkillSaved 200 "Skill updated successfully"
          (Some (SkillsController.patched body s,
                 find (fun u => Sequelize.user_id u =? SkillsController.userId s)
                      (SkillsController.users st)))))
    /\ (SkillsController.userId s <> user ->
        SkillsController.updateSkill user id body st
        = (st, SkillsController.ErrorJson 403
                 "You can only update your own skills")).
Proof.
  intros user id body st s Hp Hs. split.
  - intros Ho Htc Hloc. unfold SkillsController.updateSkill.
    rewrite Hp, Hs. apply Z.eqb_eq in Ho. rewrite Ho. cbn [negb].
    unfold SkillsController.Skill_update.
    unfold SkillsController.updateSkillSchema_parse in Hp.
    destruct (_ && _) eqn:V; [|discriminate].
    apply andb_prop in V as [V _]. apply andb_prop in V as [V _].
    apply andb_prop in V as [V Hc]. apply andb_prop in V as [Ht _].
    rewrite (optional_fits 1 100 _ Ht), (optional_fits 1 50 _ Hc).
    rewrite (short_fits 100 _ Htc), (short_fits 100 _ Hloc).
    assert (Hid : SkillsController.skill_id s = id).
    { unfold SkillsController.Skill_findByPk in Hs.
      apply find_some in Hs as [_ Hs]. now apply Z.eqb_eq. }
    assert (Eb : SkillsController.mkBody (SkillsController.body_title body)
                   (SkillsController.body_description body)
                   (SkillsController.body_category body)
                   (SkillsController.body_skillLevel body)
                   (SkillsController.body_skillType body)
                   (SkillsController.body_timeCommitment body)
                   (SkillsController.body_location body) = body)
      by now destruct body.
    rewrite Eb, Hid. f_equal. f_equal.
    unfold SkillsController.Skill_findByPk_with_user,
      SkillsController.Skill_findByPk.
    cbn [SkillsController.skills SkillsController.users].
    rewrite (find_patched (SkillsController.patched body) id _ s);
      [reflexivity|reflexivity|exact Hs].
  - intros Ho. unfold SkillsController.updateSkill. rewrite Hp, Hs.
    apply Z.eqb_neq in Ho. now rewrite Ho.
Qed.

Lemma updateSkill_patches_for_owner_only_witness :
  SkillsController.updateSkill 1 1 SkillsController.new_place
    SkillsController.store_teaching
  = (SkillsController.mkStore
       (SkillsController.users SkillsController.store_teaching)
       (map (fun z => if SkillsController.skill_id z =? 1
                      then SkillsController.patched SkillsController.new_place z
                      else z)
            (SkillsController.skills SkillsController.store_teaching))
       (SkillsController.skills_id_seq SkillsController.store_teaching),
     SkillsController.SkillSaved 200 "Skill updated successfully"
       (Some (SkillsController.patched SkillsController.new_place
                (SkillsController.mkSkill 1 1 "Teaching Rocq" "Evening classes"
                   "logic" "expert" "offering" (Some "2h a week"%string)
                   None true),
              find (fun u => Sequelize.user_id u =? 1)
                   (SkillsController.users SkillsController.store_teaching))))
  /\ SkillsController.updateSkill 2 1 SkillsController.new_place
       SkillsController.store_teaching
     = (SkillsController.store_teaching,
        SkillsController.ErrorJson 403 "You can only update your own skills").
Proof.
  pose proof (updateSkill_patches_for_owner_only 1 1 SkillsController.new_place
                SkillsController.store_teaching
                (SkillsController.mkSkill 1 1 "Teaching Rocq" "Evening classes"
                   "logic" "expert" "offering" (Some "2h a week"%string)
                   None true) eq_refl eq_refl) as [Hown _].
  pose proof (updateSkill_patches_for_owner_only 2 1 SkillsController.new_place
                SkillsController.store_teaching
                (SkillsController.mkSkill 1 1 "Teaching Rocq" "Evening classes"
                   "logic" "expert" "offering" (Some "2h a week"%string)
                   None true) eq_refl eq_refl) as [_ Hother].
  split.
  - apply Hown; [reflexivity|exact I|cbn; lia].
  - apply Hother. cbn. lia.
Defined.

(** [createSkill] by an existing user with a valid body whose optional
    texts fit their columns answers 201 with the new skill, owned by the
    user, active, with the next id of the sequence; the row is appended
    and [getSkillById] of that id then serves the same skill. *)
Theorem created_skill_is_found :
  forall user body st t d c lvl typ,
    SkillsController.createSkillSchema_parse body = Some body ->
    SkillsController.body_title body = Some t ->
    SkillsController.body_description body = Some d ->
    SkillsController.body_category body = Some c ->
    SkillsController.body_skillLevel body = Some lvl ->
    SkillsController.body_skillType body = Some typ ->
    match SkillsController.body_timeCommitment body with
    | None => True
    | Some v => (String.length v <= 100)%nat
    end ->
    match SkillsController.body_location body with
    | None => True
    | Some v => (String.length v <= 100)%nat
    end ->
    existsb (fun u => Sequelize.user_id u =? user) (SkillsController.users st)
    = true ->
    forallb (fun z => SkillsController.skill_id z
                      <=? SkillsController.skills_id_seq st)
            (SkillsController.skills st) = true ->
    let row :=
      SkillsController.mkSkill (SkillsController.skills_id_seq st + 1) user
        t d c lvl typ (SkillsController.body_timeCommitment body)
        (SkillsController.body_location body) true in
    let owner := find (fun u => Sequelize.user_id u =? user)
                      (SkillsController.users st) in
    SkillsController.createSkill user body st
    = (SkillsController.mkStore (SkillsController.users st)
         (SkillsController.skills st ++ [row])
         (SkillsController.skills_id_seq st + 1),
       SkillsController.SkillSaved 201 "Skill created successfully"
         (Some (row, owner)))
    /\ SkillsController.getSkillById (SkillsController.skills_id_seq st + 1)
         (fst (SkillsController.createSkill user body st))
       = SkillsController.SkillFound row owner.
Proof.
  intros user body st t d c lvl typ Hp Ht Hd Hc Hl Hy Htc Hloc Hu Hids
         row owner.
  assert (P : SkillsController.createSkill user body st
              = (SkillsController.mkStore (SkillsController.users st)
                   (SkillsController.skills st ++ [row])
                   (SkillsController.skills_id_seq st + 1),
                 SkillsController.SkillSaved 201 "Skill created successfully"
                   (Some (row, owner)))).
  { unfold SkillsController.createSkill. rewrite Hp.
    unfold SkillsController.Skill_create.
    unfold SkillsController.createSkillSchema_parse in Hp.
    destruct (_ && _) eqn:V; [|discriminate].
    apply andb_prop in V as [V _]. apply andb_prop in V as [V _].
    apply andb_prop in V as [V Vc]. apply andb_prop in V as [Vt _].
    rewrite Ht, Hd, Hc, Hl, Hy in *. cbn [SkillsController.or_else].
    cbn [SkillsController.required] in Vt, Vc.
    rewrite (length_between_fits 1 100 t Vt), (length_between_fits 1 50 c Vc).
    rewrite (short_fits 100 _ Htc), (short_fits 100 _ Hloc), Hu.
    fold row. f_equal. f_equal.
    unfold SkillsController.Skill_findByPk_with_user,
      SkillsController.Skill_findByPk.
    cbn [SkillsController.skills SkillsController.users
         SkillsController.skill_id row].
    rewrite (find_in_appended _ row _ Hids eq_refl). reflexivity. }
  split; [exact P|]. rewrite P. cbn [fst].
  unfold SkillsController.getSkillById,
    SkillsController.Skill_findByPk_with_user, SkillsController.Skill_findByPk.
  cbn [SkillsController.skills SkillsController.users].
  rewrite (find_in_appended _ row _ Hids eq_refl). reflexivity.
Qed.

Lemma created_skill_is_found_witness :
  SkillsController.createSkill 2 SkillsController.teaching
    SkillsController.store_teaching
  = (SkillsController.mkStore
       (SkillsController.users SkillsController.store_teaching)
       (SkillsController.skills SkillsController.store_teaching
        ++ [SkillsController.mkSkill 2 2 "Teaching Rocq" "Evening classes"
              "logic" "expert" "offering" (Some "2h a week"%string) None true])
       (SkillsController.skills_id_seq SkillsController.store_teaching + 1),
     SkillsController.SkillSaved 201 "Skill created successfully"
       (Some (SkillsController.mkSkill 2 2 "Teaching Rocq" "Evening classes"
                "logic" "expert" "offering" (Some "2h a week"%string) None true,
              Some (Sequelize.fresh 2))))
  /\ SkillsController.getSkillById
       (SkillsController.skills_id_seq SkillsController.store_teaching + 1)
       (fst (SkillsController.createSkill 2 SkillsController.teaching
               SkillsController.store_teaching))
     = SkillsController.SkillFound
         (SkillsController.mkSkill 2 2 "Teaching Rocq" "Evening classes"
            "logic" "expert" "offering" (Some "2h a week"%string) None true)
         (Some (Sequelize.fresh 2)).
Proof.
  apply (created_skill_is_found 2 SkillsController.teaching
           SkillsController.store_teaching "Teaching Rocq" "Evening classes"
           "logic" "expert" "offering");
    try reflexivity; try exact I.
  cbn. lia.
Defined.

(** The schema of [createSkill] puts no bound on [location], while its
    column holds 100 characters: a body that is valid but whose location
    runs past 100 characters with anything but spaces passes the
    validation and is refused by the store; the error goes to
    [next(error)] and nothing is stored. *)
Theorem long_location_passes_validation_and_fails :
  forall user body st l,
    SkillsController.createSkillSchema_parse body = Some body ->
    SkillsController.body_location body = Some l ->
    (100 < chars l)%nat ->
    forallb (fun a => Nat.eqb (Ascii.nat_of_ascii a) 32)
            (list_ascii_of_string (drop_chars 100 l))
    = false ->
    SkillsController.createSkill user body st
    = (st, SkillsController.NextError Catalog.ValueTooLong).
Proof.
  intros user body st l Hp Hl Hlen Hsp.
  unfold SkillsController.createSkill. rewrite Hp.
  unfold SkillsController.Skill_create. rewrite Hl.
  assert (E : Catalog.varchar_opt 100 (Some l) = None).
  { cbn. unfold Catalog.varchar.
    assert (G : Nat.leb (chars l) 100 = false)
      by (apply Nat.leb_gt; lia).
    now rewrite G, Hsp. }
  destruct (Catalog.varchar 100 _); [|reflexivity].
  destruct (Catalog.varchar 50 _); [|reflexivity].
  destruct (Catalog.varchar_opt 100 (SkillsController.body_timeCommitment body));
    [|reflexivity].
  now rewrite E.
Qed.

Lemma long_location_passes_validation_and_fails_witness :
  SkillsController.createSkill 2 SkillsController.teaching_far_away
    SkillsController.store_teaching
  = (SkillsController.store_teaching,
     SkillsController.NextError Catalog.ValueTooLong).
Proof.
  apply (long_location_passes_validation_and_fails 2
           SkillsController.teaching_far_away SkillsController.store_teaching
           (String.concat "" (repeat "Lyon"%string 26)));
    try reflexivity.
  apply Nat.ltb_lt. reflexivity.
Defined.
